(** * Warm transfer orchestration: a shallow embedding of the backend services

    The development follows [backend/app/services/transfer_service.py]
    ([WarmTransferService]), [backend/app/services/livekit_service.py]
    ([LiveKitService]), [backend/app/services/ai_service.py] ([AIService])
    and [backend/app/core/websocket_manager.py] ([ConnectionManager]).

    Python objects that are mutated in place (the service dictionaries) become
    fields of an explicit state; a coroutine becomes a function in a state and
    exception monad; every interaction with the outside (LiveKit server, LLM
    provider, database session, websocket) is answered by an oracle and is
    appended to a trace.  A request runs to its end before the next one
    starts: the interleaving of coroutines at their awaits is not modelled,
    except for the cancellation of a task by itself. *)

From stdpp Require Import gmap strings list fin_maps pretty.

#[local] Set Warnings "-register-all".
Open Scope string_scope.

(** ** Python values and exceptions *)

Module Py.

(** The JSON-like values that travel between the services. *)
Inductive pyval :=
| PyNone
| PyBool (b : bool)
| PyReal (num : Z) (den : positive)
| PyStr (s : string)
| PyList (elems : list pyval)
| PyDict (items : list (string * pyval)).

(** Exception classes raised in the modelled code.  [CancelledError] derives
    from [BaseException] (Python 3.8 and later): an [except Exception] clause
    does not catch it. *)
Inductive exn :=
| ValueError (msg : string)
| TypeError (msg : string)
| KeyError (key : string)
| AttributeError (msg : string)
| Exception (msg : string)
| CancelledError.

(** [str(e)], as interpolated by the f-strings of the handlers. *)
Definition str (e : exn) : string :=
  match e with
  | ValueError m | TypeError m | AttributeError m | Exception m => m
  | KeyError k => "'" ++ k ++ "'"
  | CancelledError => EmptyString
  end.

(** [isinstance(e, Exception)]. *)
Definition is_Exception (e : exn) : bool :=
  match e with
  | CancelledError => false
  | _ => true
  end.

Inductive result (A : Type) :=
| Ok (a : A)
| Raise (e : exn).
Arguments Ok {A} a.
Arguments Raise {A} e.

(** The value of a call that returned. *)
Definition value {A} (r : result A) : option A :=
  match r with
  | Ok a => Some a
  | Raise _ => None
  end.

Fixpoint assoc {A} (k : string) (d : list (string * A)) : option A :=
  match d with
  | [] => None
  | (k', v) :: d' => if String.eqb k k' then Some v else assoc k d'
  end.

(** [v[k]] for a string key [k]. *)
Definition subscript (v : pyval) (k : string) : result pyval :=
  match v with
  | PyDict d =>
      match assoc k d with
      | Some x => Ok x
      | None => Raise (KeyError k)
      end
  | PyStr _ => Raise (TypeError "string indices must be integers, not 'str'")
  | PyList _ => Raise (TypeError "list indices must be integers or slices, not str")
  | PyNone => Raise (TypeError "'NoneType' object is not subscriptable")
  | PyBool _ => Raise (TypeError "'bool' object is not subscriptable")
  | PyReal _ _ => Raise (TypeError "'float' object is not subscriptable")
  end.

(** Truth value of an object in a condition. *)
Definition truthy (v : pyval) : bool :=
  match v with
  | PyNone => false
  | PyBool b => b
  | PyReal n _ => negb (n =? 0)%Z
  | PyStr s => negb (String.eqb s EmptyString)
  | PyList l => match l with [] => false | _ => true end
  | PyDict d => match d with [] => false | _ => true end
  end.

(** [v.get(k, default)]: only dictionaries have the method. *)
Definition get_default (v : pyval) (k : string) (default : pyval) : result pyval :=
  match v with
  | PyDict d => Ok (match assoc k d with Some x => x | None => default end)
  | PyStr _ => Raise (AttributeError "'str' object has no attribute 'get'")
  | PyList _ => Raise (AttributeError "'list' object has no attribute 'get'")
  | PyNone => Raise (AttributeError "'NoneType' object has no attribute 'get'")
  | PyBool _ => Raise (AttributeError "'bool' object has no attribute 'get'")
  | PyReal _ _ => Raise (AttributeError "'float' object has no attribute 'get'")
  end.

(** [a or b] on optional strings. *)
Definition or_else (a : option string) (b : string) : string :=
  match a with
  | Some s => if String.eqb s EmptyString then b else s
  | None => b
  end.

(** [s.lower()] on the ASCII letters; Python also lower-cases the letters
    outside ASCII, which are left as they are here. *)
Definition lower_ascii (c : Ascii.ascii) : Ascii.ascii :=
  let n := Ascii.nat_of_ascii c in
  if (65 <=? n)%nat && (n <=? 90)%nat then Ascii.ascii_of_nat (n + 32) else c.

Fixpoint lower (s : string) : string :=
  match s with
  | EmptyString => EmptyString
  | String c s' => String (lower_ascii c) (lower s')
  end.

(** [needle in haystack] on strings. *)
Fixpoint contains (needle haystack : string) : bool :=
  String.prefix needle haystack
  || match haystack with
     | EmptyString => false
     | String _ h' => contains needle h'
     end.

End Py.
Export Py.

(** ** A state and exception monad

    The state survives a raised exception, as the mutations of a Python
    object survive the exception that interrupts the method. *)

Definition ST (S A : Type) : Type := S -> result A * S.

Definition ret {S A} (a : A) : ST S A := fun s => (Ok a, s).

Definition bind {S A B} (m : ST S A) (k : A -> ST S B) : ST S B :=
  fun s =>
    match m s with
    | (Ok a, s') => k a s'
    | (Raise e, s') => (Raise e, s')
    end.

Definition raise {S A} (e : exn) : ST S A := fun s => (Raise e, s).

Definition gets {S A} (f : S -> A) : ST S A := fun s => (Ok (f s), s).

Definition modify {S} (f : S -> S) : ST S unit := fun s => (Ok tt, f s).

(** [try: body except Exception as e: handler e]. *)
Definition try_except {S A} (body : ST S A) (handler : exn -> ST S A) : ST S A :=
  fun s =>
    match body s with
    | (Ok a, s') => (Ok a, s')
    | (Raise e, s') => if is_Exception e then handler e s' else (Raise e, s')
    end.

(** A pure computation that may raise. *)
Definition of_result {S A} (r : result A) : ST S A := fun s => (r, s).

Declare Scope st_scope.
Delimit Scope st_scope with st.
Notation "x <- m ;; k" := (bind m (fun x => k))
  (at level 100, m at next level, right associativity) : st_scope.
Notation "m ;;; k" := (bind m (fun _ => k))
  (at level 100, right associativity) : st_scope.
Open Scope st_scope.

(** Run a computation on one component of a larger state. *)
Definition zoom {S T A} (get : T -> S) (put : S -> T -> T) (m : ST S A) : ST T A :=
  fun t => let (r, s') := m (get t) in (r, put s' t).

(** ** The outside world

    Every request that leaves the process is recorded in [trace]; its result
    is what [oracle] answers at that position of the trace, so that any
    pattern of upstream failures is some oracle.  [uuids] is the stream read
    by [uuid.uuid4()], [now] the clock read by [datetime.utcnow()].

    [task] and [must_cancel] describe the asyncio task that runs the current
    coroutine: [task = Some tid] inside the timeout task created for transfer
    [tid], [None] inside a request handler; [must_cancel] is the task's
    pending cancellation, delivered as [CancelledError] at the next await
    that suspends. *)

Inductive ext_call :=
| DbSession
| LkCreateRoom (name : string) (max_participants : nat)
| LkDeleteRoom (name : string)
| LkRemoveParticipant (room identity : string)
| LkSendData (room : string) (data : pyval)
| ChatCompletion (provider : string)
| WsSendText (client : string) (message : pyval).

Inductive outcome :=
| Replied (payload : string)
| Broke (msg : string).

Record env := {
  oracle : nat -> ext_call -> outcome;
  trace : list ext_call;
  now : nat;
  uuids : nat -> string;
  uuid_ctr : nat;
  task : option string;
  must_cancel : bool
}.

Definition set_trace (f : list ext_call -> list ext_call) (e : env) : env :=
  {| oracle := oracle e; trace := f (trace e); now := now e; uuids := uuids e;
     uuid_ctr := uuid_ctr e; task := task e; must_cancel := must_cancel e |}.

Definition set_now (f : nat -> nat) (e : env) : env :=
  {| oracle := oracle e; trace := trace e; now := f (now e); uuids := uuids e;
     uuid_ctr := uuid_ctr e; task := task e; must_cancel := must_cancel e |}.

Definition set_uuid_ctr (f : nat -> nat) (e : env) : env :=
  {| oracle := oracle e; trace := trace e; now := now e; uuids := uuids e;
     uuid_ctr := f (uuid_ctr e); task := task e; must_cancel := must_cancel e |}.

Definition set_task (t : option string) (c : bool) (e : env) : env :=
  {| oracle := oracle e; trace := trace e; now := now e; uuids := uuids e;
     uuid_ctr := uuid_ctr e; task := t; must_cancel := c |}.

(** A state that contains the outside world. *)
Class HasEnv (S : Type) := {
  get_env : S -> env;
  put_env : env -> S -> S
}.

#[export] Instance env_HasEnv : HasEnv env :=
  {| get_env := fun e => e; put_env := fun e _ => e |}.

#[export] Instance pair_HasEnv {X} : HasEnv (X * env) :=
  {| get_env := snd; put_env := fun e s => (fst s, e) |}.

Module Env.

(** A request to the outside that does not suspend the coroutine (the
    synchronous SQLAlchemy session). *)
Definition call_out (c : ext_call) : ST env string :=
  fun e =>
    let e' := set_trace (fun t => (t ++ [c])%list) e in
    match oracle e (length (trace e)) c with
    | Replied p => (Ok p, e')
    | Broke m => (Raise (Exception m), e')
    end.

(** An awaited network request: a suspension point, where a pending
    cancellation of the running task is delivered instead. *)
Definition await_io (c : ext_call) : ST env string :=
  fun e =>
    if must_cancel e
    then (Raise CancelledError, set_task (task e) false e)
    else call_out c e.

(** [datetime.utcnow()]. *)
Definition utcnow : ST env nat :=
  fun e => (Ok (now e), set_now S e).

(** [str(uuid.uuid4())]. *)
Definition uuid4 : ST env string :=
  fun e => (Ok (uuids e (uuid_ctr e)), set_uuid_ctr S e).

(** [t.cancel()] on the timeout task of transfer [tid]: a task that sleeps
    is cancelled there (it never runs its body); the running task only gets
    its cancellation requested. *)
Definition task_cancel (tid : string) : ST env unit :=
  fun e =>
    if decide (task e = Some tid)
    then (Ok tt, set_task (task e) true e)
    else (Ok tt, e).

End Env.

Definition call_out {S} `{HasEnv S} (c : ext_call) : ST S string :=
  zoom get_env put_env (Env.call_out c).
Definition await_io {S} `{HasEnv S} (c : ext_call) : ST S string :=
  zoom get_env put_env (Env.await_io c).
Definition utcnow {S} `{HasEnv S} : ST S nat :=
  zoom get_env put_env Env.utcnow.
Definition uuid4 {S} `{HasEnv S} : ST S string :=
  zoom get_env put_env Env.uuid4.
Definition task_cancel {S} `{HasEnv S} (tid : string) : ST S unit :=
  zoom get_env put_env (Env.task_cancel tid).

(** [uuid.uuid4().hex[:n]], for [n <= 8]: the first group of the textual
    form has no dash. *)
Definition uuid4_hex {S} `{HasEnv S} (n : nat) : ST S string :=
  u <- uuid4 ;; ret (String.substring 0 n u).

(** ** Statuses and phases of a transfer (the string constants of the code) *)

Inductive Status :=
| initiated | in_progress | completed | failed | cancelled | error.

Inductive Phase :=
| waiting_for_agents | briefing.

#[export] Instance status_eq_dec : EqDecision Status.
Proof. solve_decision. Defined.
#[export] Instance phase_eq_dec : EqDecision Phase.
Proof. solve_decision. Defined.

(** ** The relational store ([app/models], reached through [get_db]) *)

Module Database.

Record call_row := {
  c_id : nat;
  c_call_id : string;
  c_room_name : string;
  c_caller_info : pyval;
  c_started_at : option nat;
  c_priority : string
}.

Record agent_row := {
  a_id : nat;
  a_agent_id : string;
  is_available : bool;
  a_status : string;
  current_calls : Z;
  max_concurrent_calls : Z;
  total_calls_handled : Z;
  successful_transfers : Z
}.

Record transfer_row := {
  t_transfer_id : string;
  t_call_id : nat;
  t_source_agent_id : nat;
  t_target_agent_id : nat;
  t_transfer_type : string;
  t_reason : option string;
  t_transfer_room_name : string;
  t_status : Status;
  t_ai_summary : pyval;
  t_sentiment_analysis : pyval;
  t_ai_context : option pyval;
  t_completed_at : option nat;
  t_duration_seconds : option nat;
  t_was_successful : option bool;
  t_agent_feedback : option string
}.

(** The three tables, each keyed by its unique external identifier. *)
Record db_state := {
  calls : gmap string call_row;
  agents : gmap string agent_row;
  transfers : gmap string transfer_row
}.

Definition set_agents (f : gmap string agent_row -> gmap string agent_row)
    (d : db_state) : db_state :=
  {| calls := calls d; agents := f (agents d); transfers := transfers d |}.

Definition set_transfers (f : gmap string transfer_row -> gmap string transfer_row)
    (d : db_state) : db_state :=
  {| calls := calls d; agents := agents d; transfers := f (transfers d) |}.

(** [with next(get_db()) as db: body]: the session may break; otherwise the
    body runs on the tables.  The bodies of the modelled blocks raise, if they
    do, before their first write. *)
Definition session {A} (body : ST db_state A) : ST (db_state * env) A :=
  call_out DbSession ;;;
  zoom fst (fun d s => (d, snd s)) body.

End Database.

(** [for x in l: body x]. *)
Fixpoint for_each {S A} (l : list A) (body : A -> ST S unit) : ST S unit :=
  match l with
  | [] => ret tt
  | x :: l' => body x ;;; for_each l' body
  end.

(** ** The room gateway: [LiveKitService] *)

Module LiveKit.

Definition metadata := list (string * pyval).

Record participant := {
  p_identity : string;
  p_name : string;
  p_role : string;
  p_joined_at : nat;
  p_metadata : metadata
}.

Record room := {
  r_name : string;
  r_created_at : nat;
  r_max_participants : nat;
  r_metadata : metadata;
  r_participants : gmap string participant;
  r_status : string
}.

(** The gateway's own record of a transfer ([self.active_transfers] of
    [LiveKitService], not the orchestrator's). *)
Record transfer := {
  lt_transfer_id : string;
  lt_transfer_room : string;
  lt_original_room : string;
  lt_agent_a : string;
  lt_agent_b : string;
  lt_caller : pyval;
  lt_status : Status;
  lt_created_at : nat;
  lt_completed_at : option nat;
  lt_error : option string
}.

Record session := {
  s_room_name : string;
  s_joined_at : nat;
  s_role : string
}.

(** The content of the signed token of [generate_access_token]: the grant
    is [room_join] on [tk_room] with publish, subscribe and data rights.
    Signing is the work of the [livekit] package, which is not part of the
    repository: the token is modelled by its content, for the key and the
    secret of the settings and for an identity and a room that are not empty
    (the package refuses the others). *)
Record access_token := {
  tk_identity : string;
  tk_name : string;
  tk_metadata : option metadata;
  tk_room : string;
  tk_ttl_hours : nat
}.

Record state := {
  ws_url : string;
  lk_api : bool;
  active_rooms : gmap string room;
  active_transfers : gmap string transfer;
  participant_sessions : gmap string session
}.

Definition set_lk_api (b : bool) (s : state) : state :=
  {| ws_url := ws_url s; lk_api := b; active_rooms := active_rooms s;
     active_transfers := active_transfers s;
     participant_sessions := participant_sessions s |}.

Definition set_active_rooms (f : gmap string room -> gmap string room)
    (s : state) : state :=
  {| ws_url := ws_url s; lk_api := lk_api s; active_rooms := f (active_rooms s);
     active_transfers := active_transfers s;
     participant_sessions := participant_sessions s |}.

Definition set_active_transfers
    (f : gmap string transfer -> gmap string transfer) (s : state) : state :=
  {| ws_url := ws_url s; lk_api := lk_api s; active_rooms := active_rooms s;
     active_transfers := f (active_transfers s);
     participant_sessions := participant_sessions s |}.

Definition set_participant_sessions
    (f : gmap string session -> gmap string session) (s : state) : state :=
  {| ws_url := ws_url s; lk_api := lk_api s; active_rooms := active_rooms s;
     active_transfers := active_transfers s;
     participant_sessions := f (participant_sessions s) |}.

Definition LK (A : Type) : Type := ST (state * env) A.

Definition gets_lk {A} (f : state -> A) : LK A := gets (fun s => f (fst s)).
Definition modify_lk (f : state -> state) : LK unit :=
  modify (fun s => (f (fst s), snd s)).

Record room_info := {
  ri_room_name : string;
  ri_room_id : string;
  ri_ws_url : string;
  ri_max_participants : nat
}.

Record access_info := {
  access_token_of : access_token;
  ai_room_name : string;
  ai_ws_url : string;
  ai_participant_identity : string;
  ai_role : string
}.

Record transfer_room_info := {
  transfer_room_of : string;
  tri_room_info : room_info;
  tri_transfer_id : string
}.

(** [_get_api_client]: the client is built on first use. *)
Definition _get_api_client : LK unit := modify_lk (set_lk_api true).

(** [self.lk_api.room], used without [_get_api_client] by some methods. *)
Definition lk_api_room : LK unit :=
  api <- gets_lk lk_api ;;
  if api then ret tt
  else raise (AttributeError "'NoneType' object has no attribute 'room'").

Definition generate_access_token (room_name participant_identity : string)
    (participant_name : option string) (meta : option metadata) : access_token :=
  {| tk_identity := participant_identity;
     tk_name := or_else participant_name participant_identity;
     tk_metadata := match meta with
                    | Some ((_ :: _) as m) => Some m
                    | _ => None
                    end;
     tk_room := room_name;
     tk_ttl_hours := 6 |}.

Definition meta_or_empty (meta : option metadata) : metadata :=
  match meta with Some m => m | None => [] end.

(** The reply of the server carries the room's [sid]; its [creation_time]
    is not kept here. *)
Definition create_room (room_name : option string) (max_participants : nat)
    (meta : option metadata) : LK room_info :=
  room_name <- (if String.eqb (or_else room_name EmptyString) EmptyString
                then h <- uuid4_hex 8 ;; ret ("room_" ++ h)
                else ret (or_else room_name EmptyString)) ;;
  try_except
    (_get_api_client ;;;
     sid <- await_io (LkCreateRoom room_name max_participants) ;;
     t <- utcnow ;;
     modify_lk (set_active_rooms
       (<[room_name := {| r_name := room_name; r_created_at := t;
                          r_max_participants := max_participants;
                          r_metadata := meta_or_empty meta;
                          r_participants := ∅; r_status := "active" |}]>)) ;;;
     url <- gets_lk ws_url ;;
     ret {| ri_room_name := room_name; ri_room_id := sid; ri_ws_url := url;
            ri_max_participants := max_participants |})
    (fun e => raise (Exception ("Failed to create room: " ++ str e))).

Definition delete_room (room_name : string) : LK bool :=
  try_except
    (_get_api_client ;;;
     _ <- await_io (LkDeleteRoom room_name) ;;
     modify_lk (set_active_rooms (delete room_name)) ;;;
     ret true)
    (fun _ => ret false).

Definition add_room_participant (p : participant) (r : room) : room :=
  {| r_name := r_name r; r_created_at := r_created_at r;
     r_max_participants := r_max_participants r; r_metadata := r_metadata r;
     r_participants := <[p_identity p := p]> (r_participants r);
     r_status := r_status r |}.

Definition pop_room_participant (identity : string) (r : room) : room :=
  {| r_name := r_name r; r_created_at := r_created_at r;
     r_max_participants := r_max_participants r; r_metadata := r_metadata r;
     r_participants := delete identity (r_participants r);
     r_status := r_status r |}.

Definition add_participant_to_room (room_name participant_identity : string)
    (participant_name : option string) (role : string)
    (meta : option metadata) : LK access_info :=
  try_except
    (let token := generate_access_token room_name participant_identity
                    participant_name meta in
     rooms <- gets_lk active_rooms ;;
     (if decide (is_Some (rooms !! room_name)) then
        t <- utcnow ;;
        modify_lk (set_active_rooms (alter (add_room_participant
          {| p_identity := participant_identity;
             p_name := or_else participant_name participant_identity;
             p_role := role; p_joined_at := t;
             p_metadata := meta_or_empty meta |}) room_name))
      else ret tt) ;;;
     t <- utcnow ;;
     modify_lk (set_participant_sessions
       (<[participant_identity := {| s_room_name := room_name; s_joined_at := t;
                                     s_role := role |}]>)) ;;;
     url <- gets_lk ws_url ;;
     ret {| access_token_of := token; ai_room_name := room_name;
            ai_ws_url := url; ai_participant_identity := participant_identity;
            ai_role := role |})
    (fun e => raise (Exception ("Failed to add participant: " ++ str e))).

Definition remove_participant_from_room (room_name participant_identity : string)
    : LK bool :=
  try_except
    (lk_api_room ;;;
     _ <- await_io (LkRemoveParticipant room_name participant_identity) ;;
     modify_lk (set_active_rooms
       (alter (pop_room_participant participant_identity) room_name)) ;;;
     modify_lk (set_participant_sessions (delete participant_identity)) ;;;
     ret true)
    (fun _ => ret false).

Definition create_transfer_room (original_room agent_a_identity
    agent_b_identity : string) (caller_identity : pyval) (transfer_id : string)
    : LK transfer_room_info :=
  h <- uuid4_hex 6 ;;
  let transfer_room_name := "transfer_" ++ transfer_id ++ "_" ++ h in
  try_except
    (info <- create_room (Some transfer_room_name) 3
               (Some [("type", PyStr "transfer");
                      ("transfer_id", PyStr transfer_id);
                      ("original_room", PyStr original_room);
                      ("agent_a", PyStr agent_a_identity);
                      ("agent_b", PyStr agent_b_identity);
                      ("caller", caller_identity)]) ;;
     t <- utcnow ;;
     modify_lk (set_active_transfers
       (<[transfer_id := {| lt_transfer_id := transfer_id;
                            lt_transfer_room := transfer_room_name;
                            lt_original_room := original_room;
                            lt_agent_a := agent_a_identity;
                            lt_agent_b := agent_b_identity;
                            lt_caller := caller_identity;
                            lt_status := initiated; lt_created_at := t;
                            lt_completed_at := None; lt_error := None |}]>)) ;;;
     ret {| transfer_room_of := transfer_room_name; tri_room_info := info;
            tri_transfer_id := transfer_id |})
    (fun e => raise (Exception ("Failed to create transfer room: " ++ str e))).

Definition mark (st : Status) (done_at : option nat) (err : option string)
    (x : transfer) : transfer :=
  {| lt_transfer_id := lt_transfer_id x; lt_transfer_room := lt_transfer_room x;
     lt_original_room := lt_original_room x; lt_agent_a := lt_agent_a x;
     lt_agent_b := lt_agent_b x; lt_caller := lt_caller x; lt_status := st;
     lt_created_at := lt_created_at x;
     lt_completed_at := match done_at with Some t => Some t | None => lt_completed_at x end;
     lt_error := match err with Some m => Some m | None => lt_error x end |}.

(** The token returned by [add_participant_to_room] is not bound: the
    method returns the gateway's transfer record only. *)
Definition complete_warm_transfer (transfer_id : string) (success : bool)
    : LK transfer :=
  ts <- gets_lk active_transfers ;;
  match ts !! transfer_id with
  | None => raise (Exception ("Transfer " ++ transfer_id ++ " not found"))
  | Some transfer =>
      try_except
        (st <- (if success then
                  _ <- remove_participant_from_room (lt_original_room transfer)
                         (lt_agent_a transfer) ;;
                  _ <- add_participant_to_room (lt_original_room transfer)
                         (lt_agent_b transfer) None "agent" None ;;
                  _ <- delete_room (lt_transfer_room transfer) ;;
                  ret completed
                else ret failed) ;;
         t <- utcnow ;;
         modify_lk (set_active_transfers (alter (mark st (Some t) None) transfer_id)) ;;;
         ret (mark st (Some t) None transfer))
        (fun e =>
           modify_lk (set_active_transfers
             (alter (mark error None (Some (str e))) transfer_id)) ;;;
           raise (Exception ("Failed to complete transfer: " ++ str e)))
  end.

Definition send_data_to_room (room_name : string) (data : pyval)
    (participant_identities : option (list string)) : LK unit :=
  try_except
    (match participant_identities with
     | Some ((_ :: _) as ids) =>
         for_each ids (fun _ =>
           lk_api_room ;;; _ <- await_io (LkSendData room_name data) ;; ret tt)
     | _ => lk_api_room ;;; _ <- await_io (LkSendData room_name data) ;; ret tt
     end)
    (fun e => raise (Exception ("Failed to send data: " ++ str e))).

End LiveKit.

(** ** The notification bus: [ConnectionManager] *)

Module Connections.

(** Dictionaries whose iteration order is observable are association
    lists in insertion order. *)
Record state := {
  active_connections : list string;
  room_connections : gmap string (gset string);
  agent_connections : list (string * string);
  call_connections : gmap string (gset string)
}.

Definition CM (A : Type) : Type := ST (state * env) A.

Definition gets_cm {A} (f : state -> A) : CM A := gets (fun s => f (fst s)).
Definition modify_cm (f : state -> state) : CM unit :=
  modify (fun s => (f (fst s), snd s)).

Definition remove_key (k : string) (l : list string) : list string :=
  filter (fun x => x ≠ k) l.

(** The agent unregistered by [disconnect]: the first one bound to the
    client, unless its identifier is the empty string. *)
Definition agent_to_remove (client_id : string) (l : list (string * string))
    : option string :=
  match List.find (fun ac => String.eqb (snd ac) client_id) l with
  | Some (a, _) => if String.eqb a EmptyString then None else Some a
  | None => None
  end.

Definition disconnect (client_id : string) (s : state) : state :=
  {| active_connections := remove_key client_id (active_connections s);
     room_connections := (fun c => c ∖ {[client_id]}) <$> room_connections s;
     agent_connections :=
       match agent_to_remove client_id (agent_connections s) with
       | Some a => filter (fun ac => fst ac ≠ a) (agent_connections s)
       | None => agent_connections s
       end;
     call_connections := (fun c => c ∖ {[client_id]}) <$> call_connections s |}.

Definition send_personal_message (message : pyval) (client_id : string)
    : CM unit :=
  conns <- gets_cm active_connections ;;
  if decide (client_id ∈ conns) then
    try_except
      (_ <- await_io (WsSendText client_id message) ;; ret tt)
      (fun _ => modify_cm (disconnect client_id))
  else ret tt.

(** The loop of [broadcast]; it returns [disconnected_clients]. *)
Fixpoint broadcast_loop (clients : list string) (message : pyval)
    (exclude_clients : list string) : CM (list string) :=
  match clients with
  | [] => ret []
  | c :: rest =>
      broke <- (if decide (c ∈ exclude_clients) then ret false
                else try_except
                       (_ <- await_io (WsSendText c message) ;; ret false)
                       (fun _ => ret true)) ;;
      others <- broadcast_loop rest message exclude_clients ;;
      ret (if broke : bool then c :: others else others)
  end.

Definition broadcast (message : pyval) (exclude_clients : list string)
    : CM unit :=
  conns <- gets_cm active_connections ;;
  disconnected <- broadcast_loop conns message exclude_clients ;;
  for_each disconnected (fun c => modify_cm (disconnect c)).

(** [datetime.isoformat()], on the abstract clock. *)
Definition isoformat (t : nat) : string := pretty t.

Definition notify_transfer_status (transfer_id status : string)
    (details : pyval) : CM unit :=
  t <- utcnow ;;
  broadcast (PyDict [("type", PyStr "transfer_status_update");
                     ("transfer_id", PyStr transfer_id);
                     ("status", PyStr status);
                     ("details", details);
                     ("timestamp", PyStr (isoformat t))]) [].

End Connections.

(** ** The summarizer

    [WarmTransferService] receives its summarizer as a constructor argument
    and calls two of its methods.  A summarizer owns no state of the
    orchestrator: it only talks to the outside. *)

Record call_data := {
  cd_elapsed_seconds : nat;   (* [duration] is this quantity divided by 60 *)
  cd_caller_info : pyval;
  cd_conversation_history : string;
  cd_current_issue : string;
  cd_agent_notes : string;
  cd_call_id : string;
  cd_priority : string
}.

Module Summarizer.
Record ai_service := {
  generate_call_summary : call_data -> ST env pyval;
  generate_agent_context : pyval -> ST env pyval
}.
End Summarizer.
Abbreviation ai_service := Summarizer.ai_service.

(** [AIService] of [ai_service.py].  The class body defines
    [generate_call_summary] and [analyze_sentiment] twice; the later
    definition of each replaces the earlier one, and it is the later one that
    is embedded here.  The text of the prompts is not part of the model. *)
Module AI.

Section AIService.

(** The keys of [self.providers] (the providers whose API key is set) and
    [settings.DEFAULT_AI_PROVIDER]. *)
Variable providers : list string.
Variable default_provider : string.

Definition _generate_openai (provider : string) : ST env string :=
  if decide (provider ∈ providers)
  then await_io (ChatCompletion provider)
  else raise (KeyError provider).

Definition _generate_groq : ST env string :=
  if decide ("groq" ∈ providers)
  then await_io (ChatCompletion "groq")
  else raise (KeyError "groq").

Definition _generate_anthropic : ST env string :=
  if decide ("anthropic" ∈ providers)
  then await_io (ChatCompletion "anthropic")
  else raise (KeyError "anthropic").

Definition _get_enhanced_fallback_summary (context : string) : string :=
  let issue_type :=
    if contains "transcript:" (lower context) then
      if contains "billing" (lower context) || contains "payment" (lower context)
      then "billing and payment issues"
      else if contains "technical" (lower context)
              || contains "account" (lower context)
      then "technical account problems"
      else "general customer service needs"
    else "customer service inquiry" in
  "The customer contacted us regarding " ++ issue_type ++
  ". I've gathered their account information and initial details about their concern. The customer appears cooperative and is seeking resolution today. Please continue with advanced troubleshooting and provide them with a definitive solution. All account verification has been completed.".

(** The definition at line 635: its first parameter, named [call_id],
    receives the call data; the result is a string in every branch. *)
Definition generate_call_summary (call_id : call_data) (context : string)
    : ST env pyval :=
  try_except
    (if decide ("openai" ∈ providers) then
       try_except
         (response <- _generate_openai "openai" ;; ret (PyStr response))
         (fun _ => ret (PyStr (_get_enhanced_fallback_summary context)))
     else ret (PyStr (_get_enhanced_fallback_summary context)))
    (fun _ => ret (PyStr (_get_enhanced_fallback_summary context))).

(** The definition at line 585. *)
Definition analyze_sentiment (text : pyval) : ST env pyval :=
  match text with
  | PyStr s =>
      let t := lower s in
      if contains "frustrated" t || contains "angry" t then
        ret (PyDict [("overall", PyStr "negative");
                     ("confidence", PyReal 3 4);
                     ("emotions", PyList [PyStr "frustrated"]);
                     ("urgency", PyStr "high");
                     ("recommendation",
                      PyStr "use empathetic language and offer solutions")])
      else if contains "happy" t || contains "thank" t then
        ret (PyDict [("overall", PyStr "positive");
                     ("confidence", PyReal 3 4);
                     ("emotions", PyList [PyStr "satisfied"]);
                     ("urgency", PyStr "low");
                     ("recommendation", PyStr "maintain positive interaction")])
      else
        ret (PyDict [("overall", PyStr "neutral");
                     ("confidence", PyReal 3 4);
                     ("emotions", PyList [PyStr "neutral"]);
                     ("urgency", PyStr "medium");
                     ("recommendation", PyStr "maintain professional tone")])
  | _ => raise (AttributeError "object has no attribute 'lower'")
  end.

Definition generate_agent_context (call_summary : pyval) : ST env pyval :=
  let provider := default_provider in
  try_except
    (sentiment <- analyze_sentiment call_summary ;;
     response <-
       (if String.eqb provider "openai" then _generate_openai "openai"
        else if String.eqb provider "groq" then _generate_groq
        else if String.eqb provider "anthropic" then _generate_anthropic
        else if String.eqb provider "openrouter" then _generate_openai "openrouter"
        else raise (ValueError ("Unsupported provider: " ++ provider))) ;;
     t <- utcnow ;;
     ret (PyDict [("context", PyStr response);
                  ("sentiment_analysis", sentiment);
                  ("provider", PyStr provider);
                  ("generated_at", PyStr (Connections.isoformat t))]))
    (fun e => raise (Exception ("Context generation failed: " ++ str e))).

(** The object handed to [WarmTransferService]; the call site passes the
    call data only, so [context] takes its default. *)
Definition AIService : ai_service :=
  {| Summarizer.generate_call_summary :=
       fun call_data => generate_call_summary call_data "Customer support call";
     Summarizer.generate_agent_context := generate_agent_context |}.

End AIService.

End AI.

(** ** The orchestrator: [WarmTransferService] *)

(** An entry of [transfer["participants"]]. *)
Record participant := {
  joined_at : nat;
  role : string
}.

(** A dictionary of [self.active_transfers].  The key [participants] is
    absent until the first join; [completed_at] and [cancelled_at] are absent
    until they are assigned. *)
Record live_transfer := {
  transfer_id : string;
  call_id : string;
  source_agent_id : string;
  target_agent_id : string;
  transfer_room : string;
  original_room : string;
  status : Status;
  ai_summary : pyval;
  created_at : nat;
  phase : Phase;
  participants : option (gmap string participant);
  completed_at : option nat;
  cancelled_at : option nat
}.

Definition set_status (st : Status) (t : live_transfer) : live_transfer :=
  {| transfer_id := transfer_id t; call_id := call_id t;
     source_agent_id := source_agent_id t; target_agent_id := target_agent_id t;
     transfer_room := transfer_room t; original_room := original_room t;
     status := st; ai_summary := ai_summary t; created_at := created_at t;
     phase := phase t; participants := participants t;
     completed_at := completed_at t; cancelled_at := cancelled_at t |}.

Definition set_phase (ph : Phase) (t : live_transfer) : live_transfer :=
  {| transfer_id := transfer_id t; call_id := call_id t;
     source_agent_id := source_agent_id t; target_agent_id := target_agent_id t;
     transfer_room := transfer_room t; original_room := original_room t;
     status := status t; ai_summary := ai_summary t; created_at := created_at t;
     phase := ph; participants := participants t;
     completed_at := completed_at t; cancelled_at := cancelled_at t |}.

Definition set_participants (ps : gmap string participant) (t : live_transfer) : live_transfer :=
  {| transfer_id := transfer_id t; call_id := call_id t;
     source_agent_id := source_agent_id t; target_agent_id := target_agent_id t;
     transfer_room := transfer_room t; original_room := original_room t;
     status := status t; ai_summary := ai_summary t; created_at := created_at t;
     phase := phase t; participants := Some ps;
     completed_at := completed_at t; cancelled_at := cancelled_at t |}.

Definition set_completed_at (at_ : nat) (t : live_transfer) : live_transfer :=
  {| transfer_id := transfer_id t; call_id := call_id t;
     source_agent_id := source_agent_id t; target_agent_id := target_agent_id t;
     transfer_room := transfer_room t; original_room := original_room t;
     status := status t; ai_summary := ai_summary t; created_at := created_at t;
     phase := phase t; participants := participants t;
     completed_at := Some at_; cancelled_at := cancelled_at t |}.

Definition set_cancelled_at (at_ : nat) (t : live_transfer) : live_transfer :=
  {| transfer_id := transfer_id t; call_id := call_id t;
     source_agent_id := source_agent_id t; target_agent_id := target_agent_id t;
     transfer_room := transfer_room t; original_room := original_room t;
     status := status t; ai_summary := ai_summary t; created_at := created_at t;
     phase := phase t; participants := participants t;
     completed_at := completed_at t; cancelled_at := Some at_ |}.

(** [transfer.get("participants", {})]. *)
Definition participants_of (t : live_transfer) : gmap string participant :=
  match participants t with
  | Some ps => ps
  | None => ∅
  end.

(** [transfer["participants"][agent_id] = p], after the key has been
    created if it was missing. *)
Definition record_participant (agent_id : string) (p : participant)
    (t : live_transfer) : live_transfer :=
  set_participants (<[agent_id := p]> (participants_of t)) t.

(** The two dictionaries of the service: the live working set and the
    timeout tasks (the identifiers under which a task is stored). *)
Record svc_state := {
  active_transfers : gmap string live_transfer;
  transfer_timeouts : gset string
}.

Record world := {
  svc : svc_state;
  lk : LiveKit.state;
  cm : Connections.state;
  db : Database.db_state;
  w_env : env
}.

Definition set_svc (f : svc_state -> svc_state) (w : world) : world :=
  {| svc := f (svc w); lk := lk w; cm := cm w; db := db w; w_env := w_env w |}.
Definition set_env (e : env) (w : world) : world :=
  {| svc := svc w; lk := lk w; cm := cm w; db := db w; w_env := e |}.
Definition set_lk (s : LiveKit.state * env) (w : world) : world :=
  {| svc := svc w; lk := fst s; cm := cm w; db := db w; w_env := snd s |}.
Definition set_cm (s : Connections.state * env) (w : world) : world :=
  {| svc := svc w; lk := lk w; cm := fst s; db := db w; w_env := snd s |}.
Definition set_db (s : Database.db_state * env) (w : world) : world :=
  {| svc := svc w; lk := lk w; cm := cm w; db := fst s; w_env := snd s |}.

#[export] Instance world_HasEnv : HasEnv world :=
  {| get_env := w_env; put_env := set_env |}.

Definition M (A : Type) : Type := ST world A.

Definition in_env {A} (m : ST env A) : M A := zoom w_env set_env m.
Definition in_lk {A} (m : LiveKit.LK A) : M A :=
  zoom (fun w => (lk w, w_env w)) set_lk m.
Definition in_cm {A} (m : Connections.CM A) : M A :=
  zoom (fun w => (cm w, w_env w)) set_cm m.
Definition in_db {A} (m : ST (Database.db_state * env) A) : M A :=
  zoom (fun w => (db w, w_env w)) set_db m.

Definition set_active (f : gmap string live_transfer -> gmap string live_transfer)
    (s : svc_state) : svc_state :=
  {| active_transfers := f (active_transfers s);
     transfer_timeouts := transfer_timeouts s |}.
Definition set_timeouts (f : gset string -> gset string) (s : svc_state)
    : svc_state :=
  {| active_transfers := active_transfers s;
     transfer_timeouts := f (transfer_timeouts s) |}.

(** The live working set and the timers of a world. *)
Definition live (w : world) : gmap string live_transfer := active_transfers (svc w).
Definition timers (w : world) : gset string := transfer_timeouts (svc w).

(** A mutation of the dictionary stored under [tid]: every holder of the
    object sees it. *)
Definition mutate (tid : string) (f : live_transfer -> live_transfer) : M unit :=
  modify (set_svc (set_active (alter f tid))).

(** [if tid in self.transfer_timeouts: self.transfer_timeouts[tid].cancel();
    del self.transfer_timeouts[tid]]. *)
Definition cancel_timeout (tid : string) : M unit :=
  ts <- gets timers ;;
  if decide (tid ∈ ts) then
    task_cancel tid ;;;
    modify (set_svc (set_timeouts (fun s => s ∖ {[tid]})))
  else ret tt.

Definition _cleanup_transfer (tid : string) : M unit :=
  modify (set_svc (set_active (delete tid))) ;;;
  cancel_timeout tid.

(** The results of the four operations. *)
Record initiate_response := {
  ir_transfer_id : string;
  ir_status : Status;
  ir_transfer_room : string;
  ir_ai_summary : pyval;
  ir_next_steps : list string
}.

Record join_response := {
  jr_access_token : LiveKit.access_token;
  jr_room_name : string;
  jr_ws_url : string;
  jr_transfer_phase : Phase;
  jr_ai_summary : pyval
}.

Record complete_response := {
  cr_transfer_id : string;
  cr_status : Status;
  cr_success : bool;
  cr_duration : option nat
}.

Record cancel_response := {
  xr_transfer_id : string;
  xr_status : Status;
  xr_reason : option string
}.

Definition py_opt (o : option string) : pyval :=
  match o with
  | Some s => PyStr s
  | None => PyNone
  end.

Definition phase_name (ph : Phase) : string :=
  match ph with
  | waiting_for_agents => "waiting_for_agents"
  | briefing => "briefing"
  end.

Section WarmTransferService.

(** The summarizer given to the constructor. *)
Variable ai : ai_service.

Definition _prepare_call_data (call : Database.call_row) : M call_data :=
  elapsed <- match Database.c_started_at call with
             | Some started => t <- utcnow ;; ret (t - started)
             | None => ret 0
             end ;;
  ret {| cd_elapsed_seconds := elapsed;
         cd_caller_info := if truthy (Database.c_caller_info call)
                           then Database.c_caller_info call else PyDict [];
         cd_conversation_history := "Call in progress";
         cd_current_issue := "Customer inquiry";
         cd_agent_notes := "Initial contact";
         cd_call_id := Database.c_call_id call;
         cd_priority := Database.c_priority call |}.

(** The first database block of [initiate_warm_transfer]: the three lookups
    and the checks of the target operator. *)
Definition validate_request (call_id source_agent_id target_agent_id : string)
    : ST Database.db_state
         (Database.call_row * Database.agent_row * Database.agent_row) :=
  d <- gets (fun d => d) ;;
  match Database.calls d !! call_id with
  | None => raise (ValueError ("Call " ++ call_id ++ " not found"))
  | Some call =>
  match Database.agents d !! source_agent_id with
  | None => raise (ValueError ("Source agent " ++ source_agent_id ++ " not found"))
  | Some source_agent =>
  match Database.agents d !! target_agent_id with
  | None => raise (ValueError ("Target agent " ++ target_agent_id ++ " not found"))
  | Some target_agent =>
      if negb (Database.is_available target_agent)
         || negb (String.eqb (Database.a_status target_agent) "online")
      then raise (ValueError ("Target agent " ++ target_agent_id ++ " is not available"))
      else if (Database.max_concurrent_calls target_agent
               <=? Database.current_calls target_agent)%Z
      then raise (ValueError ("Target agent " ++ target_agent_id ++ " is at capacity"))
      else ret (call, source_agent, target_agent)
  end end end.

Definition _notify_transfer_initiation (tid : string) : M unit :=
  active <- gets live ;;
  match active !! tid with
  | None => raise (KeyError tid)
  | Some transfer =>
      in_cm (Connections.send_personal_message
               (PyDict [("type", PyStr "transfer_initiated");
                        ("transfer_id", PyStr tid);
                        ("role", PyStr "source_agent");
                        ("transfer_room", PyStr (transfer_room transfer));
                        ("target_agent", PyStr (target_agent_id transfer));
                        ("ai_summary", ai_summary transfer)])
               (source_agent_id transfer)) ;;;
      in_cm (Connections.send_personal_message
               (PyDict [("type", PyStr "transfer_request");
                        ("transfer_id", PyStr tid);
                        ("role", PyStr "target_agent");
                        ("transfer_room", PyStr (transfer_room transfer));
                        ("source_agent", PyStr (source_agent_id transfer));
                        ("ai_summary", ai_summary transfer)])
               (target_agent_id transfer))
  end.

Definition initiate_warm_transfer (call_id source_agent_id target_agent_id : string)
    (reason : option string) (priority : string) : M initiate_response :=
  tid <- uuid4 ;;
  try_except
    (found <- in_db (Database.session
                 (validate_request call_id source_agent_id target_agent_id)) ;;
     let '(call, source_agent, target_agent) := found in
     data <- _prepare_call_data call ;;
     summary <- in_env (Summarizer.generate_call_summary ai data) ;;
     caller_identity <-
       of_result (if truthy (Database.c_caller_info call)
                  then get_default (Database.c_caller_info call) "identity"
                         (PyStr "caller")
                  else Ok (PyStr "caller")) ;;
     info <- in_lk (LiveKit.create_transfer_room (Database.c_room_name call)
                      source_agent_id target_agent_id caller_identity tid) ;;
     in_db (Database.session
       (text <- of_result (subscript summary "summary") ;;
        sentiment <- of_result (subscript summary "sentiment") ;;
        modify (Database.set_transfers
          (<[tid := {| Database.t_transfer_id := tid;
                       Database.t_call_id := Database.c_id call;
                       Database.t_source_agent_id := Database.a_id source_agent;
                       Database.t_target_agent_id := Database.a_id target_agent;
                       Database.t_transfer_type := "warm";
                       Database.t_reason := reason;
                       Database.t_transfer_room_name := LiveKit.transfer_room_of info;
                       Database.t_status := initiated;
                       Database.t_ai_summary := text;
                       Database.t_sentiment_analysis := sentiment;
                       Database.t_ai_context := None;
                       Database.t_completed_at := None;
                       Database.t_duration_seconds := None;
                       Database.t_was_successful := None;
                       Database.t_agent_feedback := None |}]>)))) ;;;
     t <- utcnow ;;
     modify (set_svc (set_active
       (<[tid := {| transfer_id := tid; call_id := call_id;
                    source_agent_id := source_agent_id;
                    target_agent_id := target_agent_id;
                    transfer_room := LiveKit.transfer_room_of info;
                    original_room := Database.c_room_name call;
                    status := initiated; ai_summary := summary;
                    created_at := t; phase := waiting_for_agents;
                    participants := None; completed_at := None;
                    cancelled_at := None |}]>))) ;;;
     modify (set_svc (set_timeouts (fun s => {[tid]} ∪ s))) ;;;
     _notify_transfer_initiation tid ;;;
     ret {| ir_transfer_id := tid; ir_status := initiated;
            ir_transfer_room := LiveKit.transfer_room_of info;
            ir_ai_summary := summary;
            ir_next_steps :=
              ["Agent " ++ source_agent_id ++ " should join transfer room";
               "Agent " ++ target_agent_id ++ " should join transfer room";
               "AI summary will be shared with Agent B";
               "Agent A should brief Agent B";
               "Agent A will leave original call"] |})
    (fun e =>
       modify (set_svc (set_active (delete tid))) ;;;
       raise (Exception ("Transfer initiation failed: " ++ str e))).

Definition _share_ai_context (tid : string) (agent_context : pyval) : M unit :=
  active <- gets live ;;
  match active !! tid with
  | None => raise (KeyError tid)
  | Some transfer =>
      context <- of_result (subscript agent_context "context") ;;
      sentiment <- of_result (subscript agent_context "sentiment_analysis") ;;
      t <- utcnow ;;
      in_lk (LiveKit.send_data_to_room (transfer_room transfer)
               (PyDict [("type", PyStr "ai_context");
                        ("transfer_id", PyStr tid);
                        ("context", context);
                        ("sentiment", sentiment);
                        ("timestamp", PyStr (Connections.isoformat t))])
               None)
  end.

Definition db_mark_in_progress (context : pyval) (r : Database.transfer_row)
    : Database.transfer_row :=
  {| Database.t_transfer_id := Database.t_transfer_id r;
     Database.t_call_id := Database.t_call_id r;
     Database.t_source_agent_id := Database.t_source_agent_id r;
     Database.t_target_agent_id := Database.t_target_agent_id r;
     Database.t_transfer_type := Database.t_transfer_type r;
     Database.t_reason := Database.t_reason r;
     Database.t_transfer_room_name := Database.t_transfer_room_name r;
     Database.t_status := in_progress;
     Database.t_ai_summary := Database.t_ai_summary r;
     Database.t_sentiment_analysis := Database.t_sentiment_analysis r;
     Database.t_ai_context := Some context;
     Database.t_completed_at := Database.t_completed_at r;
     Database.t_duration_seconds := Database.t_duration_seconds r;
     Database.t_was_successful := Database.t_was_successful r;
     Database.t_agent_feedback := Database.t_agent_feedback r |}.

(** The block run when both operators are present for the first time. *)
Definition start_briefing (tid : string) (transfer : live_transfer) : M live_transfer :=
  mutate tid (fun t => set_status in_progress (set_phase briefing t)) ;;;
  let transfer := set_status in_progress (set_phase briefing transfer) in
  text <- of_result (subscript (ai_summary transfer) "summary") ;;
  agent_context <- in_env (Summarizer.generate_agent_context ai text) ;;
  _share_ai_context tid agent_context ;;;
  in_db (Database.session
    (d <- gets (fun d => d) ;;
     match Database.transfers d !! tid with
     | Some _ =>
         context <- of_result (subscript agent_context "context") ;;
         modify (Database.set_transfers (alter (db_mark_in_progress context) tid))
     | None => ret tt
     end)) ;;;
  ret transfer.

Definition join_transfer_room (tid agent_id role : string) : M join_response :=
  active <- gets live ;;
  match active !! tid with
  | None => raise (ValueError ("Transfer " ++ tid ++ " not found"))
  | Some transfer =>
      try_except
        (access_info <- in_lk (LiveKit.add_participant_to_room
                          (transfer_room transfer) agent_id
                          (Some ("Agent-" ++ agent_id)) role
                          (Some [("transfer_id", PyStr tid); ("role", PyStr role)])) ;;
         t <- utcnow ;;
         let joined := {| joined_at := t; role := role |} in
         mutate tid (record_participant agent_id joined) ;;;
         let transfer := record_participant agent_id joined transfer in
         let source_joined :=
           bool_decide (is_Some (participants_of transfer !! source_agent_id transfer)) in
         let target_joined :=
           bool_decide (is_Some (participants_of transfer !! target_agent_id transfer)) in
         transfer <- (if source_joined && target_joined
                         && bool_decide (phase transfer = waiting_for_agents)
                      then start_briefing tid transfer
                      else ret transfer) ;;
         in_cm (Connections.notify_transfer_status tid "agent_joined"
                  (PyDict [("agent_id", PyStr agent_id);
                           ("role", PyStr role);
                           ("phase", PyStr (phase_name (phase transfer)))])) ;;;
         ret {| jr_access_token := LiveKit.access_token_of access_info;
                jr_room_name := LiveKit.ai_room_name access_info;
                jr_ws_url := LiveKit.ai_ws_url access_info;
                jr_transfer_phase := phase transfer;
                jr_ai_summary := if decide (agent_id = target_agent_id transfer)
                                 then ai_summary transfer else PyNone |})
        (fun e => raise (Exception ("Failed to join transfer room: " ++ str e)))
  end.

Definition agent_after_handing_over (success : bool) (a : Database.agent_row)
    : Database.agent_row :=
  {| Database.a_id := Database.a_id a;
     Database.a_agent_id := Database.a_agent_id a;
     Database.is_available := Database.is_available a;
     Database.a_status := Database.a_status a;
     Database.current_calls := Z.max 0 (Database.current_calls a - 1);
     Database.max_concurrent_calls := Database.max_concurrent_calls a;
     Database.total_calls_handled := Database.total_calls_handled a;
     Database.successful_transfers :=
       if success then (Database.successful_transfers a + 1)%Z
       else Database.successful_transfers a |}.

Definition agent_after_taking_over (a : Database.agent_row) : Database.agent_row :=
  {| Database.a_id := Database.a_id a;
     Database.a_agent_id := Database.a_agent_id a;
     Database.is_available := Database.is_available a;
     Database.a_status := Database.a_status a;
     Database.current_calls := (Database.current_calls a + 1)%Z;
     Database.max_concurrent_calls := Database.max_concurrent_calls a;
     Database.total_calls_handled := (Database.total_calls_handled a + 1)%Z;
     Database.successful_transfers := Database.successful_transfers a |}.

Definition _update_agent_post_transfer (source_agent_id target_agent_id : string)
    (success : bool) : M unit :=
  in_db (Database.session
    (modify (Database.set_agents
       (alter (agent_after_handing_over success) source_agent_id)) ;;;
     modify (Database.set_agents
       (alter agent_after_taking_over target_agent_id)))).

Definition db_mark_finished (st : Status) (done_at : option nat) (success : bool)
    (feedback : option string) (duration : option nat)
    (r : Database.transfer_row) : Database.transfer_row :=
  {| Database.t_transfer_id := Database.t_transfer_id r;
     Database.t_call_id := Database.t_call_id r;
     Database.t_source_agent_id := Database.t_source_agent_id r;
     Database.t_target_agent_id := Database.t_target_agent_id r;
     Database.t_transfer_type := Database.t_transfer_type r;
     Database.t_reason := Database.t_reason r;
     Database.t_transfer_room_name := Database.t_transfer_room_name r;
     Database.t_status := st;
     Database.t_ai_summary := Database.t_ai_summary r;
     Database.t_sentiment_analysis := Database.t_sentiment_analysis r;
     Database.t_ai_context := Database.t_ai_context r;
     Database.t_completed_at := done_at;
     Database.t_duration_seconds :=
       match duration with
       | Some d => Some d
       | None => Database.t_duration_seconds r
       end;
     Database.t_was_successful := Some success;
     Database.t_agent_feedback := feedback |}.

Definition db_mark_cancelled (reason : option string) (r : Database.transfer_row)
    : Database.transfer_row :=
  {| Database.t_transfer_id := Database.t_transfer_id r;
     Database.t_call_id := Database.t_call_id r;
     Database.t_source_agent_id := Database.t_source_agent_id r;
     Database.t_target_agent_id := Database.t_target_agent_id r;
     Database.t_transfer_type := Database.t_transfer_type r;
     Database.t_reason := Database.t_reason r;
     Database.t_transfer_room_name := Database.t_transfer_room_name r;
     Database.t_status := cancelled;
     Database.t_ai_summary := Database.t_ai_summary r;
     Database.t_sentiment_analysis := Database.t_sentiment_analysis r;
     Database.t_ai_context := Database.t_ai_context r;
     Database.t_completed_at := Database.t_completed_at r;
     Database.t_duration_seconds := Database.t_duration_seconds r;
     Database.t_was_successful := Database.t_was_successful r;
     Database.t_agent_feedback := reason |}.

(** [(completed_at - created_at).total_seconds()], on the abstract clock. *)
Definition duration_of (transfer : live_transfer) : nat :=
  match completed_at transfer with
  | Some done_at => done_at - created_at transfer
  | None => 0
  end.

Definition complete_transfer (tid : string) (success : bool)
    (feedback : option string) : M complete_response :=
  active <- gets live ;;
  match active !! tid with
  | None => raise (ValueError ("Transfer " ++ tid ++ " not found"))
  | Some transfer =>
      try_except
        (cancel_timeout tid ;;;
         transfer <-
           (if success then
              _ <- in_lk (LiveKit.complete_warm_transfer tid true) ;;
              _update_agent_post_transfer (source_agent_id transfer)
                (target_agent_id transfer) true ;;;
              t <- utcnow ;;
              mutate tid (fun x => set_completed_at t (set_status completed x)) ;;;
              ret (set_completed_at t (set_status completed transfer))
            else
              t <- utcnow ;;
              mutate tid (fun x => set_completed_at t (set_status failed x)) ;;;
              ret (set_completed_at t (set_status failed transfer))) ;;
         let duration := if success then Some (duration_of transfer) else None in
         in_db (Database.session
           (modify (Database.set_transfers
              (alter (db_mark_finished (status transfer) (completed_at transfer)
                        success feedback duration) tid)))) ;;;
         in_cm (Connections.notify_transfer_status tid
                  (if success then "completed" else "failed")
                  (PyDict [("success", PyBool success);
                           ("feedback", py_opt feedback);
                           ("duration",
                            match duration with
                            | Some d => PyReal (Z.of_nat d) 1
                            | None => PyNone
                            end)])) ;;;
         _cleanup_transfer tid ;;;
         ret {| cr_transfer_id := tid; cr_status := status transfer;
                cr_success := success; cr_duration := duration |})
        (fun e =>
           mutate tid (set_status error) ;;;
           raise (Exception ("Transfer completion failed: " ++ str e)))
  end.

(** Every dictionary stored by [initiate_warm_transfer] has the key
    [transfer_room], so the test [if "transfer_room" in transfer] holds. *)
Definition cancel_transfer (tid : string) (reason : option string)
    : M cancel_response :=
  active <- gets live ;;
  match active !! tid with
  | None => raise (ValueError ("Transfer " ++ tid ++ " not found"))
  | Some transfer =>
      try_except
        (cancel_timeout tid ;;;
         _ <- in_lk (LiveKit.delete_room (transfer_room transfer)) ;;
         t <- utcnow ;;
         mutate tid (fun x => set_cancelled_at t (set_status cancelled x)) ;;;
         in_db (Database.session
           (modify (Database.set_transfers (alter (db_mark_cancelled reason) tid)))) ;;;
         in_cm (Connections.notify_transfer_status tid "cancelled"
                  (PyDict [("reason", py_opt reason)])) ;;;
         _cleanup_transfer tid ;;;
         ret {| xr_transfer_id := tid; xr_status := cancelled;
                xr_reason := reason |})
        (fun e => raise (Exception ("Transfer cancellation failed: " ++ str e)))
  end.

(** The body of the timeout coroutine after its sleep. *)
Definition _handle_transfer_timeout (tid : string) : M unit :=
  active <- gets live ;;
  if decide (is_Some (active !! tid))
  then _ <- cancel_transfer tid (Some "timeout") ;; ret tt
  else ret tt.

(** The task made by [asyncio.create_task(self._handle_transfer_timeout(tid))]
    when its sleep ends.  A task that was cancelled while asleep (its entry
    has then been deleted from [transfer_timeouts]) never reaches this point.
    The body runs as the task stored under [tid]. *)
Definition timeout_task (tid : string) : M unit :=
  fun w =>
    if decide (tid ∈ timers w) then
      let (r, w') := _handle_transfer_timeout tid
                       (set_env (set_task (Some tid) false (w_env w)) w) in
      (r, set_env (set_task (task (w_env w)) (must_cancel (w_env w)) (w_env w')) w')
    else (Ok tt, w).

End WarmTransferService.

(** * Notions used by the statements *)

(** ** Relations kept by every step of a computation *)

Definition keeps {S A} (R : relation S) (m : ST S A) : Prop :=
  forall s, R s (snd (m s)).

(** A relation on worlds that only looks at the orchestrator's dictionaries
    is kept by everything the other components do. *)
Definition on_svc (Q : relation svc_state) : relation world :=
  fun w w' => Q (svc w) (svc w').

(** ** The order of the phases *)

Definition phase_le (a b : Phase) : Prop :=
  a = b \/ (a = waiting_for_agents /\ b = briefing).

(** [advances s s']: every transfer that is live in [s'] was live in [s],
    in the same phase or in the phase before. *)
Definition advances : relation svc_state :=
  fun s s' =>
    forall tid t', active_transfers s' !! tid = Some t' ->
      exists t, active_transfers s !! tid = Some t /\ phase_le (phase t) (phase t').

(** [same_live s s']: the working set is the same (timers may differ). *)
Definition same_live : relation svc_state :=
  fun s s' => active_transfers s = active_transfers s'.

(** [timers_shrink s s']: no timer of [s'] is new. *)
Definition timers_shrink : relation svc_state :=
  fun s s' => transfer_timeouts s' ⊆ transfer_timeouts s.

(** [same_gateway w w']: the state of the room gateway is the same. *)
Definition same_gateway : relation world :=
  fun w w' => lk w = lk w'.

(** ** Programs that do not look at the working set *)

(** Everything of a world but the orchestrator's two dictionaries. *)
Definition rest (w : world) := (lk w, cm w, db w, w_env w).

(** A program whose result and whose effects outside the dictionaries do
    not depend on the dictionaries. *)
Definition oblivious {A} (m : M A) : Prop :=
  forall w1 w2, rest w1 = rest w2 ->
    fst (m w1) = fst (m w2) /\ rest (snd (m w1)) = rest (snd (m w2)).

(** ** Sequences of requests *)

Section Requests.

Variable ai : ai_service.

(** The operations of section 4.1 after initiation, as requests. *)
Inductive operation :=
| Join (tid agent_id role : string)
| Complete (tid : string) (success : bool) (feedback : option string)
| Cancel (tid : string) (reason : option string)
| Timeout (tid : string).

(** The world after one request; an exception ends the request, not the
    service. *)
Definition after (o : operation) (w : world) : world :=
  match o with
  | Join tid agent_id role => snd (join_transfer_room ai tid agent_id role w)
  | Complete tid success feedback => snd (complete_transfer tid success feedback w)
  | Cancel tid reason => snd (cancel_transfer tid reason w)
  | Timeout tid => snd (timeout_task tid w)
  end.

Definition after_all (ops : list operation) (w : world) : world :=
  foldl (fun w o => after o w) w ops.

End Requests.

(** ** Section 4.1 of the specification, in its own words

    The second definition of the life cycle, to be compared with what the
    code does: the phases of the specification and the transitions of its
    table. *)

Module Spec.

Inductive phase :=
| awaiting_agents | briefing | completing | completed | failed | cancelled.

Definition edge (a b : phase) : bool :=
  match a, b with
  | awaiting_agents, awaiting_agents => true   (* an operator joins *)
  | awaiting_agents, briefing => true          (* both operators present *)
  | briefing, briefing => true                 (* repeated check: no-op *)
  | briefing, completing => true               (* complete(success=true) *)
  | completing, completed => true
  | briefing, failed => true                   (* complete(success=false) *)
  | awaiting_agents, cancelled => true         (* cancel or timeout *)
  | briefing, cancelled => true
  | _, _ => false
  end.

End Spec.

(** The phase of the specification shown by a dictionary of the working
    set: the three terminal statuses, otherwise the [phase] key. *)
Definition observed (st : Status) (ph : Phase) : Spec.phase :=
  match st with
  | completed => Spec.completed
  | failed => Spec.failed
  | cancelled => Spec.cancelled
  | initiated | in_progress | error =>
      match ph with
      | waiting_for_agents => Spec.awaiting_agents
      | briefing => Spec.briefing
      end
  end.

(** How the [Unavailable] rejection of the specification reaches the caller
    of [initiate_warm_transfer]. *)
Definition Unavailable (target_agent_id : string) (e : exn) : Prop :=
  e = Exception ("Transfer initiation failed: Target agent " ++ target_agent_id
                 ++ " is not available")
  \/ e = Exception ("Transfer initiation failed: Target agent " ++ target_agent_id
                    ++ " is at capacity").

(** ** What a request sent outside *)

Definition to_gateway (c : ext_call) : bool :=
  match c with
  | LkCreateRoom _ _ | LkDeleteRoom _ | LkRemoveParticipant _ _ | LkSendData _ _ =>
      true
  | _ => false
  end.

Definition to_clients (c : ext_call) : bool :=
  match c with
  | WsSendText _ _ => true
  | _ => false
  end.

(** The requests issued between a world and a later one. *)
Definition issued (before after : world) : list ext_call :=
  drop (length (trace (w_env before))) (trace (w_env after)).

(** ** A concrete deployment

    One call [c1] in room [room-1], handled by [op-A]; operators [op-B] and
    [op-C] are free, [op-D] is at capacity.  Every request to the outside is
    answered.  The summarizer answers with the mapping whose keys the
    orchestrator reads. *)

Module Scenario.

Definition quiet : nat -> ext_call -> outcome := fun _ _ => Replied "ok".

Definition summarizer : ai_service :=
  {| Summarizer.generate_call_summary := fun _ =>
       ret (PyDict [("summary", PyStr "Customer asks about an invoice.");
                    ("sentiment", PyDict [("overall", PyStr "neutral")])]);
     Summarizer.generate_agent_context := fun _ =>
       ret (PyDict [("context", PyStr "Check the last invoice.");
                    ("sentiment_analysis", PyDict [("overall", PyStr "neutral")])]) |}.

Definition operator (n : nat) (id : string) (load : Z) : Database.agent_row :=
  {| Database.a_id := n; Database.a_agent_id := id;
     Database.is_available := true; Database.a_status := "online";
     Database.current_calls := load; Database.max_concurrent_calls := 3;
     Database.total_calls_handled := 0; Database.successful_transfers := 0 |}.

Definition start_with (answers : nat -> ext_call -> outcome) : world :=
  {| svc := {| active_transfers := ∅; transfer_timeouts := ∅ |};
     lk := {| LiveKit.ws_url := "wss://livekit.example";
              LiveKit.lk_api := false;
              LiveKit.active_rooms := ∅;
              LiveKit.active_transfers := ∅;
              LiveKit.participant_sessions := ∅ |};
     cm := {| Connections.active_connections := ["op-A"; "op-B"];
              Connections.room_connections := ∅;
              Connections.agent_connections := [];
              Connections.call_connections := ∅ |};
     db := {| Database.calls :=
                {[ "c1" := {| Database.c_id := 1; Database.c_call_id := "c1";
                              Database.c_room_name := "room-1";
                              Database.c_caller_info := PyNone;
                              Database.c_started_at := Some 40;
                              Database.c_priority := "medium" |} ]};
              Database.agents :=
                {[ "op-A" := operator 1 "op-A" 1; "op-B" := operator 2 "op-B" 0;
                   "op-C" := operator 3 "op-C" 0; "op-D" := operator 4 "op-D" 3 ]};
              Database.transfers := ∅ |};
     w_env := {| oracle := answers; trace := []; now := 100;
                 uuids := fun n => "t" ++ pretty n; uuid_ctr := 0;
                 task := None; must_cancel := false |} |}.

Definition start : world := start_with quiet.

(** The same deployment while the LLM provider is down. *)
Definition provider_down : nat -> ext_call -> outcome :=
  fun _ c =>
    match c with
    | ChatCompletion _ => Broke "Request timed out."
    | _ => Replied "ok"
    end.

(** A world with other answers from the outside. *)
Definition with_answers (answers : nat -> ext_call -> outcome) (w : world) : world :=
  set_env {| oracle := answers; trace := trace (w_env w); now := now (w_env w);
             uuids := uuids (w_env w); uuid_ctr := uuid_ctr (w_env w);
             task := task (w_env w); must_cancel := must_cancel (w_env w) |} w.

(** The database refuses every session. *)
Definition database_down : nat -> ext_call -> outcome :=
  fun _ c =>
    match c with
    | DbSession => Broke "connection refused"
    | _ => Replied "ok"
    end.

(** [initiate("c1", "op-A", "op-B")]: transfer [t0], briefing room
    [transfer_t0_t1]. *)
Definition initiated : world :=
  snd (initiate_warm_transfer summarizer "c1" "op-A" "op-B" None "medium" start).

(** Then [op-A] joins, then [op-B]. *)
Definition source_in : world :=
  snd (join_transfer_room summarizer "t0" "op-A" "agent" initiated).

Definition both_in : world :=
  snd (join_transfer_room summarizer "t0" "op-B" "agent" source_in).

End Scenario.

(** * The status query and the HTTP callers *)

(** ** [get_transfer_status]

    The answer for a transfer of the working set, or else for a row of the
    table.  The keys of [participants] are reported as a set (their order is
    not kept by the model), and [created_at] of a stored transfer, read from
    the column [initiated_at], is left out: the column is not part of the
    modelled row. *)

Inductive status_report :=
| LiveReport (transfer_id : string) (status : Status) (phase : string)
    (participants : gset string) (created_at : string) (ai_summary : pyval)
| StoredReport (transfer_id : string) (status : Status) (phase : string)
    (completed_at : option string) (duration_seconds : option nat)
    (was_successful : option bool).

Definition get_transfer_status (tid : string) : M status_report :=
  active <- gets live ;;
  match active !! tid with
  | Some transfer =>
      ret (LiveReport tid (status transfer) (phase_name (phase transfer))
             (dom (participants_of transfer))
             (Connections.isoformat (created_at transfer))
             (ai_summary transfer))
  | None =>
      found <- in_db (Database.session
                 (gets (fun d => Database.transfers d !! tid))) ;;
      match found with
      | Some r =>
          ret (StoredReport tid (Database.t_status r)
                 (match Database.t_completed_at r with
                  | Some _ => "completed"
                  | None => "unknown"
                  end)
                 (Connections.isoformat <$> Database.t_completed_at r)
                 (Database.t_duration_seconds r)
                 (Database.t_was_successful r))
      | None => raise (ValueError ("Transfer " ++ tid ++ " not found"))
      end
  end.

(** ** The routes of [api/v1/endpoints/transfers.py]

    A route answers with a body or with an [HTTPException]; an exception that
    is no [Exception] passes through.  The session given by [Depends(get_db)]
    is not used by these routes and the background task of the completion
    route only logs. *)

Module Endpoints.

Inductive reply (A : Type) :=
| Body (a : A)
| HTTPException (status_code : nat) (detail : string).
Arguments Body {A} a.
Arguments HTTPException {A} status_code detail.

Record TransferResponse (A : Type) := {
  transfer_id_of : string;
  status_text : string;
  message : string;
  data : A
}.
Arguments transfer_id_of {A} _.
Arguments status_text {A} _.
Arguments message {A} _.
Arguments data {A} _.

(** [try: ... except ValueError as e: raise HTTPException(bad, str(e))
    except Exception: raise HTTPException(500, failure)]. *)
Definition route {A B} (call : M A) (answer : A -> B) (bad : nat)
    (failure : string) : M (reply B) :=
  fun w =>
    match call w with
    | (Ok a, w') => (Ok (Body (answer a)), w')
    | (Raise e, w') =>
        match e with
        | ValueError _ => (Ok (HTTPException bad (str e)), w')
        | CancelledError => (Raise e, w')
        | _ => (Ok (HTTPException 500 failure), w')
        end
    end.

Section Routes.

Variable ai : ai_service.

Definition initiate_transfer (call_id source_agent_id target_agent_id : string)
    (reason : option string) (priority : string)
    : M (reply (TransferResponse initiate_response)) :=
  route (initiate_warm_transfer ai call_id source_agent_id target_agent_id
           reason priority)
        (fun result => {| transfer_id_of := ir_transfer_id result;
                          status_text := "success";
                          message := "Transfer initiated successfully";
                          data := result |})
        400 "Failed to initiate transfer".

Definition join_transfer (tid agent_id role : string)
    : M (reply (TransferResponse join_response)) :=
  route (join_transfer_room ai tid agent_id role)
        (fun result => {| transfer_id_of := tid;
                          status_text := "success";
                          message := "Agent " ++ agent_id ++ " joined transfer room";
                          data := result |})
        400 "Failed to join transfer".

End Routes.

Definition complete (tid : string) (success : bool) (feedback : option string)
    : M (reply (TransferResponse complete_response)) :=
  route (complete_transfer tid success feedback)
        (fun result => {| transfer_id_of := tid;
                          status_text := "success";
                          message := if success
                                     then "Transfer completed successfully"
                                     else "Transfer marked as failed";
                          data := result |})
        400 "Failed to complete transfer".

Definition cancel (tid : string) (reason : option string)
    : M (reply (TransferResponse cancel_response)) :=
  route (cancel_transfer tid reason)
        (fun result => {| transfer_id_of := tid;
                          status_text := "success";
                          message := "Transfer cancelled successfully";
                          data := result |})
        400 "Failed to cancel transfer".

Definition status_of_transfer (tid : string) : M (reply status_report) :=
  route (get_transfer_status tid) (fun report => report)
        404 "Failed to get transfer status".

End Endpoints.

(** * Notions used by the further properties *)

(** ** Runs that return *)

(** [returns m s Q]: from [s] the program [m] returns, with a result and a
    final state that satisfy [Q]. *)
Definition returns {S A} (m : ST S A) (s : S) (Q : A -> S -> Prop) : Prop :=
  exists a s', m s = (Ok a, s') /\ Q a s'.

(** Two moments of the same task facing the same outside: the answers, the
    running task and its pending cancellation are the same. *)
Definition same_context : relation env :=
  fun e e' => oracle e' = oracle e /\ task e' = task e
              /\ must_cancel e' = must_cancel e.

(** The database answers every session, or refuses every session. *)
Definition database_up (e : env) : Prop :=
  forall n, exists p, oracle e n DbSession = Replied p.


(** ** What a program leaves in place *)

(** [persists tid P s s']: a transfer stored under [tid] with the property
    [P] is still stored, with the property. *)
Definition persists (tid : string) (P : live_transfer -> Prop) : relation svc_state :=
  fun s s' =>
    forall t, active_transfers s !! tid = Some t -> P t ->
      exists t', active_transfers s' !! tid = Some t' /\ P t'.

(** [unchanged f s s']: the part [f] of the state is the same. *)
Definition unchanged {S X} (f : S -> X) : relation S := fun s s' => f s = f s'.

(** The table of the operators. *)
Definition directory (w : world) : gmap string Database.agent_row :=
  Database.agents (db w).

(** * Reasoning about the services *)

(** ** Inversion of successful runs *)

Lemma bind_Ok {S A B} (m : ST S A) (k : A -> ST S B) s b s' :
  bind m k s = (Ok b, s') ->
  exists a s1, m s = (Ok a, s1) /\ k a s1 = (Ok b, s').
Proof.
  unfold bind. destruct (m s) as [[a|e] s1]; intros H.
  - eauto.
  - discriminate.
Qed.

Lemma try_except_Ok {S A} (body : ST S A) (handler : exn -> ST S A) s a s' :
  try_except body handler s = (Ok a, s') ->
  body s = (Ok a, s') \/
  exists e s1, body s = (Raise e, s1) /\ is_Exception e = true
               /\ handler e s1 = (Ok a, s').
Proof.
  unfold try_except. destruct (body s) as [[x|e] s1]; intros H.
  - left. congruence.
  - destruct (is_Exception e) eqn:He; [right; eauto | discriminate].
Qed.

(** A handler that raises again cannot be the origin of a result. *)
Lemma try_reraise_Ok {S A} (body : ST S A) (f : exn -> exn) s a s' :
  try_except body (fun e => raise (f e)) s = (Ok a, s') ->
  body s = (Ok a, s').
Proof.
  intros H. apply try_except_Ok in H as [H | (e & s1 & _ & _ & H)]; [done |].
  discriminate.
Qed.

Lemma zoom_Ok {S T A} (get : T -> S) (put : S -> T -> T) (m : ST S A) t a t' :
  zoom get put m t = (Ok a, t') ->
  exists s', m (get t) = (Ok a, s') /\ t' = put s' t.
Proof.
  unfold zoom. destruct (m (get t)) as [r s'] eqn:E. intros H.
  exists s'. split; congruence.
Qed.

(** ** Frames: what a component cannot touch *)

Lemma zoom_frame {S T A X} (get : T -> S) (put : S -> T -> T) (m : ST S A)
    (f : T -> X) :
  (forall s t, f (put s t) = f t) ->
  forall t, f (snd (zoom get put m t)) = f t.
Proof.
  intros Hput t. unfold zoom. destruct (m (get t)) as [r s']. apply Hput.
Qed.

Lemma in_lk_svc {A} (m : LiveKit.LK A) w : svc (snd (in_lk m w)) = svc w.
Proof. apply (zoom_frame _ _ m svc). reflexivity. Qed.

Lemma in_cm_svc {A} (m : Connections.CM A) w : svc (snd (in_cm m w)) = svc w.
Proof. apply (zoom_frame _ _ m svc). reflexivity. Qed.

Lemma in_db_svc {A} (m : ST (Database.db_state * env) A) w :
  svc (snd (in_db m w)) = svc w.
Proof. apply (zoom_frame _ _ m svc). reflexivity. Qed.

Lemma in_env_svc {A} (m : ST env A) w : svc (snd (in_env m w)) = svc w.
Proof. apply (zoom_frame _ _ m svc). reflexivity. Qed.

Lemma utcnow_svc (w : world) : svc (snd (utcnow w)) = svc w.
Proof. reflexivity. Qed.

Lemma task_cancel_svc tid (w : world) : svc (snd (task_cancel tid w)) = svc w.
Proof. apply (zoom_frame _ _ (Env.task_cancel tid) svc). reflexivity. Qed.

Lemma in_db_lk {A} (m : ST (Database.db_state * env) A) w :
  lk (snd (in_db m w)) = lk w.
Proof. apply (zoom_frame _ _ m lk). reflexivity. Qed.

Lemma in_cm_lk {A} (m : Connections.CM A) w : lk (snd (in_cm m w)) = lk w.
Proof. apply (zoom_frame _ _ m lk). reflexivity. Qed.

Lemma in_env_lk {A} (m : ST env A) w : lk (snd (in_env m w)) = lk w.
Proof. apply (zoom_frame _ _ m lk). reflexivity. Qed.

(** ** Relations kept by every step of a computation *)

Section Keeps.

Context {S : Type} (R : relation S) `{!PreOrder R}.

Lemma keeps_ret {A} (a : A) : keeps R (ret a).
Proof. intros s. simpl. reflexivity. Qed.

Lemma keeps_raise {A} e : keeps R (@raise S A e).
Proof. intros s. simpl. reflexivity. Qed.

Lemma keeps_gets {A} (f : S -> A) : keeps R (gets f).
Proof. intros s. simpl. reflexivity. Qed.

Lemma keeps_of_result {A} (r : result A) : keeps R (of_result r).
Proof. intros s. simpl. reflexivity. Qed.

Lemma keeps_bind {A B} (m : ST S A) (k : A -> ST S B) :
  keeps R m -> (forall a, keeps R (k a)) -> keeps R (bind m k).
Proof.
  intros Hm Hk s. unfold bind. specialize (Hm s).
  destruct (m s) as [[a|e] s1]; simpl in *.
  - etrans; [exact Hm | apply Hk].
  - exact Hm.
Qed.

Lemma keeps_try_except {A} (body : ST S A) handler :
  keeps R body -> (forall e, keeps R (handler e)) ->
  keeps R (try_except body handler).
Proof.
  intros Hb Hh s. unfold try_except. specialize (Hb s).
  destruct (body s) as [[a|e] s1]; simpl in *.
  - exact Hb.
  - destruct (is_Exception e); [|exact Hb].
    etrans; [exact Hb | apply Hh].
Qed.

Lemma keeps_modify (f : S -> S) : (forall s, R s (f s)) -> keeps R (modify f).
Proof. intros H s. apply H. Qed.

End Keeps.

#[export] Instance on_svc_preorder Q `{!PreOrder Q} : PreOrder (on_svc Q).
Proof.
  split.
  - intros w. unfold on_svc. reflexivity.
  - intros a b c H1 H2. unfold on_svc in *. etrans; eauto.
Qed.

Section KeepsOnSvc.

Context (Q : relation svc_state) `{!PreOrder Q}.

Lemma keeps_frame {A} (m : M A) :
  (forall w, svc (snd (m w)) = svc w) -> keeps (on_svc Q) m.
Proof. intros H w. unfold on_svc. rewrite H. reflexivity. Qed.

Lemma keeps_in_lk {A} (m : LiveKit.LK A) : keeps (on_svc Q) (in_lk m).
Proof. apply keeps_frame, in_lk_svc. Qed.

Lemma keeps_in_cm {A} (m : Connections.CM A) : keeps (on_svc Q) (in_cm m).
Proof. apply keeps_frame, in_cm_svc. Qed.

Lemma keeps_in_db {A} (m : ST (Database.db_state * env) A) :
  keeps (on_svc Q) (in_db m).
Proof. apply keeps_frame, in_db_svc. Qed.

Lemma keeps_in_env {A} (m : ST env A) : keeps (on_svc Q) (in_env m).
Proof. apply keeps_frame, in_env_svc. Qed.

Lemma keeps_utcnow : keeps (on_svc Q) (utcnow : M nat).
Proof. apply keeps_frame, utcnow_svc. Qed.

Lemma keeps_task_cancel tid : keeps (on_svc Q) (task_cancel tid : M unit).
Proof. apply keeps_frame, task_cancel_svc. Qed.

Lemma keeps_uuid4 : keeps (on_svc Q) (uuid4 : M string).
Proof. apply (keeps_in_env Env.uuid4). Qed.

Lemma keeps_set_svc (f : svc_state -> svc_state) :
  (forall s, Q s (f s)) -> keeps (on_svc Q) (modify (set_svc f)).
Proof. intros H w. apply H. Qed.

End KeepsOnSvc.

(** ** The phase of a live transfer only moves forward *)

#[export] Instance phase_le_preorder : PreOrder phase_le.
Proof.
  split.
  - intros a. by left.
  - intros a b c Hab Hbc. unfold phase_le in *.
    destruct a, b, c; intuition congruence.
Qed.

Lemma phase_le_briefing ph : phase_le ph briefing.
Proof. destruct ph; unfold phase_le; auto. Qed.

#[export] Instance advances_preorder : PreOrder advances.
Proof.
  split.
  - intros s tid t' H. exists t'. split; [done | reflexivity].
  - intros a b c Hab Hbc tid t' H.
    destruct (Hbc _ _ H) as (t1 & H1 & Hle1).
    destruct (Hab _ _ H1) as (t0 & H0 & Hle0).
    exists t0. split; [done | by etrans].
Qed.

Create HintDb keeps discriminated.

Ltac keeps_step :=
  first
    [ solve [ first [ simple apply keeps_ret | simple apply keeps_raise
                    | simple apply keeps_gets | simple apply keeps_of_result
                    | simple apply keeps_in_lk | simple apply keeps_in_cm
                    | simple apply keeps_in_db | simple apply keeps_in_env
                    | simple apply keeps_utcnow | simple apply keeps_uuid4
                    | simple apply keeps_task_cancel ];
              typeclasses eauto ]
    | solve [ auto with keeps nocore ]
    | simple apply keeps_bind; [ typeclasses eauto | | intros ? ]
    | simple apply keeps_try_except; [ typeclasses eauto | | intros ? ]
    | match goal with
      | |- keeps _ (match ?x with _ => _ end) => destruct x
      | |- keeps _ (if ?c then _ else _) => destruct c
      | |- keeps _ (let '(_, _) := ?x in _) => destruct x
      end ].

Lemma keeps_mutate tid (f : live_transfer -> live_transfer) :
  (forall t, phase_le (phase t) (phase (f t))) ->
  keeps (on_svc advances) (mutate tid f).
Proof.
  intros Hf. apply keeps_set_svc. intros s tid' t' H. simpl in H.
  destruct (decide (tid = tid')) as [<- | Hne].
  - rewrite lookup_alter_eq in H.
    destruct (active_transfers s !! tid) as [t|] eqn:E; simplify_eq/=.
    exists t. split; [done | apply Hf].
  - rewrite lookup_alter_ne in H by done.
    exists t'. split; [done | reflexivity].
Qed.

Lemma keeps_delete tid :
  keeps (on_svc advances) (modify (set_svc (set_active (delete tid)))).
Proof.
  apply keeps_set_svc. intros s tid' t' H. simpl in H.
  apply lookup_delete_Some in H as [_ H].
  exists t'. split; [done | reflexivity].
Qed.

Lemma keeps_set_timeouts f :
  keeps (on_svc advances) (modify (set_svc (set_timeouts f))).
Proof.
  apply keeps_set_svc. intros s tid' t' H. simpl in H.
  exists t'. split; [done | reflexivity].
Qed.

#[export] Hint Resolve keeps_delete keeps_set_timeouts : keeps.

Lemma keeps_cancel_timeout tid : keeps (on_svc advances) (cancel_timeout tid).
Proof.
  unfold cancel_timeout. repeat keeps_step.
Qed.

#[export] Hint Resolve keeps_cancel_timeout : keeps.

Lemma keeps_cleanup tid : keeps (on_svc advances) (_cleanup_transfer tid).
Proof.
  unfold _cleanup_transfer. repeat keeps_step.
Qed.

#[export] Hint Resolve keeps_cleanup : keeps.

Ltac keeps_mutation :=
  simple apply keeps_mutate; intros ?; simpl;
  first [ reflexivity | apply phase_le_briefing ].

Ltac keeps_auto := repeat first [ keeps_step | keeps_mutation ].

Section PhaseOrder.

Variable ai : ai_service.

Lemma keeps_start_briefing tid transfer :
  keeps (on_svc advances) (start_briefing ai tid transfer).
Proof. unfold start_briefing, _share_ai_context. keeps_auto. Qed.

Lemma keeps_join tid agent_id role :
  keeps (on_svc advances) (join_transfer_room ai tid agent_id role).
Proof.
  unfold join_transfer_room. pose proof keeps_start_briefing.
  keeps_auto.
Qed.

Lemma keeps_complete tid success feedback :
  keeps (on_svc advances) (complete_transfer tid success feedback).
Proof. unfold complete_transfer, _update_agent_post_transfer. keeps_auto. Qed.

Lemma keeps_cancel tid reason :
  keeps (on_svc advances) (cancel_transfer tid reason).
Proof. unfold cancel_transfer. keeps_auto. Qed.

Lemma keeps_handle_timeout tid :
  keeps (on_svc advances) (_handle_transfer_timeout tid).
Proof.
  unfold _handle_transfer_timeout. pose proof keeps_cancel. keeps_auto.
Qed.

Lemma keeps_timeout_task tid : keeps (on_svc advances) (timeout_task tid).
Proof.
  intros w. unfold timeout_task.
  destruct (decide (tid ∈ timers w)); [|reflexivity].
  pose proof (keeps_handle_timeout tid
                (set_env (set_task (Some tid) false (w_env w)) w)) as H.
  destruct (_handle_transfer_timeout tid _) as [r w']. exact H.
Qed.

Lemma after_advances o w : on_svc advances w (after ai o w).
Proof.
  destruct o; simpl.
  - apply keeps_join.
  - apply keeps_complete.
  - apply keeps_cancel.
  - apply keeps_timeout_task.
Qed.

Lemma after_all_advances ops w : on_svc advances w (after_all ai ops w).
Proof.
  revert w. induction ops as [|o ops IH]; intros w; simpl.
  - reflexivity.
  - etrans; [apply after_advances | apply IH].
Qed.

End PhaseOrder.

(** ** Successful runs of the operations *)

Lemma modify_Ok {S} (f : S -> S) s u s' :
  modify f s = (Ok u, s') -> s' = f s.
Proof. unfold modify. congruence. Qed.

Lemma ret_Ok {S A} (a b : A) (s s' : S) :
  ret a s = (Ok b, s') -> b = a /\ s' = s.
Proof. unfold ret. intros H. split; congruence. Qed.

Lemma gets_Ok {S A} (f : S -> A) s a s' :
  gets f s = (Ok a, s') -> a = f s /\ s' = s.
Proof. unfold gets. intros H. split; congruence. Qed.

(** Decompose a hypothesis stating that a monadic program returned. *)
Ltac run_ok H :=
  repeat
    match type of H with
    | bind _ _ _ = (Ok _, _) =>
        let a := fresh "a" in
        let w := fresh "w" in
        let H1 := fresh "Hrun" in
        apply bind_Ok in H as (a & w & H1 & H)
    | try_except _ (fun e => raise _) _ = (Ok _, _) =>
        apply try_reraise_Ok in H
    end.

(** What a program leaves of the orchestrator's dictionaries, read off a
    run: [keeps (on_svc eq)] is the frame of the other components. *)
Ltac frame H :=
  match type of H with
  | ?m ?w = (_, ?w') =>
      let F := fresh "Hsvc" in
      assert (F : svc w = svc w')
        by (let K := fresh in
            assert (K : keeps (on_svc eq) m) by keeps_auto;
            specialize (K w); rewrite H in K; exact K)
  end.

Lemma share_ai_context_svc tid ctx :
  keeps (on_svc eq) (_share_ai_context tid ctx).
Proof. unfold _share_ai_context. keeps_auto. Qed.

#[export] Hint Resolve share_ai_context_svc : keeps.

Lemma mutate_Ok tid f w u w' :
  mutate tid f w = (Ok u, w') -> w' = set_svc (set_active (alter f tid)) w.
Proof. apply modify_Ok. Qed.

Lemma start_briefing_Ok ai tid tr w tr' w' :
  start_briefing ai tid tr w = (Ok tr', w') ->
  tr' = set_status in_progress (set_phase briefing tr) /\
  live w' = alter (fun t => set_status in_progress (set_phase briefing t))
              tid (live w).
Proof.
  unfold start_briefing. intros H. run_ok H.
  apply mutate_Ok in Hrun. frame Hrun0. frame Hrun1. frame Hrun2. frame Hrun3.
  apply ret_Ok in H as [-> ->]. split; [done|].
  unfold live. rewrite <- Hsvc2, <- Hsvc1, <- Hsvc0, <- Hsvc. by subst w0.
Qed.

(** A join that returns has recorded the caller, whoever it is, and has
    left the other keys of the dictionary alone, except for the step to
    [briefing]. *)
Lemma join_Ok ai tid agent_id role w resp w' t :
  live w !! tid = Some t ->
  join_transfer_room ai tid agent_id role w = (Ok resp, w') ->
  exists t' at_,
    live w' !! tid = Some t' /\
    participants t' = Some (<[agent_id := {| joined_at := at_; role := role |}]>
                              (participants_of t)) /\
    target_agent_id t' = target_agent_id t /\
    source_agent_id t' = source_agent_id t /\
    ai_summary t' = ai_summary t /\
    phase_le (phase t) (phase t') /\
    jr_transfer_phase resp = phase t' /\
    jr_ai_summary resp = (if decide (agent_id = target_agent_id t)
                          then ai_summary t else PyNone) /\
    (forall tid', tid' <> tid -> live w' !! tid' = live w !! tid').
Proof.
  intros Hlive H. unfold join_transfer_room in H.
  apply bind_Ok in H as (active & w1 & Hg & H). apply gets_Ok in Hg as [-> ->].
  rewrite Hlive in H. run_ok H.
  frame Hrun. frame Hrun0. apply mutate_Ok in Hrun1. frame Hrun3.
  apply ret_Ok in H as [-> ->].
  set (p := {| joined_at := a0; role := role |}) in *.
  set (t1 := record_participant agent_id p t) in *.
  assert (Hw2 : live w2 = alter (record_participant agent_id p) tid (live w)).
  { subst w2. unfold live. simpl. by rewrite <- Hsvc0, <- Hsvc. }
  assert (Ha2 : (a2 = t1 /\ live w3 = live w2) \/
                (a2 = set_status in_progress (set_phase briefing t1) /\
                 live w3 = alter (fun t => set_status in_progress
                                             (set_phase briefing t))
                             tid (live w2))).
  { destruct (_ && _).
    - right. by apply start_briefing_Ok in Hrun2.
    - left. apply ret_Ok in Hrun2 as [-> ->]. done. }
  assert (Hw4 : live w4 = live w3) by (unfold live; by rewrite Hsvc1).
  destruct Ha2 as [[-> Hw3] | [-> Hw3]].
  - exists t1, a0. rewrite Hw4, Hw3, Hw2. simpl.
    rewrite lookup_alter_eq, Hlive. simpl.
    repeat split; try done.
    intros tid' Hne. by rewrite lookup_alter_ne.
  - exists (set_status in_progress (set_phase briefing t1)), a0.
    rewrite Hw4, Hw3, Hw2. simpl.
    rewrite !lookup_alter_eq, Hlive. simpl.
    repeat split; try done.
    + apply phase_le_briefing.
    + intros tid' Hne. by rewrite !lookup_alter_ne.
Qed.

(** A run, as the pair of its result and its final state. *)
Lemma run_eq {S A} (m : ST S A) (s : S) (r : result A) :
  fst (m s) = r -> m s = (r, snd (m s)).
Proof. intros <-. apply surjective_pairing. Qed.

(** ** What is left of the working set after a request *)

#[export] Instance same_live_preorder : PreOrder same_live.
Proof. split; unfold same_live; [done | congruence]. Qed.

Lemma same_live_set_timeouts f :
  keeps (on_svc same_live) (modify (set_svc (set_timeouts f))).
Proof. by apply keeps_set_svc. Qed.

#[export] Hint Resolve same_live_set_timeouts : keeps.

Lemma same_live_cancel_timeout tid : keeps (on_svc same_live) (cancel_timeout tid).
Proof. unfold cancel_timeout. keeps_auto. Qed.

#[export] Hint Resolve same_live_cancel_timeout : keeps.

Create HintDb keeps_unfold.
#[export] Hint Unfold _update_agent_post_transfer _share_ai_context
  _notify_transfer_initiation _prepare_call_data : keeps_unfold.

Ltac keeps_all := repeat first [ keeps_step | keeps_mutation | progress autounfold with keeps_unfold ].

Ltac frame_live H :=
  match type of H with
  | ?m ?w = (_, ?w') =>
      let F := fresh "Hlive" in
      assert (F : live w' = live w)
        by (let K := fresh in
            assert (K : keeps (on_svc same_live) m) by keeps_all;
            specialize (K w); rewrite H in K; symmetry; exact K)
  end.

Lemma live_set_active f w : live (set_svc (set_active f) w) = f (live w).
Proof. reflexivity. Qed.

Lemma live_set_timeouts f w : live (set_svc (set_timeouts f) w) = live w.
Proof. reflexivity. Qed.

Lemma cleanup_Ok tid w u w' :
  _cleanup_transfer tid w = (Ok u, w') -> live w' = delete tid (live w).
Proof.
  unfold _cleanup_transfer. intros H. run_ok H.
  apply modify_Ok in Hrun. frame_live H. rewrite Hlive. by subst w0.
Qed.

(** Turn the steps of a successful run into equations on the working set. *)
Ltac live_facts :=
  repeat match goal with
  | H : ret _ _ = (Ok _, _) |- _ => apply ret_Ok in H as [? ?]; subst
  | H : mutate _ _ _ = (Ok _, _) |- _ => apply mutate_Ok in H; subst
  | H : modify _ _ = (Ok _, _) |- _ => apply modify_Ok in H; subst
  | H : _cleanup_transfer _ _ = (Ok _, _) |- _ => apply cleanup_Ok in H
  | H : ?m ?w = (Ok _, ?w') |- _ => frame_live H; clear H
  end;
  rewrite ?live_set_timeouts, ?live_set_active in *.

Lemma cancel_Ok tid reason w resp w' :
  cancel_transfer tid reason w = (Ok resp, w') ->
  live w' = delete tid (live w) /\
  resp = {| xr_transfer_id := tid; xr_status := cancelled; xr_reason := reason |}.
Proof.
  unfold cancel_transfer. intros H.
  apply bind_Ok in H as (active & w1 & Hg & H). apply gets_Ok in Hg as [-> ->].
  destruct (live w !! tid) as [t|] eqn:Hl; [|discriminate].
  run_ok H. live_facts. split; [|done].
  repeat match goal with Hx : live _ = _ |- _ => rewrite Hx; clear Hx end.
  by rewrite delete_alter_eq.
Qed.

Lemma cancel_not_live tid reason w :
  live w !! tid = None ->
  cancel_transfer tid reason w
  = (Raise (ValueError ("Transfer " ++ tid ++ " not found")), w).
Proof.
  intros H. unfold cancel_transfer, bind, gets. simpl. by rewrite H.
Qed.

Lemma complete_Ok tid success feedback w resp w' :
  complete_transfer tid success feedback w = (Ok resp, w') ->
  live w' = delete tid (live w) /\
  cr_status resp = (if success then completed else failed).
Proof.
  unfold complete_transfer. intros H.
  apply bind_Ok in H as (active & w1 & Hg & H). apply gets_Ok in Hg as [-> ->].
  destruct (live w !! tid) as [t|] eqn:Hl; [|discriminate].
  apply try_except_Ok in H as [H | (e & s1 & _ & _ & H)].
  2:{ unfold bind, mutate, modify, raise in H. discriminate. }
  run_ok H.
  destruct success; run_ok Hrun0; live_facts; (split; [|done]);
    repeat match goal with Hx : live _ = _ |- _ => rewrite Hx; clear Hx end;
    by rewrite delete_alter_eq.
Qed.

(** ** Running a program whose first steps are known *)

Lemma bind_Ok_eq {S A B} (m : ST S A) (k : A -> ST S B) s a s1 :
  m s = (Ok a, s1) -> bind m k s = k a s1.
Proof. unfold bind. by intros ->. Qed.

Lemma bind_Raise_eq {S A B} (m : ST S A) (k : A -> ST S B) s e s1 :
  m s = (Raise e, s1) -> bind m k s = (Raise e, s1).
Proof. unfold bind. by intros ->. Qed.

Lemma try_except_Raise_eq {S A} (body : ST S A) handler s e s1 :
  body s = (Raise e, s1) -> is_Exception e = true ->
  try_except body handler s = handler e s1.
Proof. unfold try_except. by intros -> ->. Qed.

(** The first database block refuses a target operator that is not
    available, not online, or at capacity. *)
Lemma validation_refuses call_id source_agent_id target_agent_id w ta :
  Database.agents (db w) !! target_agent_id = Some ta ->
  (Database.is_available ta = false
   \/ Database.a_status ta <> "online"
   \/ (Database.max_concurrent_calls ta <= Database.current_calls ta)%Z) ->
  exists e,
    in_db (Database.session
             (validate_request call_id source_agent_id target_agent_id)) w
    = (Raise e,
       set_env (set_trace (fun t => (t ++ [DbSession])%list) (w_env w)) w)
    /\ is_Exception e = true
    /\ (is_Some (Database.calls (db w) !! call_id) ->
        is_Some (Database.agents (db w) !! source_agent_id) ->
        (exists p, oracle (w_env w) (length (trace (w_env w))) DbSession = Replied p) ->
        e = ValueError ("Target agent " ++ target_agent_id ++ " is not available")
        \/ e = ValueError ("Target agent " ++ target_agent_id ++ " is at capacity")).
Proof.
  intros Hta Hbad.
  unfold in_db, Database.session, zoom, bind, call_out, zoom, Env.call_out. simpl.
  destruct w as [s l c d e]. simpl in *.
  destruct (oracle e (length (trace e)) DbSession) as [p|m] eqn:Ho; simpl.
  2:{ eexists. split; [reflexivity|]. split; [done|].
      intros _ _ [p Hp]. discriminate. }
  unfold validate_request, bind, gets, raise, ret. simpl.
  destruct (Database.calls d !! call_id) as [call|] eqn:Hc; simpl.
  2:{ eexists. split; [reflexivity|]. split; [done|].
      intros [? ?]. discriminate. }
  destruct (Database.agents d !! source_agent_id) as [sa|] eqn:Hs; simpl.
  2:{ eexists. split; [reflexivity|]. split; [done|].
      intros _ [? ?]. discriminate. }
  rewrite Hta.
  destruct (negb (Database.is_available ta)
            || negb (String.eqb (Database.a_status ta) "online")) eqn:Hav; simpl.
  { eexists. split; [reflexivity|]. split; [done|]. intros _ _ _. by left. }
  destruct (Database.max_concurrent_calls ta <=? Database.current_calls ta)%Z eqn:Hcap;
    simpl.
  { eexists. split; [reflexivity|]. split; [done|]. intros _ _ _. by right. }
  exfalso. apply orb_false_iff in Hav as [Ha Hst].
  apply negb_false_iff in Ha, Hst. apply String.eqb_eq in Hst.
  apply Z.leb_gt in Hcap.
  destruct Hbad as [Hb | [Hb | Hb]]; [congruence | done | lia].
Qed.

(** ** The summarizer of the repository returns text *)

Lemma AIService_summary_is_text providers data context e v e' :
  AI.generate_call_summary providers data context e = (Ok v, e') ->
  exists s, v = PyStr s.
Proof.
  unfold AI.generate_call_summary. intros H.
  apply try_except_Ok in H as [H | (x & s1 & _ & _ & H)].
  - destruct (decide ("openai" ∈ providers)).
    + apply try_except_Ok in H as [H | (x & s1 & _ & _ & H)].
      * run_ok H. apply ret_Ok in H as [-> _]. eauto.
      * apply ret_Ok in H as [-> _]. eauto.
    + apply ret_Ok in H as [-> _]. eauto.
  - apply ret_Ok in H as [-> _]. eauto.
Qed.

Lemma text_has_no_keys {S} (s : string) (k : string) (st : S) v st' :
  of_result (subscript (PyStr s) k) st <> (Ok v, st').
Proof. unfold of_result. simpl. congruence. Qed.

Lemma initiate_with_AIService_raises providers default_provider call_id
    source_agent_id target_agent_id reason priority w :
  exists e,
    fst (initiate_warm_transfer (AI.AIService providers default_provider)
           call_id source_agent_id target_agent_id reason priority w)
    = Raise e.
Proof.
  destruct (initiate_warm_transfer _ _ _ _ _ _ w) as [[resp|e] w'] eqn:H;
    [exfalso | by eexists].
  unfold initiate_warm_transfer in H.
  apply bind_Ok in H as (tid & w1 & _ & H).
  apply try_except_Ok in H as [H | (e & s1 & _ & _ & H)].
  2:{ unfold bind, modify, raise in H. discriminate. }
  apply bind_Ok in H as ([[call sa] ta] & w2 & _ & H).
  run_ok H. clear H.
  apply zoom_Ok in Hrun0 as (e' & Hsum & _). simpl in Hsum.
  apply AIService_summary_is_text in Hsum as [s ->].
  apply zoom_Ok in Hrun3 as (s' & Hdb & _).
  unfold Database.session in Hdb. run_ok Hdb.
  apply zoom_Ok in Hdb as (d' & Hdb & _). run_ok Hdb.
  match goal with
  | Hx : of_result (subscript (PyStr _) _) _ = (Ok _, _) |- _ =>
      by apply text_has_no_keys in Hx
  end.
Qed.

(** ** Initiation does not read the working set *)

Lemma oblivious_ret {A} (a : A) : oblivious (ret a).
Proof. by intros w1 w2 H. Qed.

Lemma oblivious_raise {A} e : oblivious (@raise world A e).
Proof. by intros w1 w2 H. Qed.

Lemma oblivious_of_result {A} (r : result A) : oblivious (of_result r).
Proof. by intros w1 w2 H. Qed.

Lemma oblivious_bind {A B} (m : M A) (k : A -> M B) :
  oblivious m -> (forall a, oblivious (k a)) -> oblivious (bind m k).
Proof.
  intros Hm Hk w1 w2 H. unfold bind. destruct (Hm _ _ H) as [Hr Hs].
  destruct (m w1) as [[a|e] w1'], (m w2) as [[a'|e'] w2']; simpl in *;
    try discriminate; injection Hr as ->; [by apply Hk | done].
Qed.

Lemma oblivious_try_except {A} (body : M A) handler :
  oblivious body -> (forall e, oblivious (handler e)) ->
  oblivious (try_except body handler).
Proof.
  intros Hb Hh w1 w2 H. unfold try_except. destruct (Hb _ _ H) as [Hr Hs].
  destruct (body w1) as [[a|e] w1'], (body w2) as [[a'|e'] w2']; simpl in *;
    try discriminate; injection Hr as ->; [done |].
  destruct (is_Exception e'); [by apply Hh | done].
Qed.

Lemma oblivious_set_svc f : oblivious (modify (set_svc f)).
Proof. by intros w1 w2 H. Qed.

Lemma oblivious_in_lk {A} (m : LiveKit.LK A) : oblivious (in_lk m).
Proof.
  intros w1 w2 H. injection H as Hlk Hcm Hdb Henv. unfold in_lk, zoom.
  rewrite Hlk, Henv. destruct (m _) as [r s']. unfold rest. simpl.
  by rewrite Hcm, Hdb.
Qed.

Lemma oblivious_in_cm {A} (m : Connections.CM A) : oblivious (in_cm m).
Proof.
  intros w1 w2 H. injection H as Hlk Hcm Hdb Henv. unfold in_cm, zoom.
  rewrite Hcm, Henv. destruct (m _) as [r s']. unfold rest. simpl.
  by rewrite Hlk, Hdb.
Qed.

Lemma oblivious_in_db {A} (m : ST (Database.db_state * env) A) :
  oblivious (in_db m).
Proof.
  intros w1 w2 H. injection H as Hlk Hcm Hdb Henv. unfold in_db, zoom.
  rewrite Hdb, Henv. destruct (m _) as [r s']. unfold rest. simpl.
  by rewrite Hlk, Hcm.
Qed.

Lemma oblivious_in_env {A} (m : ST env A) : oblivious (in_env m).
Proof.
  intros w1 w2 H. injection H as Hlk Hcm Hdb Henv. unfold in_env, zoom.
  rewrite Henv. destruct (m _) as [r s']. unfold rest. simpl.
  by rewrite Hlk, Hcm, Hdb.
Qed.

Lemma oblivious_utcnow : oblivious (utcnow : M nat).
Proof. apply (oblivious_in_env Env.utcnow). Qed.

Lemma oblivious_uuid4 : oblivious (uuid4 : M string).
Proof. apply (oblivious_in_env Env.uuid4). Qed.

Lemma notify_initiation_eq tid x w :
  live w !! tid = Some x ->
  _notify_transfer_initiation tid w
  = (in_cm (Connections.send_personal_message
              (PyDict [("type", PyStr "transfer_initiated");
                       ("transfer_id", PyStr tid);
                       ("role", PyStr "source_agent");
                       ("transfer_room", PyStr (transfer_room x));
                       ("target_agent", PyStr (target_agent_id x));
                       ("ai_summary", ai_summary x)])
              (source_agent_id x)) ;;;
     in_cm (Connections.send_personal_message
              (PyDict [("type", PyStr "transfer_request");
                       ("transfer_id", PyStr tid);
                       ("role", PyStr "target_agent");
                       ("transfer_room", PyStr (transfer_room x));
                       ("source_agent", PyStr (source_agent_id x));
                       ("ai_summary", ai_summary x)])
              (target_agent_id x))) w.
Proof.
  intros H. unfold _notify_transfer_initiation.
  rewrite (bind_Ok_eq _ _ w (live w) w) by reflexivity. by rewrite H.
Qed.

Lemma bind_at {S A B} (m m' : ST S A) (k : A -> ST S B) s :
  m s = m' s -> bind m k s = bind m' k s.
Proof. unfold bind. by intros ->. Qed.

(** The end of [initiate_warm_transfer]: the new dictionary is stored and
    then read back, whatever the working set held. *)
Lemma oblivious_publish {A} tid x f (resp : A) :
  oblivious (modify (set_svc (set_active (<[tid := x]>))) ;;;
             modify (set_svc (set_timeouts f)) ;;;
             _notify_transfer_initiation tid ;;;
             ret resp).
Proof.
  intros w1 w2 H.
  set (pub := fun w => set_svc (set_timeouts f)
                         (set_svc (set_active (<[tid := x]>)) w)).
  assert (Hrun : forall w,
    (modify (set_svc (set_active (<[tid := x]>))) ;;;
     modify (set_svc (set_timeouts f)) ;;;
     _notify_transfer_initiation tid ;;; ret resp) w
    = (_notify_transfer_initiation tid ;;; ret resp) (pub w)) by reflexivity.
  rewrite !Hrun.
  rewrite (bind_at _ _ _ (pub w1)
             (notify_initiation_eq tid x (pub w1) (lookup_insert_eq _ _ _))).
  rewrite (bind_at _ _ _ (pub w2)
             (notify_initiation_eq tid x (pub w2) (lookup_insert_eq _ _ _))).
  eapply (oblivious_bind _ (fun _ => ret resp)); [| intros; apply oblivious_ret |].
  - apply oblivious_bind; intros; apply oblivious_in_cm.
  - exact H.
Qed.

Ltac oblivious_step :=
  first
    [ simple apply oblivious_publish
    | simple apply oblivious_ret | simple apply oblivious_raise
    | simple apply oblivious_of_result
    | simple apply oblivious_in_lk | simple apply oblivious_in_cm
    | simple apply oblivious_in_db | simple apply oblivious_in_env
    | simple apply oblivious_utcnow | simple apply oblivious_uuid4
    | simple apply oblivious_set_svc
    | simple apply oblivious_bind; [ | intros ? ]
    | simple apply oblivious_try_except; [ | intros ? ]
    | match goal with
      | |- oblivious (match ?x with _ => _ end) => destruct x
      end ].

Lemma oblivious_initiate ai call_id source_agent_id target_agent_id reason priority :
  oblivious (initiate_warm_transfer ai call_id source_agent_id target_agent_id
               reason priority).
Proof.
  unfold initiate_warm_transfer, _prepare_call_data. repeat oblivious_step.
Qed.


(** A successful initiation stores one new dictionary and keeps the rest. *)
Lemma initiate_Ok ai c src tgt reason priority w resp w' :
  initiate_warm_transfer ai c src tgt reason priority w = (Ok resp, w') ->
  exists new,
    live w' = <[ir_transfer_id resp := new]> (live w) /\
    call_id new = c /\ source_agent_id new = src /\ target_agent_id new = tgt /\
    status new = initiated /\ phase new = waiting_for_agents.
Proof.
  unfold initiate_warm_transfer. intros H.
  apply bind_Ok in H as (tid & w1 & Hid & H).
  apply try_except_Ok in H as [H | (e & s1 & _ & _ & H)].
  2:{ unfold bind, modify, raise in H. discriminate. }
  apply bind_Ok in H as ([[call sa] ta] & w2 & Hv & H).
  run_ok H. live_facts.
  eexists. split.
  - simpl.
    repeat match goal with Hx : live _ = _ |- _ => rewrite Hx; clear Hx end.
    reflexivity.
  - done.
Qed.

(** ** The timeout task cancels itself

    [cancel_transfer] starts by cancelling the task stored under the
    transfer; when the caller is that task, the cancellation is its own and
    is delivered at the first await that suspends, the request of
    [delete_room]. *)

Lemma cancel_inside_own_timer tid reason w t :
  live w !! tid = Some t ->
  tid ∈ timers w ->
  task (w_env w) = Some tid ->
  exists w',
    cancel_transfer tid reason w = (Raise CancelledError, w') /\
    live w' = live w /\
    timers w' = timers w ∖ {[tid]} /\
    LiveKit.active_rooms (lk w') = LiveKit.active_rooms (lk w) /\
    trace (w_env w') = trace (w_env w).
Proof.
  intros Hl Ht Htask. eexists. split.
  - unfold cancel_transfer, bind at 1, gets. simpl. rewrite Hl.
    unfold try_except, bind at 1.
    unfold cancel_timeout, bind at 1, gets. simpl.
    destruct (decide (tid ∈ timers w)); [|done].
    unfold bind at 1, task_cancel, zoom, Env.task_cancel. simpl.
    destruct (decide (task (w_env w) = Some tid)); [|done].
    unfold modify. simpl. reflexivity.
  - simpl. done.
Qed.

Lemma timeout_task_cancels_itself tid w t :
  live w !! tid = Some t ->
  tid ∈ timers w ->
  exists w',
    timeout_task tid w = (Raise CancelledError, w') /\
    live w' = live w /\
    timers w' = timers w ∖ {[tid]} /\
    LiveKit.active_rooms (lk w') = LiveKit.active_rooms (lk w) /\
    trace (w_env w') = trace (w_env w).
Proof.
  intros Hl Ht. unfold timeout_task.
  destruct (decide (tid ∈ timers w)); [|done].
  set (w0 := set_env _ w).
  destruct (cancel_inside_own_timer tid (Some "timeout") w0 t Hl Ht eq_refl)
    as (w' & Hc & Hlive & Htimers & Hrooms & Htrace).
  unfold _handle_transfer_timeout.
  rewrite (bind_Ok_eq _ _ w0 (live w0) w0) by reflexivity.
  destruct (decide (is_Some (live w0 !! tid))) as [_|Hn].
  2:{ exfalso. apply Hn. exists t. exact Hl. }
  rewrite (bind_Raise_eq _ _ w0 CancelledError w') by exact Hc.
  eexists. split; [reflexivity|]. simpl. done.
Qed.

(** A timer that fires for a transfer that has left the working set does
    nothing. *)
Lemma timeout_task_after_removal tid w :
  live w !! tid = None -> live (snd (timeout_task tid w)) = live w
                          /\ fst (timeout_task tid w) = Ok tt
                          /\ trace (w_env (snd (timeout_task tid w))) = trace (w_env w).
Proof.
  intros Hl. unfold timeout_task.
  destruct (decide (tid ∈ timers w)); [|done].
  unfold _handle_transfer_timeout.
  set (w0 := set_env _ w).
  rewrite (bind_Ok_eq _ _ w0 (live w0) w0) by reflexivity.
  assert (Hl0 : live w0 !! tid = None) by exact Hl.
  destruct (decide (is_Some (live w0 !! tid))) as [Hs|_].
  { rewrite Hl0 in Hs. by destruct Hs. }
  done.
Qed.

(** ** A failed completion does not reach the gateway *)

#[export] Instance same_gateway_preorder : PreOrder same_gateway.
Proof. split; unfold same_gateway; [done | congruence]. Qed.

Lemma same_gateway_frame {A} (m : M A) :
  (forall w, lk (snd (m w)) = lk w) -> keeps same_gateway m.
Proof. intros H w. unfold same_gateway. by rewrite H. Qed.

Lemma same_gateway_in_env {A} (m : ST env A) :
  keeps same_gateway (zoom get_env put_env m : M A).
Proof. apply same_gateway_frame. intros w. apply (in_env_lk m). Qed.

Lemma same_gateway_set_svc f : keeps same_gateway (modify (set_svc f)).
Proof. by intros w. Qed.

Ltac gateway_step :=
  first
    [ solve [ first [ simple apply keeps_ret | simple apply keeps_raise
                    | simple apply keeps_gets | simple apply keeps_of_result ];
              typeclasses eauto ]
    | simple apply same_gateway_set_svc
    | simple apply same_gateway_in_env
    | simple apply same_gateway_frame;
      first [ simple apply in_db_lk | simple apply in_cm_lk
            | simple apply in_env_lk ]
    | solve [ simple apply same_gateway_frame; intros ?; reflexivity ]
    | simple apply keeps_bind; [ typeclasses eauto | | intros ? ]
    | simple apply keeps_try_except; [ typeclasses eauto | | intros ? ]
    | match goal with
      | |- keeps _ (match ?x with _ => _ end) => destruct x
      | |- keeps _ (if ?c then _ else _) => destruct c
      end ].

Lemma failed_completion_leaves_gateway tid feedback w :
  lk (snd (complete_transfer tid false feedback w)) = lk w.
Proof.
  assert (H : keeps same_gateway (complete_transfer tid false feedback)).
  { unfold complete_transfer, cancel_timeout, _cleanup_transfer, cancel_timeout,
      mutate, task_cancel.
    repeat gateway_step. }
  symmetry. apply H.
Qed.

(** ** Timers are armed by initiation only *)

#[export] Instance timers_shrink_preorder : PreOrder timers_shrink.
Proof.
  split.
  - intros s. unfold timers_shrink. set_solver.
  - intros a b c. unfold timers_shrink. set_solver.
Qed.

Lemma shrink_set_active f :
  keeps (on_svc timers_shrink) (modify (set_svc (set_active f))).
Proof. apply keeps_set_svc. intros s. unfold timers_shrink. simpl. set_solver. Qed.

Lemma shrink_mutate tid f : keeps (on_svc timers_shrink) (mutate tid f).
Proof. apply shrink_set_active. Qed.

Lemma shrink_disarm tid :
  keeps (on_svc timers_shrink)
    (modify (set_svc (set_timeouts (fun s => s ∖ {[tid]})))).
Proof.
  apply keeps_set_svc. intros s x Hx. simpl in Hx.
  apply elem_of_difference in Hx. tauto.
Qed.

#[export] Hint Resolve shrink_set_active shrink_mutate shrink_disarm : keeps.

Lemma timers_never_rearmed ai ops w : timers (after_all ai ops w) ⊆ timers w.
Proof.
  revert w. induction ops as [|o ops IH]; intros w; simpl; [done|].
  etrans; [apply IH|].
  assert (H : on_svc timers_shrink w (after ai o w)); [|exact H].
  destruct o as [tid agent r | tid success feedback | tid reason | tid]; simpl.
  - assert (K : keeps (on_svc timers_shrink) (join_transfer_room ai tid agent r))
      by (unfold join_transfer_room, start_briefing; keeps_all).
    apply K.
  - assert (K : keeps (on_svc timers_shrink) (complete_transfer tid success feedback))
      by (unfold complete_transfer, _cleanup_transfer, cancel_timeout; keeps_all).
    apply K.
  - assert (K : keeps (on_svc timers_shrink) (cancel_transfer tid reason))
      by (unfold cancel_transfer, _cleanup_transfer, cancel_timeout; keeps_all).
    apply K.
  - unfold timeout_task. destruct (decide (tid ∈ timers w)); [|reflexivity].
    assert (K : keeps (on_svc timers_shrink) (_handle_transfer_timeout tid))
      by (unfold _handle_transfer_timeout, cancel_transfer, _cleanup_transfer,
            cancel_timeout; keeps_all).
    specialize (K (set_env (set_task (Some tid) false (w_env w)) w)).
    destruct (_handle_transfer_timeout tid _) as [r w']. exact K.
Qed.

(** ** A cancellation interrupted by the database

    [cancel_transfer] assigns the status before it writes to the database
    and removes the entry after: when the database session breaks, the
    transfer stays in the working set with the status [cancelled]. *)

Lemma cancel_with_database_down_stays_live :
  let run := cancel_transfer "t0" None
               (Scenario.with_answers Scenario.database_down Scenario.both_in) in
  fst run = Raise (Exception "Transfer cancellation failed: connection refused")
  /\ (status <$> live (snd run) !! "t0") = Some cancelled
  /\ filter to_gateway (issued Scenario.both_in (snd run))
     = [LkDeleteRoom "transfer_t0_t1"].
Proof. vm_compute. repeat split. Qed.

(** ** The state after a join, returned or not

    In the model the token is always issued (see [generate_access_token]),
    so a join of a live transfer reaches the assignment to [participants];
    nothing that follows it, the handler included, removes an entry or the
    transfer. *)

#[export] Instance persists_preorder tid P : PreOrder (persists tid P).
Proof.
  split.
  - intros s t Ht HP. eauto.
  - intros a b c Hab Hbc t Ht HP.
    destruct (Hab t Ht HP) as (t1 & Ht1 & HP1). eauto.
Qed.

Lemma persists_mutate tid P tid' (f : live_transfer -> live_transfer) :
  (forall t, P t -> P (f t)) ->
  keeps (on_svc (persists tid P)) (mutate tid' f).
Proof.
  intros Hf. apply keeps_set_svc. intros s t Ht HP. simpl.
  destruct (decide (tid' = tid)) as [->|Hne].
  - rewrite lookup_alter_eq, Ht. simpl. eauto.
  - rewrite lookup_alter_ne by done. eauto.
Qed.

Lemma persists_share tid P tid' ctx :
  keeps (on_svc (persists tid P)) (_share_ai_context tid' ctx).
Proof. unfold _share_ai_context. repeat keeps_step. Qed.

Lemma bind_assoc {S A B C} (m : ST S A) (f : A -> ST S B) (k : B -> ST S C) s :
  bind (bind m f) k s = bind m (fun a => bind (f a) k) s.
Proof. unfold bind. by destruct (m s) as [[a|e] s1]. Qed.

Lemma try_except_snd {S A} (body : ST S A) (f : exn -> exn) s :
  snd (try_except body (fun e => raise (f e)) s) = snd (body s).
Proof.
  unfold try_except. destruct (body s) as [[a|e] s1]; [done|].
  by destruct (is_Exception e).
Qed.

Lemma participants_of_record a p t :
  participants_of (record_participant a p t) = <[a := p]> (participants_of t).
Proof. reflexivity. Qed.

Lemma add_participant_run room identity name role meta (s : LiveKit.state) (e : env) :
  exists s' e',
    LiveKit.add_participant_to_room room identity name role meta (s, e)
    = (Ok {| LiveKit.access_token_of :=
               LiveKit.generate_access_token room identity name meta;
             LiveKit.ai_room_name := room;
             LiveKit.ai_ws_url := LiveKit.ws_url s;
             LiveKit.ai_participant_identity := identity;
             LiveKit.ai_role := role |}, (s', e')) /\
    trace e' = trace e /\ oracle e' = oracle e /\
    must_cancel e' = must_cancel e /\ task e' = task e /\
    LiveKit.lk_api s' = LiveKit.lk_api s /\
    LiveKit.active_transfers s' = LiveKit.active_transfers s /\
    dom (LiveKit.active_rooms s') = dom (LiveKit.active_rooms s) /\
    (forall other, other <> room ->
       LiveKit.active_rooms s' !! other = LiveKit.active_rooms s !! other) /\
    (exists at_, LiveKit.participant_sessions s'
       = <[identity := {| LiveKit.s_room_name := room; LiveKit.s_joined_at := at_;
                          LiveKit.s_role := role |}]> (LiveKit.participant_sessions s)) /\
    (forall r, LiveKit.active_rooms s !! room = Some r ->
       exists r', LiveKit.active_rooms s' !! room = Some r' /\
                  is_Some (LiveKit.r_participants r' !! identity)).
Proof.
  cbv [LiveKit.add_participant_to_room try_except bind
    LiveKit.gets_lk gets LiveKit.modify_lk modify utcnow zoom Env.utcnow ret].
  simpl.
  destruct (decide (is_Some (LiveKit.active_rooms s !! room))) as [Hin|Hout]; simpl.
  - eexists _, _. split; [reflexivity|]. simpl.
    repeat split; try done.
    + apply dom_alter_L.
    + intros other Hne. by rewrite lookup_alter_ne.
    + eauto.
    + intros r Hr. rewrite lookup_alter_eq, Hr. simpl. eexists. split; [done|].
      simpl. rewrite lookup_insert_eq. eauto.
  - eexists _, _. split; [reflexivity|]. simpl.
    repeat split; try done.
    + eauto.
    + intros r Hr. destruct Hout. eauto.
Qed.

Lemma join_outcome ai tid agent_id as_role w t :
  live w !! tid = Some t ->
  exists t' at_,
    live (snd (join_transfer_room ai tid agent_id as_role w)) !! tid = Some t' /\
    participants_of t'
    = <[agent_id := {| joined_at := at_; role := as_role |}]> (participants_of t) /\
    source_agent_id t' = source_agent_id t /\
    target_agent_id t' = target_agent_id t /\
    (is_Some (participants_of t' !! source_agent_id t) ->
     is_Some (participants_of t' !! target_agent_id t) ->
     phase t' = briefing).
Proof.
  intros Hlive. unfold join_transfer_room.
  rewrite (bind_Ok_eq _ _ w (live w) w) by reflexivity. rewrite Hlive.
  rewrite try_except_snd.
  destruct (add_participant_run (transfer_room t) agent_id
              (Some ("Agent-" ++ agent_id)) as_role
              (Some [("transfer_id", PyStr tid); ("role", PyStr as_role)])
              (lk w) (w_env w)) as (s1 & e1 & Hadd & _).
  erewrite bind_Ok_eq; [|unfold in_lk, zoom; rewrite Hadd; reflexivity].
  erewrite bind_Ok_eq; [|reflexivity].
  erewrite bind_Ok_eq; [|reflexivity].
  cbv zeta.
  set (p := {| joined_at := _; role := as_role |}).
  set (t1 := record_participant agent_id p t).
  set (w3 := set_svc _ _).
  assert (Hl3 : live w3 !! tid = Some t1).
  { unfold w3, live. simpl. fold (live w). by rewrite lookup_alter_eq, Hlive. }
  set (same := fun y : live_transfer =>
                 participants_of y = participants_of t1
                 /\ source_agent_id y = source_agent_id t
                 /\ target_agent_id y = target_agent_id t).
  assert (Hsame1 : same t1) by done.
  assert (Hbrief : forall y, same y ->
            same (set_status in_progress (set_phase briefing y))) by done.
  match goal with |- context [snd (?m w3)] => set (rest_of_join := m) end.
  destruct (bool_decide (is_Some (participants_of t1 !! source_agent_id t1))
            && bool_decide (is_Some (participants_of t1 !! target_agent_id t1))
            && bool_decide (phase t1 = waiting_for_agents)) eqn:Hcond.
  - (* the briefing block runs: its first step moves the phase *)
    unfold rest_of_join. unfold start_briefing.
    rewrite !bind_assoc.
    erewrite bind_Ok_eq; [|reflexivity].
    set (w4 := set_svc _ w3).
    match goal with |- context [snd (?m w4)] => set (remaining := m) end.
    assert (K4 : keeps (on_svc (persists tid
                  (fun y => same y /\ phase y = briefing))) remaining).
    { unfold remaining.
      repeat first [ keeps_step | simple apply persists_share ]. }
    destruct (K4 w4 (set_status in_progress (set_phase briefing t1)))
      as (t' & Ht' & (Hp' & Hs' & Ht'') & Hph').
    { unfold w4. cbn [svc set_svc active_transfers set_active].
      rewrite lookup_alter_eq. unfold live in Hl3. by rewrite Hl3. }
    { done. }
    exists t', (joined_at p). split; [exact Ht'|].
    split; [by rewrite Hp'|]. done.
  - assert (K : keeps (on_svc (persists tid
                 (fun y => same y /\ (phase t1 = briefing -> phase y = briefing))))
                rest_of_join).
    { unfold rest_of_join, start_briefing.
      repeat first [ keeps_step | simple apply persists_share
                   | simple apply persists_mutate; intros y [? ?]; by split ]. }
    destruct (K w3 t1 Hl3) as (t' & Ht' & (Hp' & Hs' & Ht'') & Hph'); [done|].
    exists t', (joined_at p). split; [exact Ht'|].
    split; [by rewrite Hp'|]. split; [done|]. split; [done|].
    intros Hs Ht. apply Hph'. rewrite Hp' in Hs, Ht.
    change (source_agent_id t) with (source_agent_id t1) in Hs.
    change (target_agent_id t) with (target_agent_id t1) in Ht.
    rewrite !bool_decide_eq_true_2 in Hcond by done. simpl in Hcond.
    apply bool_decide_eq_false in Hcond.
    destruct (phase t1) eqn:Hph; [by destruct Hcond | reflexivity].
Qed.

(** * The properties of the specification *)

(** C1 (as amended).  [initiate_warm_transfer] has no check of the call
    identifier against the live working set, so no Conflict is ever raised:
    its result is the same whatever the working set holds, and when it
    succeeds the new transfer is stored next to the transfers that were
    live, those of the same call included. *)
Theorem initiate_ignores_live_transfers ai c src tgt reason priority w :
  (forall s, fst (initiate_warm_transfer ai c src tgt reason priority
                    (set_svc (fun _ => s) w))
             = fst (initiate_warm_transfer ai c src tgt reason priority w))
  /\ (forall resp w',
        initiate_warm_transfer ai c src tgt reason priority w = (Ok resp, w') ->
        exists new,
          live w' = <[ir_transfer_id resp := new]> (live w) /\
          call_id new = c /\ status new = initiated /\
          phase new = waiting_for_agents /\
          (forall tid old, tid <> ir_transfer_id resp ->
             live w !! tid = Some old -> live w' !! tid = Some old)).
Proof.
  split.
  - intros s. by apply oblivious_initiate.
  - intros resp w' H.
    apply initiate_Ok in H as (new & Hl & Hc & _ & _ & Hs & Hp).
    exists new. repeat split; try done.
    intros tid old Hne Hold. rewrite Hl. by rewrite lookup_insert_ne.
Qed.

Lemma initiate_ignores_live_transfers_witness :
  exists resp w' new,
    initiate_warm_transfer Scenario.summarizer "c1" "op-A" "op-B" None "medium"
      Scenario.initiated = (Ok resp, w') /\
    live w' = <[ir_transfer_id resp := new]> (live Scenario.initiated) /\
    call_id new = "c1".
Proof.
  destruct (initiate_ignores_live_transfers Scenario.summarizer "c1" "op-A" "op-B"
              None "medium" Scenario.initiated) as [_ H].
  eexists _, _.
  edestruct H as (new & Hl & Hc & _); [apply run_eq; vm_compute; reflexivity |].
  exists new. split; [apply run_eq; vm_compute; reflexivity |]. split; assumption.
Defined.

(** C1, as stated, fails: with a live transfer [t0] for call [c1], the same
    request is accepted again and a second live transfer [t2] for [c1]
    exists next to the first. *)
Lemma second_initiate_is_accepted :
  let run := initiate_warm_transfer Scenario.summarizer "c1" "op-A" "op-B" None
               "medium" Scenario.initiated in
  (call_id <$> live Scenario.initiated !! "t0") = Some "c1"
  /\ (ir_transfer_id <$> value (fst run)) = Some "t2"
  /\ (call_id <$> live (snd run) !! "t0") = Some "c1"
  /\ (call_id <$> live (snd run) !! "t2") = Some "c1"
  /\ size (live (snd run)) = 2.
Proof. vm_compute. repeat split. Qed.

(** C2 (as amended).  For every sequence of join, complete, cancel and
    timeout requests, a transfer that is still in the live working set was
    in it from the start, and its phase is the one it had or has moved from
    [waiting_for_agents] to [briefing]: the phase never moves backward, and
    once it is [briefing] no request, a further join included, changes it.
    (Completion and cancellation carry no guard on the phase.) *)
Theorem live_phase_only_moves_forward ai ops w tid t' :
  live (after_all ai ops w) !! tid = Some t' ->
  exists t,
    live w !! tid = Some t /\
    (phase t = phase t' \/ (phase t = waiting_for_agents /\ phase t' = briefing)) /\
    (phase t = briefing -> phase t' = briefing).
Proof.
  intros H. destruct (after_all_advances ai ops w tid t' H) as (t & Ht & Hle).
  exists t. split; [exact Ht|]. split; [exact Hle|].
  intros Hb. destruct Hle as [<- | [Hw _]]; congruence.
Qed.

Lemma live_phase_only_moves_forward_witness :
  exists t t',
    live (after_all Scenario.summarizer
            [Join "t0" "op-A" "agent"; Join "t0" "op-B" "agent";
             Join "t0" "op-B" "agent"; Timeout "t9"]
            Scenario.initiated) !! "t0" = Some t' /\
    live Scenario.initiated !! "t0" = Some t /\
    phase t = waiting_for_agents /\ phase t' = briefing.
Proof.
  edestruct (live_phase_only_moves_forward Scenario.summarizer
               [Join "t0" "op-A" "agent"; Join "t0" "op-B" "agent";
                Join "t0" "op-B" "agent"; Timeout "t9"]
               Scenario.initiated "t0") as (t & Ht & Hle & _).
  { vm_compute. reflexivity. }
  eexists t, _. split; [vm_compute; reflexivity |]. split; [exact Ht |].
  vm_compute in Ht. injection Ht as <-. split; reflexivity.
Defined.

(** C2, as stated, fails: a transfer that is still waiting for its
    operators is completed with [success=false] and goes from
    [awaiting_agents] straight to [failed], which is no transition of
    section 4.1. *)
Lemma completion_accepted_while_awaiting_agents :
  let run := complete_transfer "t0" false None Scenario.initiated in
  ((fun t => observed (status t) (phase t)) <$> live Scenario.initiated !! "t0")
  = Some Spec.awaiting_agents
  /\ ((fun r => observed (cr_status r) waiting_for_agents) <$> value (fst run))
     = Some Spec.failed
  /\ live (snd run) !! "t0" = None
  /\ Spec.edge Spec.awaiting_agents Spec.failed = false.
Proof. vm_compute. repeat split. Qed.

(** C3 (the code departs from it).  When [complete_transfer] is called with
    [success=false] the transfer becomes [failed] and leaves the live
    working set, but nothing is asked of the room gateway: the briefing room
    is still there.  Successful completion and cancellation do ask for its
    deletion. *)
Theorem failed_completion_keeps_briefing_room :
  let run := complete_transfer "t0" false (Some "target declined")
               Scenario.both_in in
  fst run = Ok {| cr_transfer_id := "t0"; cr_status := failed;
                  cr_success := false; cr_duration := None |}
  /\ live (snd run) !! "t0" = None
  /\ filter to_gateway (issued Scenario.both_in (snd run)) = []
  /\ (LiveKit.r_name <$> LiveKit.active_rooms (lk (snd run)) !! "transfer_t0_t1")
     = Some "transfer_t0_t1"
  /\ filter to_gateway
       (issued Scenario.both_in
          (snd (complete_transfer "t0" true None Scenario.both_in)))
     = [LkRemoveParticipant "room-1" "op-A"; LkDeleteRoom "transfer_t0_t1"]
  /\ filter to_gateway
       (issued Scenario.both_in
          (snd (cancel_transfer "t0" None Scenario.both_in)))
     = [LkDeleteRoom "transfer_t0_t1"].
Proof. vm_compute. repeat split. Qed.

(** C4 (as amended).  Once [cancel_transfer] has returned, the transfer is
    no longer in the live working set, and a second call for the same
    identifier is stopped by the guard at the head of the method: it raises
    [ValueError("Transfer ... not found")] and changes nothing. *)
Theorem cancel_again_is_refused tid reason reason' w resp w' :
  cancel_transfer tid reason w = (Ok resp, w') ->
  xr_status resp = cancelled /\
  cancel_transfer tid reason' w'
  = (Raise (ValueError ("Transfer " ++ tid ++ " not found")), w').
Proof.
  intros H. apply cancel_Ok in H as [Hl ->]. split; [done|].
  apply cancel_not_live. rewrite Hl. apply lookup_delete_eq.
Qed.

Lemma cancel_again_is_refused_witness :
  exists resp w',
    cancel_transfer "t0" (Some "caller hung up") Scenario.both_in = (Ok resp, w') /\
    xr_status resp = cancelled /\
    cancel_transfer "t0" (Some "caller hung up") w'
    = (Raise (ValueError "Transfer t0 not found"), w').
Proof.
  eexists _, _. split; [apply run_eq; vm_compute; reflexivity |].
  eapply (cancel_again_is_refused "t0" (Some "caller hung up")
            (Some "caller hung up") Scenario.both_in).
  apply run_eq. vm_compute. reflexivity.
Defined.

(** C4, as stated, fails: the second cancellation of a cancelled transfer
    raises. *)
Lemma second_cancel_raises :
  let first := cancel_transfer "t0" (Some "caller hung up") Scenario.both_in in
  let second := cancel_transfer "t0" (Some "caller hung up") (snd first) in
  fst first = Ok {| xr_transfer_id := "t0"; xr_status := cancelled;
                    xr_reason := Some "caller hung up" |}
  /\ fst second = Raise (ValueError "Transfer t0 not found").
Proof. vm_compute. split; reflexivity. Qed.

(** C5 (the code departs from it).  With the [AIService] of the repository
    as summarizer, [initiate_warm_transfer] never returns: the summary it
    receives is text, which [ai_summary["summary"]] cannot subscript.  In
    particular, when the call to the LLM provider fails, the fallback summary
    is substituted and the initiation then fails with the wrapped
    [TypeError], after the briefing room has been created. *)
Theorem fallback_summary_breaks_initiation :
  (forall providers default_provider c src tgt reason priority w,
     exists e,
       fst (initiate_warm_transfer (AI.AIService providers default_provider)
              c src tgt reason priority w) = Raise e)
  /\ let run := initiate_warm_transfer (AI.AIService ["openai"] "openai")
                  "c1" "op-A" "op-B" None "medium"
                  (Scenario.start_with Scenario.provider_down) in
     fst run = Raise (Exception
       "Transfer initiation failed: string indices must be integers, not 'str'")
     /\ trace (w_env (snd run))
        = [DbSession; ChatCompletion "openai";
           LkCreateRoom "transfer_t0_t1" 3; DbSession]
     /\ size (live (snd run)) = 0
     /\ (LiveKit.r_name <$> LiveKit.active_rooms (lk (snd run)) !! "transfer_t0_t1")
        = Some "transfer_t0_t1".
Proof.
  split.
  - intros. apply initiate_with_AIService_raises.
  - vm_compute. repeat split.
Qed.

(** C6 (as amended).  [join_transfer_room] does not compare the caller with
    the two operators of the transfer.  For a live transfer and any caller,
    whatever the join answers, the transfer stays live and the entry of every
    other identifier in [participants] is left as it was; and when the join
    returns, the caller has been recorded with its role, so that a join with
    an identifier other than the two operators adds a further entry. *)
Theorem join_records_any_operator ai tid agent_id as_role w t :
  live w !! tid = Some t ->
  exists t',
    live (snd (join_transfer_room ai tid agent_id as_role w)) !! tid = Some t' /\
    (forall other, other <> agent_id ->
       participants_of t' !! other = participants_of t !! other) /\
    (forall resp,
       fst (join_transfer_room ai tid agent_id as_role w) = Ok resp ->
       dom (participants_of t') = {[agent_id]} ∪ dom (participants_of t) /\
       (role <$> participants_of t' !! agent_id) = Some as_role).
Proof.
  intros Hlive.
  destruct (join_outcome ai tid agent_id as_role w t Hlive)
    as (t' & at_ & Ht' & Hp & _).
  exists t'. split; [exact Ht'|]. rewrite Hp. split.
  - intros other Hne. by rewrite lookup_insert_ne.
  - intros resp _. split; [apply dom_insert_L|].
    by rewrite lookup_insert_eq.
Qed.

Lemma join_records_any_operator_witness :
  exists t t' resp,
    live Scenario.both_in !! "t0" = Some t /\
    fst (join_transfer_room Scenario.summarizer "t0" "op-C" "agent"
           Scenario.both_in) = Ok resp /\
    live (snd (join_transfer_room Scenario.summarizer "t0" "op-C" "agent"
                 Scenario.both_in)) !! "t0" = Some t' /\
    participants_of t' !! "op-A" = participants_of t !! "op-A" /\
    dom (participants_of t') = {["op-C"]} ∪ dom (participants_of t) /\
    (role <$> participants_of t' !! "op-C") = Some "agent".
Proof.
  eexists.
  edestruct (join_records_any_operator Scenario.summarizer "t0" "op-C" "agent"
               Scenario.both_in) as (t' & Ht' & Hother & Hreturned).
  - vm_compute. reflexivity.
  - exists t'. eexists. split; [vm_compute; reflexivity|].
    split; [vm_compute; reflexivity|]. split; [exact Ht'|].
    split; [by apply Hother|].
    eapply Hreturned. vm_compute. reflexivity.
Defined.

(** C6, as stated, fails: after the source and the target operator, a third
    identifier [op-C] joins and is a third entry of [participants]. *)
Lemma third_operator_is_recorded :
  let run := join_transfer_room Scenario.summarizer "t0" "op-C" "agent"
               Scenario.both_in in
  ((fun t => (source_agent_id t, target_agent_id t, size (participants_of t)))
     <$> live Scenario.both_in !! "t0") = Some ("op-A", "op-B", 2)
  /\ (jr_room_name <$> value (fst run)) = Some "transfer_t0_t1"
  /\ ((fun t => (size (participants_of t),
                 role <$> participants_of t !! "op-C"))
        <$> live (snd run) !! "t0") = Some (3, Some "agent").
Proof. vm_compute. repeat split. Qed.

(** C7 (the code departs from it).  After both operators have joined,
    [complete_transfer] with [success=true] asks the gateway to remove the
    source operator from the original room and to delete the briefing room,
    and records a session of the target operator in the original room; but
    the token made for the target operator is dropped inside
    [complete_warm_transfer]: neither the response nor any message sent to
    the clients carries a credential. *)
Theorem completion_hands_no_credential :
  let run := complete_transfer "t0" true None Scenario.both_in in
  fst run = Ok {| cr_transfer_id := "t0"; cr_status := completed;
                  cr_success := true; cr_duration := Some 12 |}
  /\ filter to_gateway (issued Scenario.both_in (snd run))
     = [LkRemoveParticipant "room-1" "op-A"; LkDeleteRoom "transfer_t0_t1"]
  /\ filter to_clients (issued Scenario.both_in (snd run))
     = (fun client =>
          WsSendText client
            (PyDict [("type", PyStr "transfer_status_update");
                     ("transfer_id", PyStr "t0");
                     ("status", PyStr "completed");
                     ("details", PyDict [("success", PyBool true);
                                         ("feedback", PyNone);
                                         ("duration", PyReal 12 1)]);
                     ("timestamp", PyStr "116")]))
       <$> ["op-A"; "op-B"]
  /\ (LiveKit.s_room_name <$> LiveKit.participant_sessions (lk (snd run)) !! "op-B")
     = Some "room-1"
  /\ LiveKit.participant_sessions (lk (snd run)) !! "op-A" = None
  /\ LiveKit.active_rooms (lk (snd run)) !! "transfer_t0_t1" = None
  /\ LiveKit.active_rooms (lk (snd run)) !! "room-1" = None.
Proof. vm_compute. repeat split. Qed.

(** C8.  A request whose target operator is not available, not online, or
    whose current load is not below the maximum (equal to it, in particular)
    fails; no room is asked of the gateway and the live working set gets no
    new transfer.  When the call and the source operator are known and the
    database answers, the failure is the Unavailable one. *)
Theorem unavailable_target_is_refused ai call_id source_agent_id target_agent_id
    reason priority w ta :
  Database.agents (db w) !! target_agent_id = Some ta ->
  (Database.is_available ta = false
   \/ Database.a_status ta <> "online"
   \/ (Database.max_concurrent_calls ta <= Database.current_calls ta)%Z) ->
  let run := initiate_warm_transfer ai call_id source_agent_id target_agent_id
               reason priority w in
  (exists e, fst run = Raise e /\
     (is_Some (Database.calls (db w) !! call_id) ->
      is_Some (Database.agents (db w) !! source_agent_id) ->
      (exists p, oracle (w_env w) (length (trace (w_env w))) DbSession = Replied p) ->
      Unavailable target_agent_id e))
  /\ lk (snd run) = lk w
  /\ live (snd run) ⊆ live w
  /\ trace (w_env (snd run)) = (trace (w_env w) ++ [DbSession])%list.
Proof.
  intros Hta Hbad run. subst run. unfold initiate_warm_transfer.
  set (w1 := set_env (set_uuid_ctr S (w_env w)) w).
  rewrite (bind_Ok_eq _ _ w (uuids (w_env w) (uuid_ctr (w_env w))) w1) by reflexivity.
  destruct (validation_refuses call_id source_agent_id target_agent_id w1 ta Hta Hbad)
    as (e & Hrun & Hexc & Hkind).
  erewrite try_except_Raise_eq; [| by apply bind_Raise_eq | done].
  unfold bind, modify, raise. simpl. repeat split.
  - eexists. split; [reflexivity|]. intros Hc Hs Ho.
    destruct (Hkind Hc Hs Ho) as [-> | ->]; [by left | by right].
  - apply delete_subseteq.
Qed.

Lemma unavailable_target_is_refused_witness :
  let run := initiate_warm_transfer Scenario.summarizer "c1" "op-A" "op-D" None
               "medium" Scenario.start in
  (exists e, fst run = Raise e /\ Unavailable "op-D" e)
  /\ lk (snd run) = lk Scenario.start
  /\ live (snd run) ⊆ live Scenario.start
  /\ trace (w_env (snd run)) = [DbSession].
Proof.
  destruct (unavailable_target_is_refused Scenario.summarizer "c1" "op-A" "op-D"
              None "medium" Scenario.start (Scenario.operator 4 "op-D" 3))
    as ((e & He & Hu) & Hlk & Hlive & Htrace).
  - vm_compute. reflexivity.
  - right. right. simpl. lia.
  - split; [| split; [exact Hlk | split; [exact Hlive | exact Htrace]]].
    exists e. split; [exact He |]. apply Hu.
    + vm_compute. eauto.
    + vm_compute. eauto.
    + exists "ok". reflexivity.
Defined.

(** C9 (the code departs from it).  The source operator has joined, the
    target has not, and the timer of the transfer fires.  The timeout task
    calls [cancel_transfer], which cancels the task stored under the
    transfer, that is the running task itself; [CancelledError] is then
    raised at the request to delete the room and no handler catches it.  The
    transfer stays in the live working set with its status unchanged and the
    briefing room stays where it is, while the same call from a request
    cancels the transfer and deletes the room. *)
Theorem timeout_does_not_cancel :
  let fired := timeout_task "t0" Scenario.source_in in
  let asked := cancel_transfer "t0" (Some "timeout") Scenario.source_in in
  fst fired = Raise CancelledError
  /\ ((fun t => (status t, phase t)) <$> live (snd fired) !! "t0")
     = Some (initiated, waiting_for_agents)
  /\ filter to_gateway (issued Scenario.source_in (snd fired)) = []
  /\ (LiveKit.r_name <$> LiveKit.active_rooms (lk (snd fired)) !! "transfer_t0_t1")
     = Some "transfer_t0_t1"
  /\ size (timers (snd fired)) = 0
  /\ fst asked = Ok {| xr_transfer_id := "t0"; xr_status := cancelled;
                       xr_reason := Some "timeout" |}
  /\ live (snd asked) !! "t0" = None
  /\ filter to_gateway (issued Scenario.source_in (snd asked))
     = [LkDeleteRoom "transfer_t0_t1"]
  /\ LiveKit.active_rooms (lk (snd asked)) !! "transfer_t0_t1" = None.
Proof. vm_compute. repeat split. Qed.

(** C10.  A join that returns carries the summary of the transfer when the
    caller is the target operator of the transfer, and [None] for every
    other caller, the source operator included. *)
Theorem join_shares_summary_with_target_only ai tid agent_id role w resp w' t :
  live w !! tid = Some t ->
  join_transfer_room ai tid agent_id role w = (Ok resp, w') ->
  (agent_id = target_agent_id t -> jr_ai_summary resp = ai_summary t) /\
  (agent_id <> target_agent_id t -> jr_ai_summary resp = PyNone).
Proof.
  intros Hlive H.
  destruct (join_Ok _ _ _ _ _ _ _ _ Hlive H)
    as (t' & at_ & _ & _ & _ & _ & _ & _ & _ & Hsum & _).
  rewrite Hsum. split; intros Heq; by destruct (decide _).
Qed.

Lemma join_shares_summary_with_target_only_witness :
  exists t resp w',
    live Scenario.source_in !! "t0" = Some t /\
    join_transfer_room Scenario.summarizer "t0" "op-B" "agent" Scenario.source_in
    = (Ok resp, w') /\
    jr_ai_summary resp = ai_summary t /\
    ai_summary t
    = PyDict [("summary", PyStr "Customer asks about an invoice.");
              ("sentiment", PyDict [("overall", PyStr "neutral")])].
Proof.
  eexists _, _, _.
  split; [vm_compute; reflexivity |].
  split; [apply run_eq; vm_compute; reflexivity |].
  split; [| reflexivity].
  eapply (join_shares_summary_with_target_only Scenario.summarizer "t0" "op-B"
            "agent" Scenario.source_in).
  - vm_compute. reflexivity.
  - apply run_eq. vm_compute. reflexivity.
  - reflexivity.
Defined.

(** * Further properties of the services *)

(** ** The gateway, step by step *)

Lemma delete_room_run name (s : LiveKit.state) (e : env) :
  must_cancel e = false ->
  LiveKit.delete_room name (s, e)
  = match oracle e (length (trace e)) (LkDeleteRoom name) with
    | Replied _ =>
        (Ok true,
         (LiveKit.set_active_rooms (delete name) (LiveKit.set_lk_api true s),
          set_trace (fun t => (t ++ [LkDeleteRoom name])%list) e))
    | Broke _ =>
        (Ok false,
         (LiveKit.set_lk_api true s,
          set_trace (fun t => (t ++ [LkDeleteRoom name])%list) e))
    end.
Proof.
  intros Hc.
  unfold LiveKit.delete_room, try_except, bind, LiveKit._get_api_client,
    LiveKit.modify_lk, modify, await_io, zoom, Env.await_io, Env.call_out, ret.
  simpl. rewrite Hc.
  destruct (oracle e (length (trace e)) (LkDeleteRoom name)); reflexivity.
Qed.



(** ** Runs that return *)

#[export] Instance same_context_equiv : Equivalence same_context.
Proof.
  split.
  - by intros e.
  - intros a b (? & ? & ?). by repeat split.
  - intros a b c (? & ? & ?) (? & ? & ?). repeat split; congruence.
Qed.

Section Returns.

Context {S : Type}.

Lemma returns_ret {A} (a : A) (s : S) Q : Q a s -> returns (ret a) s Q.
Proof. intros H. by exists a, s. Qed.

Lemma returns_gets {A} (f : S -> A) s Q : Q (f s) s -> returns (gets f) s Q.
Proof. intros H. by exists (f s), s. Qed.

Lemma returns_modify (f : S -> S) s Q : Q tt (f s) -> returns (modify f) s Q.
Proof. intros H. by exists tt, (f s). Qed.

Lemma returns_bind {A B} (m : ST S A) (k : A -> ST S B) s Q :
  returns m s (fun a s1 => returns (k a) s1 Q) -> returns (bind m k) s Q.
Proof.
  intros (a & s1 & Hm & b & s2 & Hk & HQ). exists b, s2. split; [|done].
  by rewrite (bind_Ok_eq _ _ _ _ _ Hm).
Qed.

Lemma returns_try {A} (body : ST S A) handler s Q :
  returns body s Q -> returns (try_except body handler) s Q.
Proof.
  intros (a & s1 & Hm & HQ). exists a, s1. split; [|done].
  unfold try_except. by rewrite Hm.
Qed.

Lemma returns_weaken {A} (m : ST S A) s (P Q : A -> S -> Prop) :
  returns m s P -> (forall a s', P a s' -> Q a s') -> returns m s Q.
Proof. intros (a & s1 & Hm & HP) H. exists a, s1. eauto. Qed.

Lemma returns_run {A} (m : ST S A) s a s' (Q : A -> S -> Prop) :
  m s = (Ok a, s') -> Q a s' -> returns m s Q.
Proof. intros. by exists a, s'. Qed.

End Returns.

Lemma returns_zoom {S T A} (get : T -> S) (put : S -> T -> T) (m : ST S A) t Q :
  returns m (get t) (fun a s' => Q a (put s' t)) -> returns (zoom get put m) t Q.
Proof.
  intros (a & s' & Hm & HQ). exists a, (put s' t). split; [|done].
  unfold zoom. by rewrite Hm.
Qed.

Lemma returns_session {A} (body : ST Database.db_state A) d e Q :
  database_up e ->
  returns body d
    (fun a d' => Q a (d', set_trace (fun t => (t ++ [DbSession])%list) e)) ->
  returns (Database.session body) (d, e) Q.
Proof.
  intros Hup (a & d' & Hb & HQ). destruct (Hup (length (trace e))) as [p Hp].
  exists a, (d', set_trace (fun t => (t ++ [DbSession])%list) e). split; [|done].
  cbv [Database.session bind call_out zoom Env.call_out]. simpl.
  rewrite Hp. simpl. by rewrite Hb.
Qed.

(** ** The gateway never fails on a refusal *)

Lemma same_context_trace f e : same_context e (set_trace f e).
Proof. by repeat split. Qed.

Lemma same_context_now f e : same_context e (set_now f e).
Proof. by repeat split. Qed.

Lemma delete_room_returns name (s : LiveKit.state) (e : env) :
  must_cancel e = false ->
  returns (LiveKit.delete_room name) (s, e)
    (fun ok se =>
       same_context e se.2 /\
       trace se.2 = (trace e ++ [LkDeleteRoom name])%list /\
       LiveKit.active_transfers se.1 = LiveKit.active_transfers s /\
       LiveKit.active_rooms se.1
       = (if ok then delete name (LiveKit.active_rooms s)
          else LiveKit.active_rooms s) /\
       (ok = true <->
        exists p, oracle e (length (trace e)) (LkDeleteRoom name) = Replied p)).
Proof.
  intros Hc. unfold returns. rewrite (delete_room_run _ _ _ Hc).
  destruct (oracle e (length (trace e)) (LkDeleteRoom name)) as [p|m];
    eexists _, _; (split; [reflexivity|]); simpl;
    (repeat split; try done); eauto.
  all: try by intros [? ?].
  all: try apply same_context_trace.
Qed.



(** ** The notification bus *)

Lemma send_personal_message_run msg c (s : Connections.state) (e : env) :
  must_cancel e = false ->
  Connections.send_personal_message msg c (s, e)
  = if decide (c ∈ Connections.active_connections s) then
      match oracle e (length (trace e)) (WsSendText c msg) with
      | Replied _ =>
          (Ok tt, (s, set_trace (fun t => (t ++ [WsSendText c msg])%list) e))
      | Broke _ =>
          (Ok tt, (Connections.disconnect c s,
                   set_trace (fun t => (t ++ [WsSendText c msg])%list) e))
      end
    else (Ok tt, (s, e)).
Proof.
  intros Hc.
  cbv [Connections.send_personal_message try_except bind Connections.gets_cm gets
       Connections.modify_cm modify await_io zoom Env.await_io Env.call_out ret].
  simpl. destruct (decide (c ∈ Connections.active_connections s)); [|reflexivity].
  simpl. rewrite Hc.
  destruct (oracle e (length (trace e)) (WsSendText c msg)); reflexivity.
Qed.

Lemma broadcast_loop_returns msg excl clients (s : Connections.state) (e : env) :
  must_cancel e = false ->
  returns (Connections.broadcast_loop clients msg excl) (s, e)
    (fun broke se =>
       se.1 = s /\ same_context e se.2 /\
       trace se.2
       = (trace e ++ map (fun c => WsSendText c msg)
                       (filter (fun c => c ∉ excl) clients))%list /\
       (forall c, c ∈ broke ->
          c ∈ clients /\ (c ∉ excl) /\
          exists n m, oracle e n (WsSendText c msg) = Broke m)).
Proof.
  revert e. induction clients as [|c rest IH]; intros e Hc; simpl.
  - apply returns_ret. simpl. split; [done|]. split; [done|]. split.
    + by rewrite app_nil_r.
    + intros c Hin. by apply elem_of_nil in Hin.
  - apply returns_bind.
    destruct (decide (c ∈ excl)) as [Hex|Hex].
    + apply returns_ret, returns_bind.
      eapply returns_weaken; [by apply IH|].
      intros broke [s1 e1] (Hs & Hctx & Htr & Hbroke). simpl in *. subst s1.
      apply returns_ret. simpl. split; [done|]. split; [done|]. split.
      * rewrite Htr. by rewrite filter_cons_False by (intros H; by apply H).
      * intros d Hd. destruct (Hbroke d Hd) as (H1 & H2 & H3).
        split; [by apply list_elem_of_further|]. split; [done|exact H3].
    + set (e1 := set_trace (fun t => (t ++ [WsSendText c msg])%list) e).
      assert (Hstep : exists b,
                try_except (_ <- await_io (WsSendText c msg) ;; ret false)
                  (fun _ => ret true) (s, e) = (Ok b, (s, e1)) /\
                (b = true -> exists m,
                   oracle e (length (trace e)) (WsSendText c msg) = Broke m)).
      { cbv [try_except bind await_io zoom Env.await_io Env.call_out ret].
        simpl. rewrite Hc.
        destruct (oracle e (length (trace e)) (WsSendText c msg)) as [p|m];
          simpl; eexists; (split; [reflexivity|]); [done|eauto]. }
      destruct Hstep as (b & Hrun & Hb).
      eapply returns_run; [exact Hrun|].
      apply returns_bind.
      eapply returns_weaken; [by apply IH|].
      intros broke [s1 e2] (Hs & Hctx & Htr & Hbroke). simpl in *. subst s1.
      apply returns_ret. simpl. split; [done|]. split; [|split].
      * etrans; [|exact Hctx]. apply same_context_trace.
      * rewrite Htr. rewrite filter_cons_True by done. simpl.
        by rewrite <- app_assoc.
      * intros d Hd.
        assert (Hd' : d = c /\ b = true \/ d ∈ broke).
        { destruct b; [|by right].
          apply elem_of_cons in Hd as [->|Hd]; [by left | by right]. }
        destruct Hd' as [[-> Hbt] | Hd'].
        -- split; [apply list_elem_of_here|]. split; [done|].
           destruct (Hb Hbt) as [m Hm]. eauto.
        -- destruct (Hbroke d Hd') as (H1 & H2 & H3).
           split; [by apply list_elem_of_further|]. split; [done|exact H3].
Qed.

Lemma for_each_disconnect_run broke (s : Connections.state) (e : env) :
  for_each broke (fun c => Connections.modify_cm (Connections.disconnect c)) (s, e)
  = (Ok tt, (foldl (fun s c => Connections.disconnect c s) s broke, e)).
Proof.
  revert s. induction broke as [|c broke IH]; intros s; simpl; [done|].
  cbv [bind Connections.modify_cm modify]. simpl. apply IH.
Qed.


Lemma broadcast_returns msg excl (s : Connections.state) (e : env) :
  must_cancel e = false ->
  returns (Connections.broadcast msg excl) (s, e)
    (fun _ se =>
       same_context e (snd se) /\
       trace (snd se)
       = (trace e ++ map (fun c => WsSendText c msg)
                       (filter (fun c => c ∉ excl)
                          (Connections.active_connections s)))%list /\
       exists broke,
         fst se = foldl (fun s c => Connections.disconnect c s) s broke /\
         forall c, c ∈ broke ->
           c ∈ Connections.active_connections s /\ (c ∉ excl) /\
           exists n m, oracle e n (WsSendText c msg) = Broke m).
Proof.
  intros Hc. unfold Connections.broadcast.
  apply returns_bind, returns_gets. simpl.
  apply returns_bind.
  eapply returns_weaken; [by apply broadcast_loop_returns|].
  intros broke [s1 e1] (Hs & Hctx & Htr & Hbroke). simpl in *. subst s1.
  eapply returns_run; [apply for_each_disconnect_run|]. simpl.
  split; [done|]. split; [done|]. by exists broke.
Qed.

Lemma notify_transfer_status_returns tid st details (s : Connections.state) (e : env) :
  must_cancel e = false ->
  returns (Connections.notify_transfer_status tid st details) (s, e)
    (fun _ se => same_context e (snd se)).
Proof.
  intros Hc. unfold Connections.notify_transfer_status.
  apply returns_bind. eexists _, _. split; [reflexivity|].
  eapply returns_weaken; [by apply broadcast_returns|].
  intros _ [s1 e1] (Hctx & _). simpl in *.
  etrans; [|exact Hctx]. apply same_context_now.
Qed.

Lemma database_up_context e e' : same_context e e' -> database_up e -> database_up e'.
Proof. intros (Ho & _) Hup n. rewrite Ho. apply Hup. Qed.

(** ** Cancellation and completion return while the database answers *)

Lemma cancel_timeout_returns tid w :
  task (w_env w) = None ->
  returns (cancel_timeout tid) w
    (fun _ w' => rest w' = rest w /\ live w' = live w
                 /\ timers w' = timers w ∖ {[tid]}).
Proof.
  intros Ht. unfold cancel_timeout.
  apply returns_bind, returns_gets.
  destruct (decide (tid ∈ timers w)) as [Hin|Hout].
  - apply returns_bind.
    assert (Hrun : task_cancel tid w = (Ok tt, w)).
    { cbv [task_cancel zoom Env.task_cancel]. simpl. rewrite Ht.
      destruct (decide (None = Some tid)); [discriminate|]. by destruct w. }
    eapply returns_run; [exact Hrun|].
    apply returns_modify. done.
  - apply returns_ret. split; [done|]. split; [done|].
    apply set_eq. intros x. rewrite elem_of_difference, elem_of_singleton.
    split; [intros Hx; split; [done | by intros ->] | by intros [? _]].
Qed.

Lemma cleanup_returns tid w :
  task (w_env w) = None ->
  returns (_cleanup_transfer tid) w
    (fun _ w' => rest w' = rest w /\ live w' = delete tid (live w)
                 /\ timers w' = timers w ∖ {[tid]}).
Proof.
  intros Ht. unfold _cleanup_transfer.
  apply returns_bind, returns_modify.
  eapply returns_weaken; [by apply cancel_timeout_returns|].
  intros _ w' (Hr & Hl & Htm). done.
Qed.

Lemma rest_eq w w' :
  rest w' = rest w ->
  lk w' = lk w /\ cm w' = cm w /\ db w' = db w /\ w_env w' = w_env w.
Proof. unfold rest. intros H. by simplify_eq. Qed.

Lemma cancel_transfer_returns tid reason w t :
  live w !! tid = Some t ->
  task (w_env w) = None -> must_cancel (w_env w) = false ->
  database_up (w_env w) ->
  returns (cancel_transfer tid reason) w
    (fun resp w' =>
       resp = {| xr_transfer_id := tid; xr_status := cancelled;
                 xr_reason := reason |} /\
       same_context (w_env w) (w_env w') /\
       live w' = delete tid (live w) /\
       timers w' = timers w ∖ {[tid]} /\
       Database.transfers (db w')
       = alter (db_mark_cancelled reason) tid (Database.transfers (db w)) /\
       Database.agents (db w') = Database.agents (db w) /\
       LiveKit.active_transfers (lk w') = LiveKit.active_transfers (lk w) /\
       exists ok,
         LiveKit.active_rooms (lk w')
         = (if ok : bool then delete (transfer_room t) (LiveKit.active_rooms (lk w))
            else LiveKit.active_rooms (lk w)) /\
         (ok = true <->
          exists p, oracle (w_env w) (length (trace (w_env w)))
                      (LkDeleteRoom (transfer_room t)) = Replied p)).
Proof.
  intros Hlive Ht Hc Hup. unfold cancel_transfer.
  apply returns_bind, returns_gets. rewrite Hlive.
  apply returns_try, returns_bind.
  eapply returns_weaken; [by apply cancel_timeout_returns|].
  intros _ w1 (Hr1 & Hl1 & Htm1).
  apply rest_eq in Hr1 as (Hlk1 & Hcm1 & Hdb1 & He1).
  apply returns_bind. unfold in_lk. apply returns_zoom. simpl.
  eapply returns_weaken; [apply delete_room_returns; by rewrite He1|].
  intros ok [s2 e2] (Hctx2 & _ & Htr2 & Hrooms2 & Hok). simpl in *.
  apply returns_bind. eexists _, _. split; [reflexivity|]. simpl.
  unfold mutate. apply returns_bind, returns_modify.
  apply returns_bind. unfold in_db. apply returns_zoom. simpl.
  assert (Hctx3 : same_context (w_env w) (set_now S e2)).
  { rewrite <- He1. etrans; [exact Hctx2|]. apply same_context_now. }
  apply returns_session; [by apply (database_up_context (w_env w))|].
  apply returns_modify. simpl.
  apply returns_bind. unfold in_cm. apply returns_zoom. simpl.
  eapply returns_weaken;
    [apply notify_transfer_status_returns; simpl;
     destruct Hctx2 as (_ & _ & ->); by rewrite He1|].
  intros _ [s4 e4] Hctx4. simpl in *.
  apply returns_bind.
  eapply returns_weaken.
  { apply cleanup_returns. simpl. destruct Hctx4 as (_ & -> & _). simpl.
    destruct Hctx2 as (_ & -> & _). by rewrite He1. }
  intros _ w5 (Hr5 & Hl5 & Htm5).
  apply rest_eq in Hr5 as (Hlk5 & Hcm5 & Hdb5 & He5). simpl in *.
  apply returns_ret. split; [done|]. split.
  { rewrite He5. etrans; [exact Hctx3|]. etrans; [|exact Hctx4].
    by repeat split. }
  split. { rewrite Hl5. unfold live. simpl. fold (live w1). rewrite Hl1.
           by rewrite delete_alter_eq. }
  split. { rewrite Htm5. unfold timers. simpl. fold (timers w1). rewrite Htm1.
           apply set_eq. intros x. rewrite !elem_of_difference. tauto. }
  split. { rewrite Hdb5. simpl. by rewrite Hdb1. }
  split. { rewrite Hdb5. simpl. by rewrite Hdb1. }
  split. { rewrite Hlk5. simpl. by rewrite Htr2, Hlk1. }
  exists ok. rewrite Hlk5. simpl. rewrite Hrooms2, Hlk1, He1 in *. done.
Qed.


Lemma create_room_run name max meta (s : LiveKit.state) (e : env) :
  name <> EmptyString ->
  must_cancel e = false ->
  LiveKit.create_room (Some name) max meta (s, e)
  = match oracle e (length (trace e)) (LkCreateRoom name max) with
    | Replied sid =>
        (Ok {| LiveKit.ri_room_name := name; LiveKit.ri_room_id := sid;
               LiveKit.ri_ws_url := LiveKit.ws_url s;
               LiveKit.ri_max_participants := max |},
         (LiveKit.set_active_rooms
            (<[name := {| LiveKit.r_name := name; LiveKit.r_created_at := now e;
                          LiveKit.r_max_participants := max;
                          LiveKit.r_metadata := LiveKit.meta_or_empty meta;
                          LiveKit.r_participants := ∅;
                          LiveKit.r_status := "active" |}]>)
            (LiveKit.set_lk_api true s),
          set_now S (set_trace (fun t => (t ++ [LkCreateRoom name max])%list) e)))
    | Broke m =>
        (Raise (Exception ("Failed to create room: " ++ m)),
         (LiveKit.set_lk_api true s,
          set_trace (fun t => (t ++ [LkCreateRoom name max])%list) e))
    end.
Proof.
  intros Hne Hc. apply String.eqb_neq in Hne.
  cbv [LiveKit.create_room or_else try_except bind LiveKit._get_api_client
       LiveKit.gets_lk gets raise LiveKit.modify_lk modify await_io utcnow zoom
       Env.await_io Env.call_out Env.utcnow ret].
  rewrite !Hne. simpl. rewrite Hc.
  destruct (oracle e (length (trace e)) (LkCreateRoom name max)); reflexivity.
Qed.

(** ** Properties of the room gateway *)

(** X1.  [delete_room] never raises an [Exception]: unless the running task
    is being cancelled, it sends one delete request and returns [True] exactly
    when the server answered; the room then leaves [active_rooms].  When the
    server refused it returns [False] and the room stays tracked.  The
    gateway's transfer records are not touched either way. *)
Theorem delete_room_reports_refusal name (s : LiveKit.state) (e : env) :
  must_cancel e = false ->
  exists ok s' e',
    LiveKit.delete_room name (s, e) = (Ok ok, (s', e')) /\
    trace e' = (trace e ++ [LkDeleteRoom name])%list /\
    (ok = true <->
     exists p, oracle e (length (trace e)) (LkDeleteRoom name) = Replied p) /\
    LiveKit.active_rooms s'
    = (if ok then delete name (LiveKit.active_rooms s)
       else LiveKit.active_rooms s) /\
    LiveKit.active_transfers s' = LiveKit.active_transfers s.
Proof.
  intros Hc.
  destruct (delete_room_returns name s e Hc)
    as (ok & [s' e'] & Hrun & _ & Htr & Hts & Hrooms & Hok).
  exists ok, s', e'. simpl in *.
  split; [exact Hrun|]. split; [exact Htr|]. split; [exact Hok|].
  split; [exact Hrooms | exact Hts].
Qed.

Lemma delete_room_reports_refusal_witness :
  exists ok s' e',
    LiveKit.delete_room "transfer_t0_t1"
      (lk Scenario.initiated,
       w_env (Scenario.with_answers (fun _ _ => Broke "unreachable")
                Scenario.initiated))
    = (Ok ok, (s', e')) /\ ok = false /\
    LiveKit.active_rooms s' = LiveKit.active_rooms (lk Scenario.initiated).
Proof.
  destruct (delete_room_reports_refusal "transfer_t0_t1" (lk Scenario.initiated)
              (w_env (Scenario.with_answers (fun _ _ => Broke "unreachable")
                        Scenario.initiated)))
    as (ok & s' & e' & Hrun & _ & Hok & Hrooms & _).
  - reflexivity.
  - exists ok, s', e'. split; [exact Hrun|].
    destruct ok.
    + exfalso. destruct Hok as [Hok _]. destruct (Hok eq_refl) as [p Hp].
      discriminate.
    + split; [reflexivity | exact Hrooms].
Defined.

(** X2.  For a name that the gateway does not track yet, [create_room]
    followed by [delete_room] of that name, both answered by the server,
    sends the two requests and leaves [active_rooms] as it was before; in
    between the room is tracked under its name. *)
Theorem create_then_delete_room_restores_tracking name max meta
    (s : LiveKit.state) (e : env) p q :
  name <> EmptyString ->
  must_cancel e = false ->
  LiveKit.active_rooms s !! name = None ->
  oracle e (length (trace e)) (LkCreateRoom name max) = Replied p ->
  oracle e (S (length (trace e))) (LkDeleteRoom name) = Replied q ->
  exists info s1 e1 s2 e2,
    LiveKit.create_room (Some name) max meta (s, e) = (Ok info, (s1, e1)) /\
    LiveKit.ri_room_name info = name /\
    is_Some (LiveKit.active_rooms s1 !! name) /\
    LiveKit.delete_room name (s1, e1) = (Ok true, (s2, e2)) /\
    LiveKit.active_rooms s2 = LiveKit.active_rooms s /\
    trace e2 = (trace e ++ [LkCreateRoom name max; LkDeleteRoom name])%list.
Proof.
  intros Hne Hc Hfresh Hp Hq.
  eexists _, _, _, _, _.
  split. { rewrite (create_room_run _ _ _ _ _ Hne Hc), Hp. reflexivity. }
  split; [done|]. split. { simpl. rewrite lookup_insert_eq. eauto. }
  split. { rewrite delete_room_run by done. simpl.
           rewrite length_app. simpl. rewrite Nat.add_1_r, Hq. reflexivity. }
  split. { simpl. rewrite delete_insert_eq. by apply delete_id. }
  simpl. by rewrite <- app_assoc.
Qed.

Lemma create_then_delete_room_restores_tracking_witness :
  exists info s1 e1 s2 e2,
    LiveKit.create_room (Some "lobby") 10 None
      (lk Scenario.start, w_env Scenario.start) = (Ok info, (s1, e1)) /\
    LiveKit.ri_room_name info = "lobby" /\
    is_Some (LiveKit.active_rooms s1 !! "lobby") /\
    LiveKit.delete_room "lobby" (s1, e1) = (Ok true, (s2, e2)) /\
    LiveKit.active_rooms s2 = LiveKit.active_rooms (lk Scenario.start) /\
    trace e2 = ([] ++ [LkCreateRoom "lobby" 10; LkDeleteRoom "lobby"])%list.
Proof.
  apply (create_then_delete_room_restores_tracking "lobby" 10 None
           (lk Scenario.start) (w_env Scenario.start) "ok" "ok").
  - discriminate.
  - reflexivity.
  - reflexivity.
  - reflexivity.
  - reflexivity.
Defined.

(** X3.  When the server refuses the room of [create_transfer_room], the
    exception is wrapped twice ("Failed to create transfer room: Failed to
    create room: ...") and neither a room nor a transfer record is added. *)
Theorem refused_transfer_room_leaves_no_record original agent_a agent_b caller tid
    (s : LiveKit.state) (e : env) m :
  must_cancel e = false ->
  oracle e (length (trace e))
    (LkCreateRoom ("transfer_" ++ tid ++ "_"
                   ++ String.substring 0 6 (uuids e (uuid_ctr e))) 3)
  = Broke m ->
  exists s' e',
    LiveKit.create_transfer_room original agent_a agent_b caller tid (s, e)
    = (Raise (Exception ("Failed to create transfer room: Failed to create room: "
                         ++ m)), (s', e')) /\
    LiveKit.active_rooms s' = LiveKit.active_rooms s /\
    LiveKit.active_transfers s' = LiveKit.active_transfers s.
Proof.
  intros Hc Hm. unfold LiveKit.create_transfer_room.
  set (h := String.substring 0 6 (uuids e (uuid_ctr e))) in *.
  assert (Hh : uuid4_hex 6 (s, e) = (Ok h, (s, set_uuid_ctr S e))) by reflexivity.
  rewrite (bind_Ok_eq _ _ _ _ _ Hh).
  eexists _, _. split.
  - erewrite try_except_Raise_eq; cycle 1.
    + erewrite bind_Raise_eq; [reflexivity|].
      rewrite create_room_run by done. simpl. rewrite Hm. reflexivity.
    + reflexivity.
    + reflexivity.
  - split; reflexivity.
Qed.

Lemma refused_transfer_room_leaves_no_record_witness :
  exists s' e',
    LiveKit.create_transfer_room "room-1" "op-A" "op-B" (PyStr "caller") "t7"
      (lk Scenario.start,
       w_env (Scenario.with_answers (fun _ _ => Broke "unreachable") Scenario.start))
    = (Raise (Exception ("Failed to create transfer room: Failed to create room: "
                         ++ "unreachable")), (s', e')) /\
    LiveKit.active_rooms s' = LiveKit.active_rooms (lk Scenario.start) /\
    LiveKit.active_transfers s' = LiveKit.active_transfers (lk Scenario.start).
Proof.
  apply (refused_transfer_room_leaves_no_record "room-1" "op-A" "op-B"
           (PyStr "caller") "t7" (lk Scenario.start)
           (w_env (Scenario.with_answers (fun _ _ => Broke "unreachable")
                     Scenario.start)) "unreachable").
  - reflexivity.
  - reflexivity.
Defined.



(** X6.  Before the API client has been built ([lk_api] is still [None]),
    [remove_participant_from_room] returns [False] and [send_data_to_room]
    raises, both without sending anything and without changing the state. *)
Theorem gateway_without_client room identity data ids (s : LiveKit.state) (e : env) :
  LiveKit.lk_api s = false ->
  LiveKit.remove_participant_from_room room identity (s, e) = (Ok false, (s, e)) /\
  LiveKit.send_data_to_room room data ids (s, e)
  = (Raise (Exception
       "Failed to send data: 'NoneType' object has no attribute 'room'"), (s, e)).
Proof.
  intros Hapi. split.
  - cbv [LiveKit.remove_participant_from_room try_except bind
         LiveKit.lk_api_room LiveKit.gets_lk gets raise ret].
    simpl. by rewrite Hapi.
  - destruct ids as [[|i ids]|];
      cbv [LiveKit.send_data_to_room try_except bind for_each
           LiveKit.lk_api_room LiveKit.gets_lk gets raise ret];
      simpl; by rewrite Hapi.
Qed.

Lemma gateway_without_client_witness :
  LiveKit.remove_participant_from_room "room-1" "op-A"
    (lk Scenario.start, w_env Scenario.start)
  = (Ok false, (lk Scenario.start, w_env Scenario.start)) /\
  LiveKit.send_data_to_room "room-1" PyNone None
    (lk Scenario.start, w_env Scenario.start)
  = (Raise (Exception
       "Failed to send data: 'NoneType' object has no attribute 'room'"),
     (lk Scenario.start, w_env Scenario.start)).
Proof.
  apply (gateway_without_client "room-1" "op-A" PyNone None (lk Scenario.start)
           (w_env Scenario.start)).
  reflexivity.
Defined.

(** ** Properties of the notification bus *)






(** X9.  [send_personal_message] never raises an [Exception]: to an
    unknown client it does nothing; to a known one it sends one message and,
    when the send breaks, disconnects that client. *)
Theorem send_personal_message_never_raises msg c (s : Connections.state) (e : env) :
  must_cancel e = false ->
  exists s' e',
    Connections.send_personal_message msg c (s, e) = (Ok tt, (s', e')) /\
    (c ∉ Connections.active_connections s -> s' = s /\ e' = e) /\
    (c ∈ Connections.active_connections s ->
     trace e' = (trace e ++ [WsSendText c msg])%list /\
     (forall p, oracle e (length (trace e)) (WsSendText c msg) = Replied p ->
                s' = s) /\
     (forall m, oracle e (length (trace e)) (WsSendText c msg) = Broke m ->
                s' = Connections.disconnect c s)).
Proof.
  intros Hc. rewrite (send_personal_message_run _ _ _ _ Hc).
  destruct (decide (c ∈ Connections.active_connections s)) as [Hin|Hout].
  - destruct (oracle e (length (trace e)) (WsSendText c msg)) as [p|m];
      eexists _, _; (split; [reflexivity|]); (split; [done|]); intros _;
      (split; [reflexivity|]); split; intros ? ?; congruence.
  - eexists _, _. split; [reflexivity|]. split; [done|]. done.
Qed.

Lemma send_personal_message_never_raises_witness :
  exists s' e',
    Connections.send_personal_message (PyStr "hello") "op-A"
      (cm Scenario.start,
       w_env (Scenario.with_answers (fun _ _ => Broke "closed") Scenario.start))
    = (Ok tt, (s', e')) /\
    s' = Connections.disconnect "op-A" (cm Scenario.start).
Proof.
  destruct (send_personal_message_never_raises (PyStr "hello") "op-A"
              (cm Scenario.start)
              (w_env (Scenario.with_answers (fun _ _ => Broke "closed")
                        Scenario.start)))
    as (s' & e' & Hrun & _ & Hin).
  - reflexivity.
  - exists s', e'. split; [exact Hrun|].
    destruct Hin as (_ & _ & Hbroke).
    + apply list_elem_of_here.
    + apply (Hbroke "closed"). reflexivity.
Defined.

(** ** The summarizer of the repository *)

(** X10.  [generate_call_summary] (the definition in force) always returns
    a text: the answer of the provider when there is one, and the fallback
    text when no OpenAI client is configured (no request is sent then) or when
    the request breaks. *)
Theorem summary_is_always_produced providers data context (e : env) :
  must_cancel e = false ->
  exists text e',
    AI.generate_call_summary providers data context e = (Ok (PyStr text), e') /\
    (("openai" ∉ providers) -> text = AI._get_enhanced_fallback_summary context
                                /\ e' = e) /\
    (forall m, oracle e (length (trace e)) (ChatCompletion "openai") = Broke m ->
               text = AI._get_enhanced_fallback_summary context) /\
    (forall p, "openai" ∈ providers ->
               oracle e (length (trace e)) (ChatCompletion "openai") = Replied p ->
               text = p).
Proof.
  intros Hc.
  cbv [AI.generate_call_summary AI._generate_openai try_except bind await_io
       zoom Env.await_io Env.call_out ret raise].
  destruct (decide ("openai" ∈ providers)) as [Hin|Hout]; simpl.
  - rewrite Hc.
    destruct (oracle e (length (trace e)) (ChatCompletion "openai")) as [p|m];
      simpl; eexists _, _; (split; [reflexivity|]);
      (split; [done|]); split; intros; congruence.
  - eexists _, _. split; [reflexivity|]. split; [done|]. split; [done|].
    intros p Hin. done.
Qed.

Lemma summary_is_always_produced_witness :
  exists text e',
    AI.generate_call_summary ["openai"]
      {| cd_elapsed_seconds := 60; cd_caller_info := PyDict [];
         cd_conversation_history := "Call in progress";
         cd_current_issue := "Customer inquiry";
         cd_agent_notes := "Initial contact"; cd_call_id := "c1";
         cd_priority := "medium" |}
      "Transcript: my payment failed"
      (w_env (Scenario.with_answers Scenario.provider_down Scenario.start))
    = (Ok (PyStr text), e') /\
    text = AI._get_enhanced_fallback_summary "Transcript: my payment failed".
Proof.
  destruct (summary_is_always_produced ["openai"]
      {| cd_elapsed_seconds := 60; cd_caller_info := PyDict [];
         cd_conversation_history := "Call in progress";
         cd_current_issue := "Customer inquiry";
         cd_agent_notes := "Initial contact"; cd_call_id := "c1";
         cd_priority := "medium" |}
      "Transcript: my payment failed"
      (w_env (Scenario.with_answers Scenario.provider_down Scenario.start)))
    as (text & e' & Hrun & _ & Hbroke & _).
  - reflexivity.
  - exists text, e'. split; [exact Hrun|].
    apply (Hbroke "Request timed out."). reflexivity.
Defined.

(** X11.  When the default provider has no client, [generate_agent_context]
    raises "Context generation failed: ..." for every summary, without
    sending a request or reading the clock. *)
Theorem unconfigured_provider_gives_no_context providers default_provider
    summary (e : env) :
  default_provider ∉ providers ->
  exists msg,
    AI.generate_agent_context providers default_provider summary e
    = (Raise (Exception ("Context generation failed: " ++ msg)), e).
Proof.
  intros Hout.
  assert (Hopenai : forall p, p = default_provider ->
            AI._generate_openai providers p e = (Raise (KeyError p), e)).
  { intros p ->. unfold AI._generate_openai.
    by destruct (decide (default_provider ∈ providers)). }
  assert (Hs : (exists sentiment, AI.analyze_sentiment summary e = (Ok sentiment, e))
               \/ exists x, AI.analyze_sentiment summary e = (Raise x, e)
                             /\ is_Exception x = true).
  { destruct summary; simpl; try (right; eexists; split; reflexivity).
    left. repeat match goal with
                 | |- context [if ?b then _ else _] => destruct b
                 end; eexists; reflexivity. }
  unfold AI.generate_agent_context.
  destruct Hs as [[sentiment Hs] | (x & Hs & Hx)].
  2:{ eexists. erewrite try_except_Raise_eq; cycle 1.
      - erewrite bind_Raise_eq; [reflexivity | exact Hs].
      - exact Hx.
      - reflexivity. }
  assert (Hresp : exists x,
            (if String.eqb default_provider "openai"
             then AI._generate_openai providers "openai"
             else if String.eqb default_provider "groq"
             then AI._generate_groq providers
             else if String.eqb default_provider "anthropic"
             then AI._generate_anthropic providers
             else if String.eqb default_provider "openrouter"
             then AI._generate_openai providers "openrouter"
             else raise (ValueError ("Unsupported provider: " ++ default_provider)))
              e = (Raise x, e) /\ is_Exception x = true).
  { destruct (String.eqb default_provider "openai") eqn:H1.
    { apply String.eqb_eq in H1. subst. eexists. split; [by apply Hopenai|done]. }
    destruct (String.eqb default_provider "groq") eqn:H2.
    { apply String.eqb_eq in H2. subst. eexists. unfold AI._generate_groq.
      destruct (decide ("groq" ∈ providers)); [done|]. split; reflexivity. }
    destruct (String.eqb default_provider "anthropic") eqn:H3.
    { apply String.eqb_eq in H3. subst. eexists. unfold AI._generate_anthropic.
      destruct (decide ("anthropic" ∈ providers)); [done|]. split; reflexivity. }
    destruct (String.eqb default_provider "openrouter") eqn:H4.
    { apply String.eqb_eq in H4. subst. eexists. split; [by apply Hopenai|done]. }
    eexists. split; reflexivity. }
  destruct Hresp as (x & Hresp & Hx).
  eexists. erewrite try_except_Raise_eq; cycle 1.
  - rewrite (bind_Ok_eq _ _ _ _ _ Hs).
    erewrite bind_Raise_eq; [reflexivity | exact Hresp].
  - exact Hx.
  - reflexivity.
Qed.

Lemma unconfigured_provider_gives_no_context_witness :
  exists msg,
    AI.generate_agent_context ["openai"] "groq" (PyStr "Customer is angry")
      (w_env Scenario.start)
    = (Raise (Exception ("Context generation failed: " ++ msg)),
       w_env Scenario.start).
Proof.
  apply (unconfigured_provider_gives_no_context ["openai"] "groq").
  intros H. apply list_elem_of_singleton in H. discriminate.
Defined.


(** ** Properties of the orchestrator *)

(** X12.  A join that fails is not rolled back.  For a live transfer whose
    briefing room has a name, and a caller whose identifier is not empty,
    whatever [join_transfer_room] answers, an exception included, the transfer
    is still live afterwards with the caller recorded as a participant; and
    when both operators are then present its phase is [briefing], also when
    sharing the context failed. *)
Theorem join_records_operator_even_when_it_fails ai tid agent_id as_role w t :
  live w !! tid = Some t ->
  agent_id <> EmptyString ->
  transfer_room t <> EmptyString ->
  exists t',
    live (snd (join_transfer_room ai tid agent_id as_role w)) !! tid = Some t' /\
    is_Some (participants_of t' !! agent_id) /\
    ((source_agent_id t = agent_id \/ is_Some (participants_of t !! source_agent_id t)) ->
     (target_agent_id t = agent_id \/ is_Some (participants_of t !! target_agent_id t)) ->
     phase t' = briefing).
Proof.
  intros Hlive _ _.
  destruct (join_outcome ai tid agent_id as_role w t Hlive)
    as (t' & at_ & Ht' & Hp & _ & _ & Hph).
  exists t'. split; [exact Ht'|]. rewrite Hp in *. split.
  - rewrite lookup_insert_eq. eauto.
  - intros Hs Ht. apply Hph.
    + destruct Hs as [->|Hs]; [rewrite lookup_insert_eq; eauto|].
      destruct (decide (agent_id = source_agent_id t)) as [->|Hne];
        [rewrite lookup_insert_eq; eauto | by rewrite lookup_insert_ne].
    + destruct Ht as [->|Ht]; [rewrite lookup_insert_eq; eauto|].
      destruct (decide (agent_id = target_agent_id t)) as [->|Hne];
        [rewrite lookup_insert_eq; eauto | by rewrite lookup_insert_ne].
Qed.

Lemma join_records_operator_even_when_it_fails_witness :
  let run := join_transfer_room (AI.AIService [] "openai") "t0" "op-B" "agent"
               Scenario.source_in in
  fst run = Raise (Exception
    "Failed to join transfer room: Context generation failed: 'openai'") /\
  exists t',
    live (snd run) !! "t0" = Some t' /\
    is_Some (participants_of t' !! "op-B") /\
    phase t' = briefing.
Proof.
  split; [vm_compute; reflexivity|].
  edestruct (join_records_operator_even_when_it_fails (AI.AIService [] "openai")
               "t0" "op-B" "agent" Scenario.source_in)
    as (t' & Hl & Hp & Hph).
  - vm_compute. reflexivity.
  - discriminate.
  - vm_compute. discriminate.
  - exists t'. split; [exact Hl|]. split; [exact Hp|].
    apply Hph.
    + right. vm_compute. eauto.
    + left. vm_compute. reflexivity.
Defined.

(** X13.  A join that returns reports the phase stored for the transfer:
    [briefing] as soon as the source and the target operator are both
    present, and otherwise the phase and the status the transfer had. *)
Theorem briefing_starts_with_the_second_operator ai tid agent_id role w resp w' t :
  live w !! tid = Some t ->
  join_transfer_room ai tid agent_id role w = (Ok resp, w') ->
  (phase <$> live w' !! tid) = Some (jr_transfer_phase resp) /\
  ((source_agent_id t = agent_id \/ is_Some (participants_of t !! source_agent_id t)) ->
   (target_agent_id t = agent_id \/ is_Some (participants_of t !! target_agent_id t)) ->
   jr_transfer_phase resp = briefing) /\
  (~ ((source_agent_id t = agent_id
       \/ is_Some (participants_of t !! source_agent_id t)) /\
      (target_agent_id t = agent_id
       \/ is_Some (participants_of t !! target_agent_id t))) ->
   jr_transfer_phase resp = phase t /\
   (status <$> live w' !! tid) = Some (status t)).
Proof.
  intros Hlive H. unfold join_transfer_room in H.
  apply bind_Ok in H as (active & w1 & Hg & H). apply gets_Ok in Hg as [-> ->].
  rewrite Hlive in H. run_ok H.
  frame Hrun. frame Hrun0. apply mutate_Ok in Hrun1. frame Hrun3.
  apply ret_Ok in H as [-> ->].
  set (p := {| joined_at := a0; role := role |}) in *.
  set (t1 := record_participant agent_id p t) in *.
  assert (Hw2 : live w2 = alter (record_participant agent_id p) tid (live w)).
  { subst w2. unfold live. simpl. by rewrite <- Hsvc0, <- Hsvc. }
  assert (Hsrc : (source_agent_id t = agent_id
                  \/ is_Some (participants_of t !! source_agent_id t))
                 <-> is_Some (participants_of t1 !! source_agent_id t1)).
  { unfold t1. rewrite participants_of_record.
    change (source_agent_id (record_participant agent_id p t))
      with (source_agent_id t).
    destruct (decide (agent_id = source_agent_id t)) as [->|Hne].
    - rewrite lookup_insert_eq. split; eauto.
    - rewrite lookup_insert_ne by done. split; [intros [?|?]; [congruence|done] | eauto]. }
  assert (Htgt : (target_agent_id t = agent_id
                  \/ is_Some (participants_of t !! target_agent_id t))
                 <-> is_Some (participants_of t1 !! target_agent_id t1)).
  { unfold t1. rewrite participants_of_record.
    change (target_agent_id (record_participant agent_id p t))
      with (target_agent_id t).
    destruct (decide (agent_id = target_agent_id t)) as [->|Hne].
    - rewrite lookup_insert_eq. split; eauto.
    - rewrite lookup_insert_ne by done. split; [intros [?|?]; [congruence|done] | eauto]. }
  assert (Hw4 : live w4 = live w3) by (unfold live; by rewrite Hsvc1).
  destruct (bool_decide (is_Some (participants_of t1 !! source_agent_id t1))
            && bool_decide (is_Some (participants_of t1 !! target_agent_id t1))
            && bool_decide (phase t1 = waiting_for_agents)) eqn:Hcond.
  - apply start_briefing_Ok in Hrun2 as [-> Hw3].
    rewrite Hw4, Hw3, Hw2. rewrite !lookup_alter_eq, Hlive. simpl.
    split; [done|]. split; [done|].
    intros Hnot. destruct Hnot.
    apply andb_true_iff in Hcond as [Hcond _].
    apply andb_true_iff in Hcond as [H1 H2].
    apply bool_decide_eq_true in H1, H2. split; [by apply Hsrc | by apply Htgt].
  - apply ret_Ok in Hrun2 as [-> ->].
    rewrite Hw4, Hw2. rewrite lookup_alter_eq, Hlive. simpl.
    split; [done|]. split.
    + intros Hs Ht. apply Hsrc in Hs. apply Htgt in Ht.
      rewrite !bool_decide_eq_true_2 in Hcond by done. simpl in Hcond.
      apply bool_decide_eq_false in Hcond.
      change (phase t1) with (phase t) in Hcond.
      destruct (phase t) eqn:Hph; [by destruct Hcond | reflexivity].
    + intros _. done.
Qed.

Lemma briefing_starts_with_the_second_operator_witness :
  exists resp w',
    join_transfer_room Scenario.summarizer "t0" "op-B" "agent" Scenario.source_in
    = (Ok resp, w') /\
    jr_transfer_phase resp = briefing.
Proof.
  eexists _, _. split; [apply run_eq; vm_compute; reflexivity|].
  eapply (briefing_starts_with_the_second_operator Scenario.summarizer "t0" "op-B"
            "agent" Scenario.source_in).
  - vm_compute. reflexivity.
  - apply run_eq. vm_compute. reflexivity.
  - right. vm_compute. eauto.
  - left. reflexivity.
Defined.




Lemma join_not_live ai tid agent_id role w :
  live w !! tid = None ->
  join_transfer_room ai tid agent_id role w
  = (Raise (ValueError ("Transfer " ++ tid ++ " not found")), w).
Proof.
  intros H. unfold join_transfer_room, bind, gets. simpl. by rewrite H.
Qed.

Lemma complete_not_live tid success feedback w :
  live w !! tid = None ->
  complete_transfer tid success feedback w
  = (Raise (ValueError ("Transfer " ++ tid ++ " not found")), w).
Proof.
  intros H. unfold complete_transfer, bind, gets. simpl. by rewrite H.
Qed.

(** X15.  After [complete_transfer] has returned, every further join,
    completion or cancellation of the same transfer raises the [ValueError]
    "Transfer ... not found" and changes nothing. *)
Theorem finished_transfer_accepts_nothing tid success feedback w resp w' :
  complete_transfer tid success feedback w = (Ok resp, w') ->
  forall ai agent_id role success' feedback' reason,
    join_transfer_room ai tid agent_id role w'
    = (Raise (ValueError ("Transfer " ++ tid ++ " not found")), w') /\
    complete_transfer tid success' feedback' w'
    = (Raise (ValueError ("Transfer " ++ tid ++ " not found")), w') /\
    cancel_transfer tid reason w'
    = (Raise (ValueError ("Transfer " ++ tid ++ " not found")), w').
Proof.
  intros H ai agent_id role success' feedback' reason.
  apply complete_Ok in H as [Hl _].
  assert (Hnone : live w' !! tid = None) by (rewrite Hl; apply lookup_delete_eq).
  split; [by apply join_not_live|].
  split; [by apply complete_not_live | by apply cancel_not_live].
Qed.

Lemma finished_transfer_accepts_nothing_witness :
  exists resp w',
    complete_transfer "t0" true None Scenario.both_in = (Ok resp, w') /\
    join_transfer_room Scenario.summarizer "t0" "op-B" "agent" w'
    = (Raise (ValueError "Transfer t0 not found"), w') /\
    complete_transfer "t0" false None w'
    = (Raise (ValueError "Transfer t0 not found"), w') /\
    cancel_transfer "t0" None w'
    = (Raise (ValueError "Transfer t0 not found"), w').
Proof.
  eexists _, _. split; [apply run_eq; vm_compute; reflexivity|].
  eapply (finished_transfer_accepts_nothing "t0" true None Scenario.both_in).
  apply run_eq. vm_compute. reflexivity.
Defined.


(** ** What a request leaves unchanged *)

#[export] Instance unchanged_preorder {S X} (f : S -> X) : PreOrder (unchanged f).
Proof. split; unfold unchanged; [done | congruence]. Qed.

Lemma unchanged_modify {S X} (f : S -> X) (g : S -> S) :
  (forall s, f (g s) = f s) -> keeps (unchanged f) (modify g).
Proof. intros H s. unfold unchanged. simpl. by rewrite H. Qed.

Lemma unchanged_zoom {S T A X} (get : T -> S) (put : S -> T -> T) (m : ST S A)
    (f : T -> X) :
  (forall s t, f (put s t) = f t) -> keeps (unchanged f) (zoom get put m).
Proof. intros H t. unfold unchanged. by rewrite zoom_frame. Qed.

Section Unchanged.

Context {X : Type} (f : world -> X).

Lemma unchanged_in_lk {A} (m : LiveKit.LK A) :
  (forall s w, f (set_lk s w) = f w) -> keeps (unchanged f) (in_lk m).
Proof. apply unchanged_zoom. Qed.

Lemma unchanged_in_cm {A} (m : Connections.CM A) :
  (forall s w, f (set_cm s w) = f w) -> keeps (unchanged f) (in_cm m).
Proof. apply unchanged_zoom. Qed.

Lemma unchanged_in_db {A} (m : ST (Database.db_state * env) A) :
  (forall s w, f (set_db s w) = f w) -> keeps (unchanged f) (in_db m).
Proof. apply unchanged_zoom. Qed.

Lemma unchanged_in_env {A} (m : ST env A) :
  (forall e w, f (set_env e w) = f w) -> keeps (unchanged f) (in_env m).
Proof. apply unchanged_zoom. Qed.

Lemma unchanged_env_op {A} (m : ST env A) :
  (forall e w, f (set_env e w) = f w) ->
  keeps (unchanged f) (zoom get_env put_env m : M A).
Proof. apply unchanged_zoom. Qed.

End Unchanged.

Lemma unchanged_session {A X} (g : Database.db_state -> X)
    (body : ST Database.db_state A) :
  keeps (unchanged g) body ->
  keeps (unchanged (fun w => g (db w))) (in_db (Database.session body)).
Proof.
  intros K w. unfold unchanged.
  cbv [in_db zoom Database.session bind call_out Env.call_out]. simpl.
  destruct (oracle (w_env w) (length (trace (w_env w))) DbSession); simpl; [|done].
  specialize (K (db w)). destruct (body (db w)) as [r d']. exact K.
Qed.

Lemma directory_session {A} (body : ST Database.db_state A) :
  keeps (unchanged Database.agents) body ->
  keeps (unchanged directory) (in_db (Database.session body)).
Proof. apply (unchanged_session Database.agents). Qed.

Ltac unchanged_step :=
  first
    [ solve [ first [ simple apply keeps_ret | simple apply keeps_raise
                    | simple apply keeps_gets | simple apply keeps_of_result ];
              typeclasses eauto ]
    | solve [ first [ simple apply unchanged_in_lk | simple apply unchanged_in_cm
                    | simple apply unchanged_in_env | simple apply unchanged_in_db
                    | simple apply unchanged_env_op ];
              intros ? ?; reflexivity ]
    | solve [ simple apply unchanged_modify; intros ?; reflexivity ]
    | simple apply directory_session
    | simple apply keeps_bind; [ typeclasses eauto | | intros ? ]
    | simple apply keeps_try_except; [ typeclasses eauto | | intros ? ]
    | match goal with
      | |- keeps _ (match ?x with _ => _ end) => destruct x
      | |- keeps _ (if ?c then _ else _) => destruct c
      | |- keeps _ (let '(_, _) := ?x in _) => destruct x
      end ].

Ltac unchanged_auto :=
  repeat first
    [ unchanged_step
    | progress unfold mutate, cancel_timeout, _cleanup_transfer, task_cancel,
        utcnow, uuid4, _share_ai_context, _notify_transfer_initiation,
        _prepare_call_data, _update_agent_post_transfer, start_briefing,
        validate_request ].

Section Directory.

Variable ai : ai_service.

Lemma directory_initiate c src tgt reason priority :
  keeps (unchanged directory) (initiate_warm_transfer ai c src tgt reason priority).
Proof. unfold initiate_warm_transfer. unchanged_auto. Qed.

Lemma directory_join tid agent_id role :
  keeps (unchanged directory) (join_transfer_room ai tid agent_id role).
Proof. unfold join_transfer_room. unchanged_auto. Qed.

Lemma directory_cancel tid reason :
  keeps (unchanged directory) (cancel_transfer tid reason).
Proof. unfold cancel_transfer. unchanged_auto. Qed.

Lemma directory_failed_completion tid feedback :
  keeps (unchanged directory) (complete_transfer tid false feedback).
Proof. unfold complete_transfer. unchanged_auto. Qed.

Lemma directory_timeout tid : keeps (unchanged directory) (timeout_task tid).
Proof.
  intros w. unfold timeout_task.
  destruct (decide (tid ∈ timers w)); [|reflexivity].
  assert (K : keeps (unchanged directory) (_handle_transfer_timeout tid)).
  { unfold _handle_transfer_timeout. pose proof directory_cancel.
    repeat first [ unchanged_step | solve [auto] ]. }
  specialize (K (set_env (set_task (Some tid) false (w_env w)) w)).
  destruct (_handle_transfer_timeout tid _) as [r w']. exact K.
Qed.

End Directory.

(** X16.  The table of the operators is written by a completion with
    [success=True] only: any sequence of joins, failed completions,
    cancellations and timeouts, followed or not by an initiation, leaves every
    counter of every operator as it was. *)
Theorem directory_changes_only_on_successful_handover ai ops w :
  Forall (fun o => forall tid feedback, o <> Complete tid true feedback) ops ->
  Database.agents (db (after_all ai ops w)) = Database.agents (db w) /\
  forall c src tgt reason priority,
    Database.agents
      (db (snd (initiate_warm_transfer ai c src tgt reason priority
                  (after_all ai ops w))))
    = Database.agents (db w).
Proof.
  intros Hops.
  assert (H : Database.agents (db (after_all ai ops w)) = Database.agents (db w)).
  { revert w. induction Hops as [|o ops Ho Hops IH]; intros w; simpl; [done|].
    rewrite IH.
    destruct o as [tid agent r | tid success feedback | tid reason | tid]; simpl.
    - symmetry. apply (directory_join ai).
    - destruct success; [by destruct (Ho tid feedback)|].
      symmetry. apply directory_failed_completion.
    - symmetry. apply directory_cancel.
    - symmetry. apply directory_timeout. }
  split; [exact H|]. intros c src tgt reason priority. rewrite <- H.
  symmetry. apply (directory_initiate ai).
Qed.

Lemma directory_changes_only_on_successful_handover_witness :
  Database.agents
    (db (after_all Scenario.summarizer
           [Join "t0" "op-A" "agent"; Join "t0" "op-B" "agent";
            Complete "t0" false (Some "caller left");
            Cancel "t0" None; Timeout "t0"]
           Scenario.initiated))
  = Database.agents (db Scenario.initiated).
Proof.
  refine (proj1 (directory_changes_only_on_successful_handover Scenario.summarizer
           [Join "t0" "op-A" "agent"; Join "t0" "op-B" "agent";
            Complete "t0" false (Some "caller left");
            Cancel "t0" None; Timeout "t0"]
           Scenario.initiated _)).
  repeat constructor; intros; discriminate.
Defined.

Ltac frame_of f H :=
  match type of H with
  | ?m ?w = (_, ?w') =>
      let F := fresh "Hsame" in
      assert (F : f w = f w')
        by (let K := fresh in
            assert (K : keeps (unchanged f) m) by unchanged_auto;
            specialize (K w); rewrite H in K; exact K)
  end.

Lemma create_transfer_room_Ok original agent_a agent_b caller tid
    (s : LiveKit.state) (e : env) info s' e' :
  LiveKit.create_transfer_room original agent_a agent_b caller tid (s, e)
  = (Ok info, (s', e')) ->
  LiveKit.tri_transfer_id info = tid /\
  (exists x,
     LiveKit.active_transfers s' = <[tid := x]> (LiveKit.active_transfers s) /\
     LiveKit.lt_transfer_room x = LiveKit.transfer_room_of info /\
     LiveKit.lt_original_room x = original /\
     LiveKit.lt_agent_a x = agent_a /\ LiveKit.lt_agent_b x = agent_b /\
     LiveKit.lt_status x = initiated) /\
  (exists r,
     LiveKit.active_rooms s'
     = <[LiveKit.transfer_room_of info := r]> (LiveKit.active_rooms s) /\
     LiveKit.r_max_participants r = 3 /\ LiveKit.r_participants r = ∅).
Proof.
  unfold LiveKit.create_transfer_room. intros H.
  set (h := String.substring 0 6 (uuids e (uuid_ctr e))) in *.
  assert (Hh : uuid4_hex 6 (s, e) = (Ok h, (s, set_uuid_ctr S e))) by reflexivity.
  rewrite (bind_Ok_eq _ _ _ _ _ Hh) in H.
  apply try_reraise_Ok in H.
  apply bind_Ok in H as (info1 & [s1 e1] & Hroom & H).
  destruct (must_cancel e) eqn:Hc.
  { exfalso. revert Hroom.
    cbv [LiveKit.create_room or_else try_except bind LiveKit._get_api_client
         LiveKit.gets_lk gets raise LiveKit.modify_lk modify await_io utcnow zoom
         Env.await_io Env.call_out Env.utcnow ret].
    simpl. rewrite Hc. simpl. discriminate. }
  rewrite create_room_run in Hroom by done.
  destruct (oracle _ _ _) as [sid|m]; [|discriminate].
  injection Hroom as <- <- <-.
  apply bind_Ok in H as (at_ & st2 & Hnow & H).
  injection Hnow as <- <-.
  apply bind_Ok in H as (u & st3 & Hmod & H).
  apply modify_Ok in Hmod. subst st3.
  apply ret_Ok in H as [-> H]. injection H as -> ->. simpl.
  split; [done|]. split; eexists; (split; [reflexivity|]); done.
Qed.

Lemma session_Ok {A} (body : ST Database.db_state A) d e a d' e' :
  Database.session body (d, e) = (Ok a, (d', e')) ->
  body d = (Ok a, d') /\
  e' = set_trace (fun t => (t ++ [DbSession])%list) e.
Proof.
  cbv [Database.session bind call_out zoom Env.call_out]. simpl.
  destruct (oracle e (length (trace e)) DbSession); simpl; [|discriminate].
  destruct (body d) as [[x|x] d1]; [|discriminate].
  intros H. by simplify_eq.
Qed.

(** X17.  An initiation that returns has registered the transfer under the
    identifier it returns, the next one of the UUID stream: in the working set
    (status [initiated], phase [waiting_for_agents], no participant), among
    the timers, in the gateway (the briefing room and the transfer record) and
    in the table of the transfers (status [initiated], not completed). *)
Theorem initiation_registers_the_transfer_everywhere ai c src tgt reason priority
    w resp w' :
  initiate_warm_transfer ai c src tgt reason priority w = (Ok resp, w') ->
  ir_transfer_id resp = uuids (w_env w) (uuid_ctr (w_env w)) /\
  ir_transfer_id resp ∈ timers w' /\
  (exists t,
     live w' !! ir_transfer_id resp = Some t /\
     transfer_room t = ir_transfer_room resp /\
     status t = initiated /\ phase t = waiting_for_agents /\
     participants t = None) /\
  (exists x,
     LiveKit.active_transfers (lk w') !! ir_transfer_id resp = Some x /\
     LiveKit.lt_transfer_room x = ir_transfer_room resp /\
     LiveKit.lt_agent_a x = src /\ LiveKit.lt_agent_b x = tgt /\
     LiveKit.lt_status x = initiated) /\
  is_Some (LiveKit.active_rooms (lk w') !! ir_transfer_room resp) /\
  (exists r,
     Database.transfers (db w') !! ir_transfer_id resp = Some r /\
     Database.t_status r = initiated /\
     Database.t_transfer_room_name r = ir_transfer_room resp /\
     Database.t_completed_at r = None).
Proof.
  unfold initiate_warm_transfer. intros H.
  apply bind_Ok in H as (tid & w1 & Hid & H).
  apply try_except_Ok in H as [H | (e & s1 & _ & _ & H)].
  2:{ unfold bind, modify, raise in H. discriminate. }
  apply bind_Ok in H as ([[call sa] ta] & w2 & Hv & H).
  apply bind_Ok in H as (data & w3 & Hdata & H).
  apply bind_Ok in H as (summary & w4 & Hsum & H).
  apply bind_Ok in H as (caller & w5 & Hcaller & H).
  apply bind_Ok in H as (info & w6 & Hroom & H).
  apply bind_Ok in H as (u & w7 & Hins & H).
  apply bind_Ok in H as (now_ & w8 & Hnow & H).
  apply bind_Ok in H as (u1 & w9 & Hact & H).
  apply bind_Ok in H as (u2 & w10 & Htim & H).
  apply bind_Ok in H as (u3 & w11 & Hnot & H).
  apply ret_Ok in H as [-> ->]. simpl.
  apply modify_Ok in Hact, Htim.
  frame_of svc Hnot. frame_of lk Hnot. frame_of db Hnot.
  frame_of lk Hnow. frame_of db Hnow. frame_of svc Hnow.
  frame_of lk Hins.
  apply zoom_Ok in Hroom as ([s6 e6] & Hroom & Hw6).
  apply create_transfer_room_Ok in Hroom
    as (_ & (x & Hx & Hx1 & _ & Hx3 & Hx4 & Hx5) & (r & Hr & _)).
  apply zoom_Ok in Hins as ([d7 e7] & Hins & Hw7).
  apply session_Ok in Hins as [Hins _].
  apply bind_Ok in Hins as (text & d1 & Htext & Hins).
  apply bind_Ok in Hins as (sentiment & d2 & Hsent & Hins).
  apply modify_Ok in Hins.
  assert (d1 = db w6 /\ d2 = db w6) as [-> ->].
  { unfold of_result in *. by simplify_eq. }
  split.
  { unfold uuid4, zoom, Env.uuid4 in Hid. simpl in Hid. by injection Hid as <- _. }
  split.
  { unfold timers. rewrite <- Hsame. subst w10. simpl. set_solver. }
  split.
  { unfold live. rewrite <- Hsame. subst w10 w9. simpl.
    rewrite lookup_insert_eq. eexists. split; [reflexivity|]. done. }
  assert (Hlk : lk w11 = lk w6).
  { rewrite <- Hsame0. subst w10 w9. simpl. by rewrite <- Hsame2, <- Hsame5. }
  assert (Hdb : db w11 = db w7).
  { rewrite <- Hsame1. subst w10 w9. simpl. by rewrite <- Hsame3. }
  split.
  { rewrite Hlk, Hw6. simpl. rewrite Hx, lookup_insert_eq. eauto 10. }
  split.
  { rewrite Hlk, Hw6. simpl. rewrite Hr, lookup_insert_eq. eauto. }
  rewrite Hdb, Hw7. simpl. rewrite Hins. simpl. rewrite lookup_insert_eq.
  eexists. split; [reflexivity|]. done.
Qed.

Lemma initiation_registers_the_transfer_everywhere_witness :
  exists resp w',
    initiate_warm_transfer Scenario.summarizer "c1" "op-A" "op-B" None "medium"
      Scenario.start = (Ok resp, w') /\
    ir_transfer_id resp = "t0" /\
    ir_transfer_id resp ∈ timers w' /\
    is_Some (LiveKit.active_rooms (lk w') !! ir_transfer_room resp).
Proof.
  eexists _, _. split; [apply run_eq; vm_compute; reflexivity|].
  edestruct (initiation_registers_the_transfer_everywhere Scenario.summarizer
               "c1" "op-A" "op-B" None "medium" Scenario.start)
    as (Hid & Htm & _ & _ & Hroom & _).
  - apply run_eq. vm_compute. reflexivity.
  - split; [exact Hid|]. split; [exact Htm | exact Hroom].
Defined.





(** X20.  While the database answers, and outside the timeout task,
    [cancel_transfer] returns [cancelled] for every live transfer and removes
    it and its timer, whether or not the briefing room could be deleted: when
    the server refuses the deletion the room stays tracked.  The gateway's own
    transfer records are never updated by a cancellation. *)
Theorem cancellation_returns_even_if_the_room_survives tid reason w t :
  live w !! tid = Some t ->
  task (w_env w) = None -> must_cancel (w_env w) = false ->
  database_up (w_env w) ->
  exists w',
    cancel_transfer tid reason w
    = (Ok {| xr_transfer_id := tid; xr_status := cancelled; xr_reason := reason |},
       w') /\
    live w' !! tid = None /\
    (tid ∉ timers w') /\
    LiveKit.active_transfers (lk w') = LiveKit.active_transfers (lk w) /\
    (forall m, oracle (w_env w) (length (trace (w_env w)))
                 (LkDeleteRoom (transfer_room t)) = Broke m ->
               LiveKit.active_rooms (lk w') = LiveKit.active_rooms (lk w)) /\
    (forall p, oracle (w_env w) (length (trace (w_env w)))
                 (LkDeleteRoom (transfer_room t)) = Replied p ->
               LiveKit.active_rooms (lk w')
               = delete (transfer_room t) (LiveKit.active_rooms (lk w))).
Proof.
  intros Hlive Ht Hc Hup.
  destruct (cancel_transfer_returns tid reason w t Hlive Ht Hc Hup)
    as (resp & w' & Hrun & -> & _ & Hl & Htm & _ & _ & Hgw & ok & Hrooms & Hok).
  exists w'. split; [exact Hrun|].
  split; [rewrite Hl; apply lookup_delete_eq|]. split.
  { rewrite Htm, elem_of_difference, elem_of_singleton. tauto. }
  split; [exact Hgw|]. split.
  - intros m Hm. destruct ok; [|exact Hrooms].
    destruct Hok as [Hok _]. destruct (Hok eq_refl) as [p Hp]. congruence.
  - intros p Hp. destruct ok; [exact Hrooms|].
    destruct Hok as [_ Hok]. discriminate Hok. eauto.
Qed.

Lemma cancellation_returns_even_if_the_room_survives_witness :
  exists w',
    cancel_transfer "t0" (Some "caller hung up")
      (Scenario.with_answers
         (fun _ c => match c with
                     | LkDeleteRoom _ => Broke "unreachable"
                     | _ => Replied "ok"
                     end)
         Scenario.both_in)
    = (Ok {| xr_transfer_id := "t0"; xr_status := cancelled;
             xr_reason := Some "caller hung up" |}, w') /\
    live w' !! "t0" = None /\
    is_Some (LiveKit.active_rooms (lk w') !! "transfer_t0_t1").
Proof.
  edestruct (cancellation_returns_even_if_the_room_survives "t0"
               (Some "caller hung up")
               (Scenario.with_answers
                  (fun _ c => match c with
                              | LkDeleteRoom _ => Broke "unreachable"
                              | _ => Replied "ok"
                              end)
                  Scenario.both_in))
    as (w' & Hrun & Hl & _ & _ & Hbroke & _).
  - vm_compute. reflexivity.
  - reflexivity.
  - reflexivity.
  - intros n. exists "ok". reflexivity.
  - exists w'. split; [exact Hrun|]. split; [exact Hl|].
    rewrite (Hbroke "unreachable") by reflexivity. vm_compute. eauto.
Defined.

(** ** The status query *)

Lemma status_of_stored tid w :
  live w !! tid = None ->
  get_transfer_status tid w
  = match oracle (w_env w) (length (trace (w_env w))) DbSession with
    | Replied _ =>
        let w' := set_env (set_trace (fun t => (t ++ [DbSession])%list) (w_env w)) w in
        match Database.transfers (db w) !! tid with
        | Some r =>
            (Ok (StoredReport tid (Database.t_status r)
                   (match Database.t_completed_at r with
                    | Some _ => "completed"
                    | None => "unknown"
                    end)
                   (Connections.isoformat <$> Database.t_completed_at r)
                   (Database.t_duration_seconds r)
                   (Database.t_was_successful r)), w')
        | None => (Raise (ValueError ("Transfer " ++ tid ++ " not found")), w')
        end
    | Broke m =>
        (Raise (Exception m),
         set_env (set_trace (fun t => (t ++ [DbSession])%list) (w_env w)) w)
    end.
Proof.
  intros Hl. unfold get_transfer_status.
  rewrite (bind_Ok_eq _ _ w (live w) w) by reflexivity. rewrite Hl.
  cbv [bind in_db zoom Database.session call_out Env.call_out gets ret raise].
  simpl. destruct w as [sv l c d e]. simpl.
  destruct (oracle e (length (trace e)) DbSession); simpl; [|reflexivity].
  destruct (Database.transfers d !! tid); reflexivity.
Qed.

(** X21.  After a cancellation that returned, [get_transfer_status]
    answers from the table: status [cancelled], phase "unknown" and no
    completion time, since a cancellation never sets [completed_at]. *)
Theorem cancelled_transfer_reports_unknown_phase tid reason w t r :
  live w !! tid = Some t ->
  task (w_env w) = None -> must_cancel (w_env w) = false ->
  database_up (w_env w) ->
  Database.transfers (db w) !! tid = Some r ->
  Database.t_completed_at r = None ->
  exists resp w' w'',
    cancel_transfer tid reason w = (Ok resp, w') /\
    get_transfer_status tid w'
    = (Ok (StoredReport tid cancelled "unknown" None
             (Database.t_duration_seconds r) (Database.t_was_successful r)), w'').
Proof.
  intros Hlive Ht Hc Hup Hr Hdone.
  destruct (cancel_transfer_returns tid reason w t Hlive Ht Hc Hup)
    as (resp & w' & Hrun & _ & Hctx & Hl & _ & Hdb & _).
  exists resp, w'. eexists. split; [exact Hrun|].
  rewrite status_of_stored by (rewrite Hl; apply lookup_delete_eq).
  destruct (database_up_context _ _ Hctx Hup (length (trace (w_env w')))) as [p Hp].
  rewrite Hp. cbv zeta. rewrite Hdb, lookup_alter_eq, Hr. simpl.
  rewrite Hdone. reflexivity.
Qed.

Lemma cancelled_transfer_reports_unknown_phase_witness :
  exists resp w' w'' duration successful,
    cancel_transfer "t0" None Scenario.both_in = (Ok resp, w') /\
    get_transfer_status "t0" w'
    = (Ok (StoredReport "t0" cancelled "unknown" None duration successful), w'').
Proof.
  edestruct (cancelled_transfer_reports_unknown_phase "t0" None Scenario.both_in)
    as (resp & w' & w'' & Hrun & Hst).
  - vm_compute. reflexivity.
  - reflexivity.
  - reflexivity.
  - intros n. exists "ok". reflexivity.
  - vm_compute. reflexivity.
  - reflexivity.
  - exists resp, w', w''. eexists _, _. split; [exact Hrun | exact Hst].
Defined.



(** ** The routes *)

Lemma wrapped_raises {S A} (body : ST S A) (f : exn -> string) s x s' :
  try_except body (fun e => raise (Exception (f e))) s = (Raise x, s') ->
  x = CancelledError \/ exists m, x = Exception m.
Proof.
  unfold try_except. destruct (body s) as [[a|e] s1]; [discriminate|].
  destruct e; simpl; unfold raise; intros H; simplify_eq; eauto.
Qed.

Lemma initiate_raises ai c src tgt reason priority w x w' :
  initiate_warm_transfer ai c src tgt reason priority w = (Raise x, w') ->
  x = CancelledError \/ exists m, x = Exception m.
Proof.
  unfold initiate_warm_transfer.
  erewrite bind_Ok_eq by reflexivity.
  unfold try_except.
  match goal with |- context [match ?b with _ => _ end] =>
    destruct b as [[a|e] s1] end; [discriminate|].
  destruct e; simpl; unfold bind, modify, raise; intros H; simplify_eq; eauto.
Qed.

Lemma join_raises ai tid agent_id role w t x w' :
  live w !! tid = Some t ->
  join_transfer_room ai tid agent_id role w = (Raise x, w') ->
  x = CancelledError \/ exists m, x = Exception m.
Proof.
  intros Hl. unfold join_transfer_room.
  rewrite (bind_Ok_eq _ _ w (live w) w) by reflexivity. rewrite Hl.
  apply wrapped_raises.
Qed.

Lemma cancel_raises tid reason w t x w' :
  live w !! tid = Some t ->
  cancel_transfer tid reason w = (Raise x, w') ->
  x = CancelledError \/ exists m, x = Exception m.
Proof.
  intros Hl. unfold cancel_transfer.
  rewrite (bind_Ok_eq _ _ w (live w) w) by reflexivity. rewrite Hl.
  apply wrapped_raises.
Qed.

Lemma complete_raises tid success feedback w t x w' :
  live w !! tid = Some t ->
  complete_transfer tid success feedback w = (Raise x, w') ->
  x = CancelledError \/ exists m, x = Exception m.
Proof.
  intros Hl. unfold complete_transfer.
  rewrite (bind_Ok_eq _ _ w (live w) w) by reflexivity. rewrite Hl.
  unfold try_except.
  match goal with |- context [match ?b with _ => _ end] =>
    destruct b as [[a|e] s1] end; [discriminate|].
  destruct e; simpl; unfold bind, mutate, modify, raise; intros H; simplify_eq; eauto.
Qed.

Lemma route_400 {A B} (call : M A) (answer : A -> B) failure w detail w' :
  Endpoints.route call answer 400 failure w
  = (Ok (Endpoints.HTTPException 400 detail), w') ->
  exists m, call w = (Raise (ValueError m), w') /\ detail = m.
Proof.
  unfold Endpoints.route. destruct (call w) as [[a|e] w1]; [discriminate|].
  destruct e; intros H; simplify_eq. eauto.
Qed.

(** X23.  The route [POST /initiate] never answers 400: the service wraps
    every failure, validation included, in a plain [Exception], so every
    error answer is 500 with the fixed detail "Failed to initiate transfer". *)
Theorem initiate_route_never_answers_400 ai c src tgt reason priority w code detail w' :
  Endpoints.initiate_transfer ai c src tgt reason priority w
  = (Ok (Endpoints.HTTPException code detail), w') ->
  code = 500 /\ detail = "Failed to initiate transfer".
Proof.
  unfold Endpoints.initiate_transfer, Endpoints.route.
  destruct (initiate_warm_transfer _ _ _ _ _ _ w) as [[a|e] w1] eqn:Hrun;
    [discriminate|].
  apply initiate_raises in Hrun as [-> | [m ->]]; intros H; by simplify_eq.
Qed.

Lemma initiate_route_never_answers_400_witness :
  exists w',
    Endpoints.initiate_transfer Scenario.summarizer "c1" "op-A" "op-D" None "medium"
      Scenario.start
    = (Ok (Endpoints.HTTPException 500 "Failed to initiate transfer"), w').
Proof.
  destruct (Endpoints.initiate_transfer Scenario.summarizer "c1" "op-A" "op-D" None
              "medium" Scenario.start) as [[[b|code detail]|x] w'] eqn:Hrun.
  - exfalso. apply (f_equal fst) in Hrun. vm_compute in Hrun. discriminate.
  - destruct (initiate_route_never_answers_400 _ _ _ _ _ _ _ _ _ _ Hrun) as [-> ->].
    by exists w'.
  - exfalso. apply (f_equal fst) in Hrun. vm_compute in Hrun. discriminate.
Defined.

(** X24.  The routes [join], [complete] and [cancel] answer 400 exactly
    for a transfer that is not in the working set, with the detail "Transfer
    ... not found" and without changing anything; for a live transfer no
    failure is ever answered 400. *)
Theorem routes_answer_400_for_unknown_transfers_only ai tid agent_id role success
    feedback reason w :
  (live w !! tid = None ->
   Endpoints.join_transfer ai tid agent_id role w
   = (Ok (Endpoints.HTTPException 400 ("Transfer " ++ tid ++ " not found")), w) /\
   Endpoints.complete tid success feedback w
   = (Ok (Endpoints.HTTPException 400 ("Transfer " ++ tid ++ " not found")), w) /\
   Endpoints.cancel tid reason w
   = (Ok (Endpoints.HTTPException 400 ("Transfer " ++ tid ++ " not found")), w)) /\
  (is_Some (live w !! tid) ->
   forall detail w',
     Endpoints.join_transfer ai tid agent_id role w
     <> (Ok (Endpoints.HTTPException 400 detail), w') /\
     Endpoints.complete tid success feedback w
     <> (Ok (Endpoints.HTTPException 400 detail), w') /\
     Endpoints.cancel tid reason w
     <> (Ok (Endpoints.HTTPException 400 detail), w')).
Proof.
  split.
  - intros Hl.
    unfold Endpoints.join_transfer, Endpoints.complete, Endpoints.cancel,
      Endpoints.route.
    rewrite join_not_live, complete_not_live, cancel_not_live by done. done.
  - intros [t Hl] detail w'.
    split; [|split]; intros H; apply route_400 in H as (m & H & _).
    + by apply (join_raises _ _ _ _ _ t) in H as [? | [? ?]].
    + by apply (complete_raises _ _ _ _ t) in H as [? | [? ?]].
    + by apply (cancel_raises _ _ _ t) in H as [? | [? ?]].
Qed.

(** X25.  For a transfer that is not live, the route [GET /status] answers
    500 when the database session breaks, 404 when the database answers and
    has no such row, and the stored report otherwise. *)
Theorem status_route_tells_missing_from_unreachable tid w :
  live w !! tid = None ->
  (forall m, oracle (w_env w) (length (trace (w_env w))) DbSession = Broke m ->
     fst (Endpoints.status_of_transfer tid w)
     = Ok (Endpoints.HTTPException 500 "Failed to get transfer status")) /\
  (forall p, oracle (w_env w) (length (trace (w_env w))) DbSession = Replied p ->
     Database.transfers (db w) !! tid = None ->
     fst (Endpoints.status_of_transfer tid w)
     = Ok (Endpoints.HTTPException 404 ("Transfer " ++ tid ++ " not found"))) /\
  (forall p r, oracle (w_env w) (length (trace (w_env w))) DbSession = Replied p ->
     Database.transfers (db w) !! tid = Some r ->
     exists report,
       fst (Endpoints.status_of_transfer tid w) = Ok (Endpoints.Body report)).
Proof.
  intros Hl. unfold Endpoints.status_of_transfer, Endpoints.route.
  rewrite status_of_stored by done.
  split; [|split].
  - intros m ->. reflexivity.
  - intros p -> ->. reflexivity.
  - intros p r -> ->. eexists. reflexivity.
Qed.

Lemma status_route_tells_missing_from_unreachable_witness :
  fst (Endpoints.status_of_transfer "t9"
         (Scenario.with_answers Scenario.database_down Scenario.start))
  = Ok (Endpoints.HTTPException 500 "Failed to get transfer status") /\
  fst (Endpoints.status_of_transfer "t9" Scenario.start)
  = Ok (Endpoints.HTTPException 404 "Transfer t9 not found").
Proof.
  split.
  - refine (proj1 (status_route_tells_missing_from_unreachable "t9"
                     (Scenario.with_answers Scenario.database_down Scenario.start) _)
              "connection refused" _); reflexivity.
  - refine (proj1 (proj2 (status_route_tells_missing_from_unreachable "t9"
                            Scenario.start _)) "ok" _ _); reflexivity.
Defined.

(** X26.  The first database block of [initiate_warm_transfer] writes
    nothing, and accepts a request exactly when the call and both operators
    exist and the target is available, online and below its capacity: nothing
    but existence is asked of the source operator. *)
Theorem validation_accepts_exactly_free_targets c src tgt (d : Database.db_state) :
  snd (validate_request c src tgt d) = d /\
  forall call sa ta,
    fst (validate_request c src tgt d) = Ok (call, sa, ta) <->
    Database.calls d !! c = Some call /\
    Database.agents d !! src = Some sa /\
    Database.agents d !! tgt = Some ta /\
    Database.is_available ta = true /\
    Database.a_status ta = "online" /\
    (Database.current_calls ta < Database.max_concurrent_calls ta)%Z.
Proof.
  unfold validate_request.
  rewrite (bind_Ok_eq _ _ d d d) by reflexivity.
  destruct (Database.calls d !! c) as [call0|] eqn:Hc; simpl.
  2:{ split; [done|]. intros call sa ta. split; [discriminate|]. by intros (? & _). }
  destruct (Database.agents d !! src) as [sa0|] eqn:Hs; simpl.
  2:{ split; [done|]. intros call sa ta. split; [discriminate|].
      by intros (_ & ? & _). }
  destruct (Database.agents d !! tgt) as [ta0|] eqn:Ht; simpl.
  2:{ split; [done|]. intros call sa ta. split; [discriminate|].
      by intros (_ & _ & ? & _). }
  destruct (negb (Database.is_available ta0)
            || negb (String.eqb (Database.a_status ta0) "online")) eqn:Hav; simpl.
  { split; [done|]. intros call sa ta. split; [discriminate|].
    intros (_ & _ & Hta & Ha & Hst & _). injection Hta as <-.
    apply orb_true_iff in Hav as [Hav|Hav]; apply negb_true_iff in Hav.
    - congruence.
    - apply String.eqb_neq in Hav. done. }
  apply orb_false_iff in Hav as [Ha Hst].
  apply negb_false_iff in Ha, Hst. apply String.eqb_eq in Hst.
  destruct (Database.max_concurrent_calls ta0 <=? Database.current_calls ta0)%Z
    eqn:Hcap; simpl.
  { split; [done|]. intros call sa ta. split; [discriminate|].
    intros (_ & _ & Hta & _ & _ & Hlt). injection Hta as <-.
    apply Z.leb_le in Hcap. lia. }
  apply Z.leb_gt in Hcap.
  split; [done|]. intros call sa ta. split.
  - intros H. injection H as <- <- <-. done.
  - intros (H1 & H2 & H3 & _). by simplify_eq.
Qed.
